(** * metroholidays: the calendar assembler and the long-holiday labeler

    A shallow embedding of [MetroHolidays.load_calendar] and
    [MetroHolidays._categorize] (src/metroholidays/_metroholidays.py; the
    labeler is repeated verbatim in src/metroholidays/holidaysapi.py and
    src/metroholidays/__init__.py), with the properties the specification
    states about them.

    Conventions of the embedding
    - a [dt.date] is its proleptic Gregorian ordinal ([date.toordinal()]), a
      [Z]; [date_to - date_from] is then the difference of ordinals and
      [weekday] is Python's [date.weekday()] (Monday = 0 ... Sunday = 6);
    - a numpy array ([Series.values]) is a [list]; reading and writing through
      an integer index follows numpy: a negative index counts from the end,
      anything outside [-n, n) raises [IndexError];
    - a Python exception is a value of [py_exception], and code that may raise
      returns an [outcome];
    - the day-type strings of the source are the constructors of [day_type];
      [type_name] gives their spelling;
    - a NaN cell of a pandas column is [None];
    - the frame that the remote fetch yields is the parameter [holidays]; the
      call [self.load_holidays(...)] that is to deliver it is [load_holidays],
      with the binding of its arguments. *)

From Stdlib Require Import ZArith Lia.
From stdpp Require Import base decidable option strings numbers sorting list_numbers list.

Local Open Scope Z_scope.

(** ** Python outcomes *)

Inductive py_exception : Type :=
  | IndexError
  | KeyError
  | TypeError
  | ValueError.

Inductive outcome (A : Type) : Type :=
  | Returned (a : A)
  | Raised (e : py_exception).

Arguments Returned {A} a.
Arguments Raised {A} e.

#[global] Instance py_exception_eq_dec : EqDecision py_exception.
Proof. solve_decision. Defined.

#[global] Instance outcome_ret : MRet outcome := @Returned.

#[global] Instance outcome_bind : MBind outcome := λ A B f m,
  match m with
  | Returned a => f a
  | Raised e => Raised e
  end.

(** [for x in xs: s = body x s], stopping at the first exception. *)
Fixpoint for_each {X S : Type} (xs : list X) (body : X → S → outcome S) (s : S)
  : outcome S :=
  match xs with
  | [] => Returned s
  | x :: xs' => s' ← body x s; for_each xs' body s'
  end.

(** [range(lo, hi)] *)
Definition py_range (lo hi : Z) : list Z := seqZ lo (hi - lo).

(** ** numpy indexing *)

Definition np_index (n : nat) (i : Z) : outcome nat :=
  if decide (0 ≤ i < Z.of_nat n) then Returned (Z.to_nat i)
  else if decide (- Z.of_nat n ≤ i < 0) then Returned (Z.to_nat (i + Z.of_nat n))
  else Raised IndexError.

Definition np_get {A : Type} (a : list A) (i : Z) : outcome A :=
  p ← np_index (length a) i;
  match a !! p with
  | Some x => Returned x
  | None => Raised IndexError
  end.

Definition np_set {A : Type} (a : list A) (i : Z) (x : A) : outcome (list A) :=
  p ← np_index (length a) i;
  Returned (<[p := x]> a).

(** ** Dates *)

(** [date.weekday()] of the day with ordinal [d]: ordinal 1 (0001-01-01) is a
    Monday. *)
Definition weekday (d : Z) : Z := (d + 6) `mod` 7.

Arguments weekday : simpl never.

(** [datetime._is_leap], [_days_before_year], [_days_in_month],
    [_days_before_month] and [_ymd2ord] of the Python standard library, used
    to write concrete dates. *)
Definition is_leap (y : Z) : bool :=
  bool_decide (y `mod` 4 = 0 ∧ (y `mod` 100 ≠ 0 ∨ y `mod` 400 = 0)).

Definition days_before_year (y : Z) : Z :=
  let y' := y - 1 in y' * 365 + y' `div` 4 - y' `div` 100 + y' `div` 400.

Definition days_in_month (y m : Z) : Z :=
  if decide (m = 2) then (if is_leap y then 29 else 28)
  else if decide (m = 4 ∨ m = 6 ∨ m = 9 ∨ m = 11) then 30 else 31.

Definition days_before_month (y m : Z) : Z :=
  foldr Z.add 0 (days_in_month y <$> py_range 1 m).

(** [dt.date(y, m, d).toordinal()] *)
Definition dt_date (y m d : Z) : Z :=
  days_before_year y + days_before_month y m + d.

(** ** The labeler: [_categorize] *)

Inductive day_type : Type :=
  | others
  | Friday
  | Saturday
  | Sunday
  | first_day
  | middle_days
  | last_day.

#[global] Instance day_type_eq_dec : EqDecision day_type.
Proof. solve_decision. Defined.

Definition type_name (t : day_type) : string :=
  match t with
  | others => "others"
  | Friday => "Friday"
  | Saturday => "Saturday"
  | Sunday => "Sunday"
  | first_day => "first_day"
  | middle_days => "middle_days"
  | last_day => "last_day"
  end.

(** A pandas column ([pd.Series]): one (index date, value) pair per row. *)
Abbreviation series := (list (Z * option Z)).

Definition fillna (x : Z) (v : option Z) : Z := default x v.

(** [df_c['type']] before the sweeps: 'others', then the three overrides in
    the order of the source. *)
Definition default_type (wday : Z) : day_type :=
  let t := others in
  let t := if decide (wday = 4) then Friday else t in
  let t := if decide (wday = 5) then Saturday else t in
  let t := if decide (wday = 6) then Sunday else t in
  t.

(** [df_c['tmp']]: 0, set to 1 on Saturdays and Sundays, plus the filled flag. *)
Definition base_weight (wday : Z) (flag : option Z) : Z :=
  (if decide (wday = 5 ∨ wday = 6) then 1 else 0) + fillna 0 flag.

Definition wdays (column : series) : list Z := (λ r, weekday r.1) <$> column.

Definition weights (column : series) : list Z :=
  (λ r, base_weight (weekday r.1) r.2) <$> column.

Definition default_types (column : series) : list day_type :=
  default_type <$> wdays column.

(** The inner loop of the first sweep (lines 112-113):
    [for j in range(1, last + 1): counts[k - j] = last]. *)
Definition backfill (k last : Z) (counts : list Z) : outcome (list Z) :=
  for_each (py_range 1 (last + 1)) (λ j c, np_set c (k - j) last) counts.

(** One iteration of the first sweep (lines 107-114) on the state
    [(counts, last)]. *)
Definition propagate_step (k : Z) (st : list Z * Z) : outcome (list Z * Z) :=
  let '(counts, last) := st in
  v ← np_get counts k;
  if decide (v > 0) then
    let last := last + 1 in
    counts ← np_set counts k last;
    Returned (counts, last)
  else
    counts ← backfill k last counts;
    Returned (counts, 0).

(** The first sweep of [_categorize] (lines 105-114): [last = int(counts[0])],
    then the loop over [range(1, len(counts))]. *)
Definition first_sweep (counts : list Z) : outcome (list Z) :=
  last ← np_get counts 0;
  st ← for_each (py_range 1 (Z.of_nat (length counts))) propagate_step (counts, last);
  Returned st.1.

(** One iteration of the second sweep (lines 118-127) on the state
    [(days, last)]; [counts] is only read. *)
Definition label_step (counts : list Z) (min_days : Z) (k : Z)
    (st : list day_type * Z) : outcome (list day_type * Z) :=
  let '(days, last) := st in
  v ← np_get counts k;
  days ←
    (if decide (v = 0) then
       if decide (last >= min_days) then np_set days (k - 1) last_day
       else Returned days
     else if decide (v >= min_days) then
       days ← (if decide (last = 0) then np_set days (k - 1) first_day
               else Returned days);
       np_set days k middle_days
     else Returned days);
  Returned (days, v).

(** The second sweep of [_categorize] (lines 116-127). *)
Definition second_sweep (counts : list Z) (days : list day_type) (min_days : Z)
  : outcome (list day_type) :=
  last ← np_get counts 0;
  st ← for_each (py_range 1 (Z.of_nat (length counts))) (label_step counts min_days)
         (days, last);
  Returned st.1.

(** [_categorize] (lines 88-129): the weekday labels and the base weights of
    the column, then the two sweeps over them. *)
Definition _categorize (column : series) (min_days : Z) : outcome (list day_type) :=
  let days := default_types column in
  counts ← first_sweep (weights column);
  second_sweep counts days min_days.

(** A column as [load_calendar] passes it: consecutive days from [start],
    one flag each. *)
Definition column_from (start : Z) (flags : list Z) : series :=
  zip (seqZ start (Z.of_nat (length flags))) (Some <$> flags).

(** ** The first sweep as a function of the run structure *)

(** What the first sweep leaves behind a pending run of [cur] nonzero days
    followed by the days [w]: a run closed by a later zero day holds its
    length at every position, a run still open at the end of the sequence
    holds the positions 1, 2, ... *)
Fixpoint run_lengths (cur : nat) (w : list Z) : list Z :=
  match w with
  | [] => seqZ 1 (Z.of_nat cur)
  | v :: w' =>
      if decide (v > 0) then run_lengths (S cur) w'
      else replicate cur (Z.of_nat cur) ++ v :: run_lengths 0 w'
  end.

(** The lengths of the maximal runs of nonzero weights that a later zero day
    closes, in order; [cur] days of a run are pending in front of [w]. *)
Fixpoint closed_runs (cur : nat) (w : list Z) : list nat :=
  match w with
  | [] => []
  | v :: w' =>
      if decide (v = 0)
      then (if decide (cur = 0%nat) then [] else [cur]) ++ closed_runs 0 w'
      else closed_runs (S cur) w'
  end.

(** The length of the run of nonzero weights still open at the end of the
    sequence (0 when the last day has weight zero). *)
Fixpoint trailing_run (cur : nat) (w : list Z) : nat :=
  match w with
  | [] => cur
  | v :: w' => if decide (v = 0) then trailing_run 0 w' else trailing_run (S cur) w'
  end.

(** ** The second sweep, position by position *)

(** The mark a day receives in its own iteration ([days[k] = 'middle_days']). *)
Definition own_mark (min_days v : Z) (x : day_type) : day_type :=
  if decide (v = 0) then x
  else if decide (v >= min_days) then middle_days
  else x.

(** The mark a day receives in the iteration of the day after it
    ([days[k - 1] = ...]); [last] is its own weight, [v] the next day's. *)
Definition behind_mark (min_days last v : Z) (x : day_type) : day_type :=
  if decide (v = 0) then (if decide (last >= min_days) then last_day else x)
  else if decide (v >= min_days) then (if decide (last = 0) then first_day else x)
  else x.

(** The labels of the days from a position on, the head of [d] having had its
    own iteration already. *)
Fixpoint labels_from (min_days : Z) (c : list Z) (d : list day_type) : list day_type :=
  match c, d with
  | v :: c', x :: d' =>
      match c', d' with
      | v' :: _, x' :: d'' =>
          behind_mark min_days v v' x
            :: labels_from min_days c' (own_mark min_days v' x' :: d'')
      | _, _ => d
      end
  | _, _ => d
  end.

Definition is_long (t : day_type) : Prop :=
  t = first_day ∨ t = middle_days ∨ t = last_day.

#[global] Instance is_long_dec t : Decision (is_long t).
Proof. unfold is_long. apply _. Defined.

(** The number of days labelled first_day, middle_days or last_day. *)
Definition long_days (days : list day_type) : nat := length (filter is_long days).


(** The label of position [p] after the second sweep over the weights [c] of
    a sequence whose labels were [d] before it. *)
Definition label_at (min_days : Z) (c : list Z) (d : list day_type) (p : nat)
  : option day_type :=
  x ← d !! p;
  v ← c !! p;
  let x := match p with O => x | S _ => own_mark min_days v x end in
  Some (match c !! S p with
        | Some v' => behind_mark min_days v v' x
        | None => x
        end).

(** [c] has the length of [w] and is positive wherever [w] is. *)
Definition keeps_positive (w c : list Z) : Prop :=
  length c = length w ∧
  ∀ p x, w !! p = Some x → x > 0 → ∃ y, c !! p = Some y ∧ y > 0.

(** The number of days whose weight reaches [min_days]. *)
Definition ge_count (min_days : Z) (c : list Z) : nat :=
  length (filter (λ v, v >= min_days) c).

(** The number of zero-weight days followed by a day whose weight reaches
    [min_days]. *)
Fixpoint first_marks (min_days : Z) (c : list Z) : nat :=
  match c with
  | [] => 0%nat
  | v :: c' =>
      ((match c' with
        | v' :: _ => if decide (v = 0 ∧ v' >= min_days)%Z then 1 else 0
        | [] => 0
        end) + first_marks min_days c')%nat
  end.

(** The marks on account of the closed runs that reach [min_days]: one per
    day of the run, and one on the day before it. *)
Definition closed_marks (min_days : Z) (runs : list nat) : nat :=
  sum_list (S <$> filter (λ L : nat, Z.of_nat L >= min_days) runs).

(** The marks on account of a run of [T] days that is still open at the end
    of the range: middle_days on each day from the [min_days]-th on, and
    first_day on the day before the run when [min_days] is 1. *)
Definition trailing_marks (min_days : Z) (T : nat) : nat :=
  (Z.to_nat (Z.of_nat T - min_days + 1)
   + if decide ((1 ≤ T)%nat ∧ (min_days ≤ 1)%Z) then 1 else 0)%nat.

(** The marks on account of a run of [L] days that starts on day 0 and is
    closed by a later zero day, when it reaches [min_days]: no day before it
    can carry first_day and day 0 gets no middle_days, so a run of two days or
    more has middle_days or last_day on its days but the first, and a run of
    one day has last_day on day 0. *)
Definition leading_marks (min_days : Z) (L : nat) : nat :=
  if decide (Z.of_nat L >= min_days)
  then (if decide (L = 1%nat) then 1 else L - 1)%nat
  else 0%nat.

(** The marks on account of a run of [T] days that starts on day 0 and is
    still open at the end of the range: middle_days on each of its days from
    the [min_days]-th on, day 0 left out. *)
Definition whole_range_marks (min_days : Z) (T : nat) : nat :=
  Z.to_nat (Z.of_nat T - Z.max min_days 2 + 1).

(** The number of marked days that the runs of a weight sequence account
    for. *)
Definition marked_total (min_days : Z) (w : list Z) : nat :=
  match w with
  | [] => 0%nat
  | v :: w' =>
      if decide (v = 0)
      then (closed_marks min_days (closed_runs 0 w')
            + trailing_marks min_days (trailing_run 0 w'))%nat
      else
        match closed_runs 1 w' with
        | [] => whole_range_marks min_days (trailing_run 1 w')
        | L :: runs =>
            (leading_marks min_days L + closed_marks min_days runs
             + trailing_marks min_days (trailing_run 1 w'))%nat
        end
  end.

(** A column of day-off flags: every cell is 0, 1 or NaN. *)
Definition flag_column (column : series) : Prop :=
  Forall (λ r, r.2 = None ∨ r.2 = Some 0 ∨ r.2 = Some 1) column.

(** ** The two sweeps in the words of the specification (section 4.2)

    The specification describes the sweeps on a weight sequence and a label
    sequence indexed by the days 0 .. n-1.  These definitions follow its
    wording; they are compared with the sweeps of the source below. *)

(** "overwrite weight[i-j] = run": the sequence has the days 0 .. n-1 only, a
    write addressed to no day changes no day. *)
Definition spec_write (weight : list Z) (i : Z) (x : Z) : list Z :=
  if decide (0 ≤ i < Z.of_nat (length weight)) then <[Z.to_nat i := x]> weight
  else weight.

(** "if weight[i] > 0, increment run by 1 and set weight[i] = run; if
    weight[i] == 0, back-fill: for every index j from 1 to run overwrite
    weight[i-j] = run, then reset run = 0." *)
Definition spec_propagate_step (st : list Z * Z) (i : nat) : list Z * Z :=
  let '(weight, run) := st in
  if decide (weight !!! i > 0) then
    let run := run + 1 in (<[i := run]> weight, run)
  else
    (foldl (λ w j, spec_write w (Z.of_nat i - j) run) weight (seqZ 1 run), 0).

(** "maintain a running counter run initialized to weight[0]. For i from 1 to
    n-1 ..." *)
Definition spec_propagate (weight : list Z) : list Z :=
  (foldl spec_propagate_step (weight, weight !!! 0%nat) (seq 1 (length weight - 1))).1.

(** "let v = weight[i]: if v == 0 and last >= min_days, mark label[i-1] =
    last_day; if v >= min_days: if last == 0, mark label[i-1] = first_day;
    always mark label[i] = middle_days. After each step set last = v." *)
Definition spec_label_step (weight : list Z) (min_days : Z)
    (st : list day_type * Z) (i : nat) : list day_type * Z :=
  let '(label, last) := st in
  let v := weight !!! i in
  let label :=
    if decide (v = 0 ∧ last >= min_days) then <[(i - 1)%nat := last_day]> label
    else label in
  let label :=
    if decide (v >= min_days) then
      let label :=
        if decide (last = 0) then <[(i - 1)%nat := first_day]> label else label in
      <[i := middle_days]> label
    else label in
  (label, v).

(** "maintain last = weight[0]. For i from 1 to n-1 ..." *)
Definition spec_labels (weight : list Z) (label : list day_type) (min_days : Z)
  : list day_type :=
  (foldl (spec_label_step weight min_days) (label, weight !!! 0%nat)
     (seq 1 (length weight - 1))).1.

(** The sum the specification's round-trip property speaks of: the lengths of
    the runs that reach [min_days]. *)
Definition qualifying_total (min_days : Z) (runs : list nat) : nat :=
  sum_list (filter (λ L : nat, Z.of_nat L >= min_days) runs).

(** ** The calendar assembler: [load_calendar] *)

(** A row of the frame that [load_holidays] returns.  [load_calendar] reads
    the columns 'country_code', 'day_off' and 'date' only. *)
Record holiday : Type := Holiday {
  country_code : string;
  day_off : bool;
  date : Z
}.

Definition DEFAULT_COUNTRIES : list string := ["jp"; "cn"; "kr"; "tw"; "us"; "th"].

(** A data frame indexed or keyed by date, one cell per selected column. *)
Abbreviation frame A := (list (Z * list A)).

(** [pd.pivot_table(df, values='day_off', index=['date'],
    columns=['country_code'], aggfunc=np.max)]: the index holds the dates of
    [df], sorted and without repetition, the columns are the country codes
    that occur in [df], and a cell is the maximum of the [day_off] values of
    its group ([True] counts as 1), NaN when the group is empty. *)
Definition pivot_index (df : list holiday) : list Z :=
  merge_sort Z.le (remove_dups (date <$> df)).

Definition pivot_columns (df : list holiday) : list string :=
  remove_dups (country_code <$> df).

Definition pivot_cell (df : list holiday) (d : Z) (c : string) : option Z :=
  match filter (λ h, date h = d ∧ country_code h = c) df with
  | [] => None
  | h :: hs => Some (foldr Z.max (Z.b2z (day_off h)) (Z.b2z ∘ day_off <$> hs))
  end.

(** [dfp[['date'] + country_codes]]: pandas raises KeyError when a label is
    not a column of the frame. *)
Definition select_countries (df : list holiday) (country_codes : list string)
  : outcome (frame (option Z)) :=
  if decide (Forall (λ c, c ∈ pivot_columns df) country_codes)
  then Returned ((λ d, (d, pivot_cell df d <$> country_codes)) <$> pivot_index df)
  else Raised KeyError.

(** [pd.date_range(date_from, date_to, freq='D')]: every day from [date_from]
    to [date_to], none when [date_to] is before [date_from]. *)
Definition date_range (date_from date_to : Z) : list Z :=
  seqZ date_from (date_to - date_from + 1).

(** [pd.merge(df_calendar, dfp, on='date', how='left')]: the rows of the left
    frame in their order, each joined with every right row of the same date,
    or with NaN cells when there is none. *)
Definition merge_left (calendar : list Z) (ncols : nat) (dfp : frame (option Z))
  : frame (option Z) :=
  d ← calendar;
  match filter (λ r : Z * list (option Z), r.1 = d) dfp with
  | [] => [(d, replicate ncols None)]
  | rs => (λ r : Z * list (option Z), (d, r.2)) <$> rs
  end.

(** [df_calendar.loc[df_calendar['wday'].isin([5, 6]), country_codes] = 1] *)
Definition force_weekends (df : frame (option Z)) : frame (option Z) :=
  (λ r : Z * list (option Z),
     if decide (weekday r.1 ∈ [5; 6]) then (r.1, (λ _, Some 1) <$> r.2) else r)
    <$> df.

(** [astype(np.int8)] on an integer. *)
Definition int8 (v : Z) : Z := (v + 128) `mod` 256 - 128.

(** [df_calendar[country_codes].fillna(0).astype(np.int8)] *)
Definition fill_flags (df : frame (option Z)) : frame Z :=
  (λ r : Z * list (option Z), (r.1, (λ v, int8 (fillna 0 v)) <$> r.2)) <$> df.

(** [if not country_codes: country_codes = DEFAULT_COUNTRIES] *)
Definition requested (country_codes : option (list string)) : list string :=
  match country_codes with
  | None | Some [] => DEFAULT_COUNTRIES
  | Some cs => cs
  end.

(** The call [self.load_holidays(date_from, date_to, country_codes)] of line
    61.  [MetroHolidays.load_holidays(self, *args, **kwargs)] (lines 37-39)
    hands its arguments on to [HolidaysApi.load_holidays(self, date_from,
    date_to)] (src/metroholidays/utils/holidaysapi.py, line 127), which takes
    the two dates and nothing else: a further positional argument makes the
    call raise TypeError before its body runs.  [more] holds the positional
    arguments that follow the two dates, [holidays] is the frame that the
    body returns. *)
Definition load_holidays (holidays : list holiday) (date_from date_to : Z)
    (more : list (list string)) : outcome (list holiday) :=
  match more with
  | [] => Returned holidays
  | _ :: _ => Raised TypeError
  end.

(** Lines 58-59 and 62-78 of [load_calendar]: the dense calendar that they
    build from a frame [holidays], one row per day and one 0/1 flag per
    requested country.  With a country requested twice the subscript of line
    77 selects more columns than the key has labels, and the assignment
    raises ValueError. *)
Definition dense_calendar (holidays : list holiday) (date_from date_to : Z)
    (country_codes : option (list string)) (weekends : bool)
  : outcome (frame Z) :=
  let country_codes := requested country_codes in
  dfp ← select_countries holidays country_codes;
  let df_calendar := date_range date_from date_to in
  let df_calendar := merge_left df_calendar (length country_codes) dfp in
  let df_calendar := if weekends then force_weekends df_calendar else df_calendar in
  if decide (NoDup country_codes) then Returned (fill_flags df_calendar)
  else Raised ValueError.

(** [df_calendar[country]] for the country in position [j]. *)
Definition frame_column (df : frame Z) (j : nat) : series :=
  (λ r : Z * list Z, (r.1, r.2 !! j)) <$> df.

(** The frame [load_calendar] returns: the date index, and per requested
    country its day-type column and its flag column. *)
Record calendar : Type := Calendar {
  cal_index : list Z;
  cal_countries : list string;
  cal_day_type : list (list day_type);
  cal_flags : list series
}.

(** Lines 58-59 and 62-86 of [load_calendar]: what the function goes on to
    do with a frame [df], the dense calendar and the day-type column of each
    requested country. *)
Definition build_calendar (df : list holiday) (date_from date_to : Z)
    (country_codes : option (list string)) (long_holidays : Z) (weekends : bool)
  : outcome calendar :=
  df_calendar ← dense_calendar df date_from date_to country_codes weekends;
  let country_codes := requested country_codes in
  cols ← for_each (seq 0 (length country_codes))
            (λ j cols,
               col ← _categorize (frame_column df_calendar j) long_holidays;
               Returned (cols ++ [col]))
            [];
  Returned {| cal_index := fst <$> df_calendar;
              cal_countries := country_codes;
              cal_day_type := cols;
              cal_flags := frame_column df_calendar <$> seq 0 (length country_codes) |}.

(** [MetroHolidays.load_calendar] (lines 41-86): the default of the country
    list, the call of line 61 with the list as third argument, and the rest
    on the frame that the call returns. *)
Definition load_calendar (holidays : list holiday) (date_from date_to : Z)
    (country_codes : option (list string)) (long_holidays : Z) (weekends : bool)
  : outcome calendar :=
  df ← load_holidays holidays date_from date_to [requested country_codes];
  build_calendar df date_from date_to country_codes long_holidays weekends.

(** The (date, country) pairs that the holiday table marks as a day off. *)
Definition marked (holidays : list holiday) (d : Z) (c : string) : Prop :=
  Exists (λ h, date h = d ∧ country_code h = c ∧ day_off h = true) holidays.

(** The flag of country [c] on day [d] in a returned calendar. *)
Definition flag_of (cal : calendar) (d : Z) (c : string) : option Z :=
  j ← list_find (λ c', c' = c) (cal_countries cal) ≫= (λ jc, Some jc.1);
  col ← cal_flags cal !! j;
  r ← list_find (λ r : Z * option Z, r.1 = d) col;
  r.2.2.



(** The flag that the dense calendar holds for country [c] on day [d]: 1 on
    a Saturday or Sunday when [weekends] is set, 1 on a day that the holiday
    table marks, 0 otherwise. *)
Definition flag_value (weekends : bool) (holidays : list holiday) (d : Z) (c : string)
  : Z :=
  if decide (weekends = true ∧ weekday d ∈ [5; 6]) then 1
  else if decide (marked holidays d c) then 1
  else 0.


(** ** Reading a returned calendar *)

(** The day type of country [c] on day [d] in a returned calendar: the cell
    of row [d] in the column [f'{c}_day_type']. *)
Definition day_type_of (cal : calendar) (d : Z) (c : string) : option day_type :=
  j ← list_find (λ c', c' = c) (cal_countries cal) ≫= (λ jc, Some jc.1);
  col ← cal_day_type cal !! j;
  i ← list_find (λ d', d' = d) (cal_index cal) ≫= (λ id, Some id.1);
  col !! i.

(** The column [df_calendar[country]] that [load_calendar] hands to
    [_categorize] once the calendar is dense: one row per day of [dates],
    with the flag of country [c]. *)
Definition dense_column (weekends : bool) (holidays : list holiday) (dates : list Z)
    (c : string) : series :=
  (λ d, (d, Some (flag_value weekends holidays d c))) <$> dates.

(** ** The earlier copies of [load_calendar]

    [MetroHolidays.load_calendar] of src/metroholidays/__init__.py and
    [HolidaysApi.load_calendar] of src/metroholidays/holidaysapi.py have no
    [weekends] mode and no fixed default list: when no country is asked for
    they take the countries of the fetched table.  They label the days with
    the same [_categorize].  Their call [self.load_holidays(date_from,
    date_to)] has the two arguments that [load_holidays] takes; the frame that
    it returns is the parameter [holidays]. *)

(** [list(df['country_code'].unique())]: the values of the column, each
    once, in the order of their first appearance. *)
Fixpoint py_unique (l : list string) : list string :=
  match l with
  | [] => []
  | x :: l' => x :: filter (λ y, y ≠ x) (py_unique l')
  end.

(** [if not countries: countries = list(df['country_code'].unique())] *)
Definition countries_or_all (df : list holiday) (countries : option (list string))
  : list string :=
  match countries with
  | None | Some [] => py_unique (country_code <$> df)
  | Some cs => cs
  end.

(** [df_calendar[country]] for the country in position [j] of a frame whose
    cells may be NaN. *)
Definition nan_column (df : frame (option Z)) (j : nat) : series :=
  (λ r : Z * list (option Z), (r.1, r.2 !! j ≫= id)) <$> df.

(** [dfp[countries] = dfp[countries].fillna(0).astype(np.int8)] on the
    selected columns of the pivot table. *)
Definition fill_pivot (dfp : frame (option Z)) : frame (option Z) :=
  (λ r : Z * list (option Z), (r.1, (λ v, Some (int8 (fillna 0 v))) <$> r.2)) <$> dfp.

(** src/metroholidays/__init__.py, lines 47-83.  On an empty table with no
    country asked for, [countries] is empty and the pivot table has no
    column; the statements below leave that case out.  With a country asked
    for twice the assignment of line 75 raises ValueError, as that of line 77
    above. *)
Module Package.

Definition load_calendar (holidays : list holiday) (date_from date_to : Z)
    (countries : option (list string)) (long_holidays : Z) : outcome calendar :=
  let countries := countries_or_all holidays countries in
  dfp ← select_countries holidays countries;
  let df_calendar := date_range date_from date_to in
  let df_calendar := merge_left df_calendar (length countries) dfp in
  df_calendar ← (if decide (NoDup countries) then Returned (fill_flags df_calendar)
                 else Raised ValueError);
  cols ← for_each (seq 0 (length countries))
            (λ j cols,
               col ← _categorize (frame_column df_calendar j) long_holidays;
               Returned (cols ++ [col]))
            [];
  Returned {| cal_index := fst <$> df_calendar;
              cal_countries := countries;
              cal_day_type := cols;
              cal_flags := frame_column df_calendar <$> seq 0 (length countries) |}.

End Package.


(** ** The response of the API and [load_holidays]

    The two copies of [HolidaysApi.load_holidays] turn the JSON list that
    [load_holidays_raw] returned into a frame with one row per holiday and
    date.  The list is the parameter [holidays_raw]; a date of the response
    is the ordinal of the day it denotes. *)

(** A member of a JSON object: absent, null, or a value. *)
Inductive member (A : Type) : Type :=
  | Absent
  | Null
  | Value (a : A).

Arguments Absent {A}.
Arguments Null {A}.
Arguments Value {A} a.

(** A holiday of the response, with the keys that [load_holidays] reads. *)
Record raw_holiday : Type := RawHoliday {
  raw_country_code : member string;
  raw_en_name : member string;
  raw_day_off : member bool;
  raw_observed : member bool;
  raw_created_at : member string;
  raw_updated_at : member string;
  raw_dates : member (list Z)
}.

(** A row of the frame of the newer [load_holidays], in the order of
    [names].  A member that the holiday lacks, or that is null, is Python's
    [None], which the frame keeps in its cell: [None] here. *)
Record holiday_row : Type := HolidayRow {
  row_country_code : option string;
  row_en_name : option string;
  row_day_off : option bool;
  row_observed : option bool;
  row_created_at : option string;
  row_updated_at : option string;
  row_date : Z
}.

(** A cell of the frame of the earlier [load_holidays]: a null member is
    no value of its level of the index that [pd.MultiIndex.from_product]
    builds, and [reset_index] makes the cell NaN. *)
Inductive level_cell (A : Type) : Type :=
  | NaN
  | Cell (a : A).

Arguments NaN {A}.
Arguments Cell {A} a.

(** A row of the frame of the earlier [load_holidays], in the order of the
    levels. *)
Record product_row : Type := ProductRow {
  level_country_code : level_cell string;
  level_en_name : level_cell string;
  level_day_off : level_cell bool;
  level_observed : level_cell bool;
  level_created_at : level_cell string;
  level_updated_at : level_cell string;
  level_date : Z
}.

(** The cell that a one-element level [[x]] gives. *)
Definition level_of {A : Type} (x : option A) : level_cell A :=
  match x with
  | None => NaN
  | Some a => Cell a
  end.

(** The row of the earlier frame that holds NaN where a row of the newer
    one holds [None], and the same values elsewhere. *)
Definition nan_row (r : holiday_row) : product_row :=
  ProductRow (level_of (row_country_code r)) (level_of (row_en_name r))
    (level_of (row_day_off r)) (level_of (row_observed r))
    (level_of (row_created_at r)) (level_of (row_updated_at r)) (row_date r).

(** The exceptions of the code that talks to the API: those of the
    calendar code, and the others that it can raise. *)
Inductive api_exception : Type :=
  | Builtin (e : py_exception)
  | AttributeError
  | AssertionError
  | UnpicklingError
  | OSError
  | RequestException.

Inductive result (A : Type) : Type :=
  | Done (a : A)
  | Failed (e : api_exception).

Arguments Done {A} a.
Arguments Failed {A} e.

#[global] Instance result_ret : MRet result := @Done.

#[global] Instance result_bind : MBind result := λ A B f m,
  match m with
  | Done a => f a
  | Failed e => Failed e
  end.

(** [for x in xs: s = body x s], stopping at the first exception. *)
Fixpoint each {X S : Type} (xs : list X) (body : X → S → result S) (s : S) : result S :=
  match xs with
  | [] => Done s
  | x :: xs' => s' ← body x s; each xs' body s'
  end.

(** [holiday.get(key)] *)
Definition dict_get {A : Type} (m : member A) : option A :=
  match m with
  | Value a => Some a
  | Absent | Null => None
  end.

(** [holiday[key]] *)
Definition dict_item {A : Type} (m : member A) : result (option A) :=
  match m with
  | Absent => Failed (Builtin KeyError)
  | Null => Done None
  | Value a => Done (Some a)
  end.

(** Iterating over a value of the response: [None] is not iterable. *)
Definition iterate {A : Type} (x : option (list A)) : result (list A) :=
  match x with
  | None => Failed (Builtin TypeError)
  | Some l => Done l
  end.

(** src/metroholidays/utils/holidaysapi.py, lines 127-149.  [values] is the
    row that awaits its date: its last slot is overwritten by each date of
    the holiday before the tuple is taken. *)
Module Utils.

(** One iteration of the loop over the holidays (lines 139-143). *)
Definition buffer_holiday (holiday : raw_holiday) (buffer : list holiday_row)
  : result (list holiday_row) :=
  let values :=
    HolidayRow (dict_get (raw_country_code holiday)) (dict_get (raw_en_name holiday))
      (dict_get (raw_day_off holiday)) (dict_get (raw_observed holiday))
      (dict_get (raw_created_at holiday)) (dict_get (raw_updated_at holiday)) in
  dates ← dict_item (raw_dates holiday) ≫= iterate;
  Done (foldl (λ buffer date, buffer ++ [values date]) buffer dates).

Definition load_holidays (holidays_raw : list raw_holiday) : result (list holiday_row) :=
  buffer ← each holidays_raw buffer_holiday [];
  Done buffer.

End Utils.

(** src/metroholidays/holidaysapi.py.

    [load_holidays] (lines 128-151) builds one frame per holiday, the product
    of its members with its dates, and concatenates them onto [holidays_df],
    which is [None] until the first holiday; [holidays_df.head()] then fails
    on [None].

    [load_calendar] (lines 153-189) fills the flags on the pivot table,
    before the merge with the calendar, so the days that the table does not
    hold keep NaN flags in the frame that is returned.  The subscript
    [dfp[countries]] of line 175 raises the KeyError of the selection of
    line 176, which it precedes, and with a country asked for twice the
    assignment of that line raises ValueError. *)
Module Api.

(** One iteration of the loop over the holidays (lines 138-147). *)
Definition concat_holiday (holiday : raw_holiday) (holidays_df : option (list product_row))
  : result (option (list product_row)) :=
  country_code ← dict_item (raw_country_code holiday);
  en_name ← dict_item (raw_en_name holiday);
  day_off ← dict_item (raw_day_off holiday);
  observed ← dict_item (raw_observed holiday);
  created_at ← dict_item (raw_created_at holiday);
  updated_at ← dict_item (raw_updated_at holiday);
  dates ← dict_item (raw_dates holiday) ≫= iterate;
  let df_holidays_buf :=
    ProductRow (level_of country_code) (level_of en_name) (level_of day_off)
      (level_of observed) (level_of created_at) (level_of updated_at) <$> dates in
  Done (Some (default [] holidays_df ++ df_holidays_buf)).

Definition load_holidays (holidays_raw : list raw_holiday) : result (list product_row) :=
  holidays_df ← each holidays_raw concat_holiday None;
  match holidays_df with
  | None => Failed AttributeError
  | Some holidays_df => Done holidays_df
  end.

Definition load_calendar (holidays : list holiday) (date_from date_to : Z)
    (countries : option (list string)) (long_holidays : Z) : outcome calendar :=
  let countries := countries_or_all holidays countries in
  dfp ← select_countries holidays countries;
  dfp ← (if decide (NoDup countries) then Returned (fill_pivot dfp)
         else Raised ValueError);
  let df_calendar := date_range date_from date_to in
  let df_calendar := merge_left df_calendar (length countries) dfp in
  cols ← for_each (seq 0 (length countries))
            (λ j cols,
               col ← _categorize (nan_column df_calendar j) long_holidays;
               Returned (cols ++ [col]))
            [];
  Returned {| cal_index := fst <$> df_calendar;
              cal_countries := countries;
              cal_day_type := cols;
              cal_flags := nan_column df_calendar <$> seq 0 (length countries) |}.

End Api.

(** The flag that the frame of [Api.load_calendar] holds for country [c] on
    day [d]: 1 or 0 on a day that some row of the table carries, NaN on the
    other days. *)
Definition nan_flag_value (holidays : list holiday) (d : Z) (c : string) : option Z :=
  if decide (d ∈ date <$> holidays)
  then Some (if decide (marked holidays d c) then 1 else 0)
  else None.

(** The columns 'country_code', 'day_off' and 'date' of the frame, as
    [load_calendar] reads them.  A row whose country code or day_off is null
    has no place in the pivot table; a frame with such a row is left out. *)
Definition holiday_of_row (r : holiday_row) : option holiday :=
  c ← row_country_code r;
  off ← row_day_off r;
  Some (Holiday c off (row_date r)).

Definition frame_of_rows (rows : list holiday_row) : option (list holiday) :=
  mapM holiday_of_row rows.

(** The rows of one holiday of the response. *)
Definition expand (holiday : raw_holiday) : list holiday_row :=
  HolidayRow (dict_get (raw_country_code holiday)) (dict_get (raw_en_name holiday))
    (dict_get (raw_day_off holiday)) (dict_get (raw_observed holiday))
    (dict_get (raw_created_at holiday)) (dict_get (raw_updated_at holiday))
    <$> default [] (dict_get (raw_dates holiday)).

(** A holiday of the response with all the members that the earlier
    [load_holidays] subscripts, null or not. *)
Definition complete (holiday : raw_holiday) : Prop :=
  raw_country_code holiday ≠ Absent ∧ raw_en_name holiday ≠ Absent
  ∧ raw_day_off holiday ≠ Absent ∧ raw_observed holiday ≠ Absent
  ∧ raw_created_at holiday ≠ Absent ∧ raw_updated_at holiday ≠ Absent.

(** A holiday of the response of country [c], with day_off [off], that lists
    the day [d]. *)
Definition lists_day (c : string) (off : bool) (d : Z) (holiday : raw_holiday) : Prop :=
  raw_country_code holiday = Value c ∧ raw_day_off holiday = Value off
  ∧ ∃ ds, raw_dates holiday = Value ds ∧ d ∈ ds.

(** The rows of one holiday of the response as [load_calendar] reads them. *)
Definition typed_rows (raw : raw_holiday) : list holiday :=
  match dict_get (raw_country_code raw), dict_get (raw_day_off raw) with
  | Some c, Some off => Holiday c off <$> default [] (dict_get (raw_dates raw))
  | _, _ => []
  end.

(** ** Authentication: the token and its file

    [HolidaysApi.auth] and what it calls (src/metroholidays/holidaysapi.py,
    lines 51-98 and 235-251; the same code in
    src/metroholidays/utils/holidaysapi.py).  An instant ([dt.datetime]) is a
    number of microseconds.  A token is [None] or a string.  What the call
    cannot know, the readings of the clock, the answer of the server and the
    fate of the write, comes in an [environment]; the object, the token file
    and the count of the requests sent make the [machine], which a failing
    call hands back as it left it. *)

Definition TOKEN_EXPIRATION : Z := 24.

(** [dt.timedelta(hours=TOKEN_EXPIRATION - 1)] *)
Definition TOKEN_LIFETIME : Z := (TOKEN_EXPIRATION - 1) * 3600 * 1000000.

(** The truth value of a token: [None] and the empty string are false. *)
Definition truthy (value : option string) : bool :=
  match value with
  | Some s => bool_decide (s ≠ EmptyString)
  | None => false
  end.

(** The token file: what [pickle.load] makes of it ([None] when it cannot be
    unpickled) and its modification time. *)
Record token_file : Type := TokenFile {
  pickled : option (option string);
  mtime : Z
}.

Record machine : Type := Machine {
  _token : option string;
  _token_time : option Z;
  file : option token_file;
  posted : nat
}.

(** [response] is what [requests.post] returns, or the exception it raises:
    the status code and the 'token' member of the JSON object of the body
    ([None] when the body is no JSON). *)
Record environment : Type := Environment {
  now_token : Z;
  now_file : Z;
  response : result (Z * option (member string));
  now_set : Z;
  now_write : option Z
}.

(** The property [token] (lines 55-58). *)
Definition token (st : machine) : result (option string) :=
  if truthy (_token st) then Done (_token st) else Failed AssertionError.

(** The setter of [token] (lines 60-64); [now] is the clock as it reads
    it. *)
Definition set_token (value : option string) (now : Z) (st : machine)
  : result unit * machine :=
  if truthy value
  then (Done (), {| _token := value; _token_time := Some now;
                    file := file st; posted := posted st |})
  else (Failed AssertionError, st).

(** [_can_use_token] (lines 235-242) *)
Definition _can_use_token (now : Z) (st : machine) : result bool :=
  match _token_time st with
  | None => Done false
  | Some token_time =>
      if decide (now - token_time > TOKEN_LIFETIME) then Done false
      else _ ← token st; Done true
  end.

(** [_can_use_token_file] (lines 244-251) *)
Definition _can_use_token_file (now : Z) (st : machine) : bool :=
  match file st with
  | None => false
  | Some f => if decide (now - mtime f > TOKEN_LIFETIME) then false else true
  end.

(** Lines 78-84 of [auth]: the token is read from the file. *)
Definition load_token (st : machine) : result unit * machine :=
  match file st with
  | None => (Failed OSError, st)
  | Some f =>
      match pickled f with
      | None => (Failed UnpicklingError, st)
      | Some value =>
          let st := {| _token := value; _token_time := Some (mtime f);
                       file := file st; posted := posted st |} in
          match token st with
          | Done _ => (Done (), st)
          | Failed e => (Failed e, st)
          end
      end
  end.

(** Lines 86-98 of [auth]: the request, the new token and its file. *)
Definition request_token (env : environment) (st : machine) : result unit * machine :=
  let st := {| _token := _token st; _token_time := _token_time st;
               file := file st; posted := S (posted st) |} in
  match response env with
  | Failed e => (Failed e, st)
  | Done (status_code, r_json) =>
      if decide (status_code = 200) then
        match r_json with
        | None => (Failed (Builtin ValueError), st)
        | Some Absent => (Failed AssertionError, st)
        | Some value =>
            match set_token (dict_get value) (now_set env) st with
            | (Failed e, st) => (Failed e, st)
            | (Done _, st) =>
                match now_write env with
                | None => (Failed OSError, st)
                | Some t =>
                    (Done (), {| _token := _token st; _token_time := _token_time st;
                                 file := Some (TokenFile (Some (_token st)) t);
                                 posted := posted st |})
                end
            end
        end
      else (Failed AssertionError, st)
  end.

(** [auth] (lines 70-98) *)
Definition auth (force : bool) (env : environment) (st : machine)
  : result unit * machine :=
  match (if force then Done false else _can_use_token (now_token env) st) with
  | Failed e => (Failed e, st)
  | Done true => (Done (), st)
  | Done false =>
      if negb force && _can_use_token_file (now_file env) st
      then load_token st
      else request_token env st
  end.
(** ** Lemmas on outcomes, ranges and numpy indexing *)

Ltac solve_length :=
  repeat (rewrite ?length_app, ?length_seqZ, ?length_replicate, ?length_insert,
            ?length_fmap; cbn [length]);
  lia.

Ltac solve_flag_column :=
  unfold flag_column, column_from; cbn [zip zip_with fmap list_fmap length];
  repeat (apply Forall_cons_2; [simpl; tauto|]); apply Forall_nil_2.

Lemma bind_Returned {A B} (f : A → outcome B) (a : A) : (Returned a ≫= f) = f a.
Proof. reflexivity. Qed.

Lemma seqZ_succ m (n : nat) : seqZ m (Z.of_nat (S n)) = m :: seqZ (m + 1) (Z.of_nat n).
Proof. rewrite seqZ_cons by lia. f_equal. f_equal; lia. Qed.

Lemma np_index_nat n (p : nat) : (p < n)%nat → np_index n (Z.of_nat p) = Returned p.
Proof.
  intros H. unfold np_index. rewrite decide_True by lia. by rewrite Nat2Z.id.
Qed.

Lemma np_index_wrap n i :
  - Z.of_nat n ≤ i < 0 → np_index n i = Returned (Z.to_nat (i + Z.of_nat n)).
Proof.
  intros H. unfold np_index. rewrite decide_False by lia.
  by rewrite decide_True by lia.
Qed.

Lemma np_get_nat {A} (a : list A) (p : nat) x :
  a !! p = Some x → np_get a (Z.of_nat p) = Returned x.
Proof.
  intros H. unfold np_get. rewrite np_index_nat by (by eapply lookup_lt_Some).
  simpl. by rewrite H.
Qed.

Lemma np_set_nat {A} (a : list A) (p : nat) x :
  (p < length a)%nat → np_set a (Z.of_nat p) x = Returned (<[p := x]> a).
Proof. intros H. unfold np_set. by rewrite np_index_nat. Qed.

Lemma insert_middle {A} (l1 l2 : list A) x y :
  <[length l1 := y]> (l1 ++ x :: l2) = l1 ++ y :: l2.
Proof.
  rewrite insert_app_r_alt by lia. by rewrite Nat.sub_diag.
Qed.

(** ** The first sweep: the back-fill and the loop, without wrap-around *)

(** Back-filling a pending block from its last position to its first. *)
Lemma backfill_block k x (b : nat) : ∀ (a : nat) (done pend rest : list Z),
  length pend = b →
  k = Z.of_nat (length done + b + a) →
  for_each (seqZ (1 + Z.of_nat a) (Z.of_nat b)) (λ j c, np_set c (k - j) x)
    (done ++ pend ++ replicate a x ++ rest)
  = Returned (done ++ replicate (b + a) x ++ rest).
Proof.
  induction b as [|b IH]; intros a done pend rest Hlen Hk.
  - destruct pend; [|done]. reflexivity.
  - destruct pend as [|y pend' _] using rev_ind; [done|].
    rewrite length_app in Hlen. simpl in Hlen.
    rewrite seqZ_succ. simpl.
    replace (k - (1 + Z.of_nat a)) with (Z.of_nat (length (done ++ pend')))
      by (rewrite length_app; lia).
    rewrite <- (assoc_L (++) pend'), (assoc_L (++) done). simpl.
    rewrite np_set_nat by solve_length.
    rewrite insert_middle, bind_Returned.
    rewrite <- (assoc_L (++) done).
    change (x :: replicate a x ++ rest) with (replicate (S a) x ++ rest).
    replace (1 + Z.of_nat a + 1) with (1 + Z.of_nat (S a)) by lia.
    rewrite IH by lia.
    replace (b + S a)%nat with (S (b + a)) by lia. done.
Qed.

Lemma backfill_pending (done pend rest : list Z) :
  backfill (Z.of_nat (length done + length pend)) (Z.of_nat (length pend))
    (done ++ pend ++ rest)
  = Returned (done ++ replicate (length pend) (Z.of_nat (length pend)) ++ rest).
Proof.
  unfold backfill, py_range.
  replace (Z.of_nat (length pend) + 1 - 1) with (Z.of_nat (length pend)) by lia.
  pose proof (backfill_block (Z.of_nat (length done + length pend))
                (Z.of_nat (length pend)) (length pend) 0 done pend rest) as H.
  change (1 + Z.of_nat 0) with 1 in H.
  change (replicate 0 _ ++ rest) with rest in H.
  rewrite H; [|done|lia].
  by rewrite Nat.add_0_r.
Qed.

(** The loop of the first sweep from a state in which [cur] days of an open
    run are pending after the settled days [done]. *)
Lemma first_sweep_loop (rest : list Z) : ∀ (done : list Z) (cur : nat),
  (1 ≤ length done + cur)%nat →
  ∃ last,
    for_each (seqZ (Z.of_nat (length done + cur)) (Z.of_nat (length rest)))
      propagate_step (done ++ seqZ 1 (Z.of_nat cur) ++ rest, Z.of_nat cur)
    = Returned (done ++ run_lengths cur rest, last).
Proof.
  induction rest as [|v rest IH]; intros done cur Hk.
  - exists (Z.of_nat cur). simpl. by rewrite app_nil_r.
  - cbn [length]. rewrite seqZ_succ. cbn [for_each propagate_step].
    assert (Hlen : length (done ++ seqZ 1 (Z.of_nat cur)) = (length done + cur)%nat).
    { rewrite length_app, length_seqZ. lia. }
    rewrite (assoc_L (++) done), <- Hlen.
    rewrite (np_get_nat _ _ v) by (by rewrite list_lookup_middle).
    rewrite bind_Returned. cbn [run_lengths]. case_decide.
    + rewrite np_set_nat by solve_length.
      rewrite insert_middle, bind_Returned, bind_Returned.
      destruct (IH done (S cur)) as [last Hl]; [lia|].
      exists last. rewrite <- Hl. rewrite Hlen.
      replace (Z.of_nat (length done + cur) + 1)
        with (Z.of_nat (length done + S cur)) by lia.
      f_equal. f_equal; [|lia].
      rewrite seqZ_S, <- !(assoc_L (++)). simpl.
      do 3 f_equal. lia.
    + rewrite Hlen, <- (assoc_L (++) done).
      pose proof (backfill_pending done (seqZ 1 (Z.of_nat cur)) (v :: rest)) as Hb.
      rewrite length_seqZ, Nat2Z.id in Hb. rewrite Hb, !bind_Returned.
      destruct (IH (done ++ replicate cur (Z.of_nat cur) ++ [v]) 0%nat) as [last Hl].
      { rewrite !length_app. simpl. lia. }
      exists last. change (seqZ 1 (Z.of_nat 0) ++ rest) with rest in Hl.
      rewrite <- !(assoc_L (++)) in Hl. cbn [app] in Hl.
      rewrite <- Hl. f_equal. f_equal. solve_length.
Qed.

(** Without a holiday on a week-end first day the first sweep computes
    [run_lengths]. *)
Lemma first_sweep_zero_head (w : list Z) :
  first_sweep (0 :: w) = Returned (0 :: run_lengths 0 w).
Proof.
  unfold first_sweep. rewrite (np_get_nat _ 0 0), bind_Returned by done.
  unfold py_range. cbn [length].
  replace (Z.of_nat (S (length w)) - 1) with (Z.of_nat (length w)) by lia.
  destruct (first_sweep_loop w [0] 0%nat) as [last Hl]; [simpl; lia|].
  change (for_each (seqZ 1 (Z.of_nat (length w))) propagate_step (0 :: w, 0)
          = Returned (0 :: run_lengths 0 w, last)) in Hl.
  by rewrite Hl.
Qed.

Lemma first_sweep_one_head (w : list Z) :
  first_sweep (1 :: w) = Returned (run_lengths 1 w).
Proof.
  unfold first_sweep. rewrite (np_get_nat _ 0 1), bind_Returned by done.
  unfold py_range. cbn [length].
  replace (Z.of_nat (S (length w)) - 1) with (Z.of_nat (length w)) by lia.
  destruct (first_sweep_loop w [] 1%nat) as [last Hl]; [simpl; lia|].
  change (for_each (seqZ 1 (Z.of_nat (length w))) propagate_step (1 :: w, 1)
          = Returned (run_lengths 1 w, last)) in Hl.
  by rewrite Hl.
Qed.

(** ** The first sweep never raises on a flag column *)

Lemma keeps_positive_refl w : keeps_positive w w.
Proof. split; [done|]. intros p x Hp Hx. eauto. Qed.

Lemma keeps_positive_insert w c p y :
  keeps_positive w c → y > 0 → keeps_positive w (<[p := y]> c).
Proof.
  intros [Hlen Hpos] Hy. split; [by rewrite length_insert|].
  intros q x Hq Hx. destruct (Hpos q x Hq Hx) as (z & Hz & Hz0).
  destruct (decide (p = q)) as [->|Hne].
  - exists y. split; [|done]. apply list_lookup_insert_eq. by eapply lookup_lt_Some.
  - exists z. by rewrite list_lookup_insert_ne.
Qed.

Lemma np_set_in_bounds {A} (a : list A) i x :
  - Z.of_nat (length a) ≤ i < Z.of_nat (length a) →
  ∃ p, np_set a i x = Returned (<[p := x]> a).
Proof.
  intros H. unfold np_set, np_index. repeat case_decide; eauto; lia.
Qed.

Lemma np_get_in_bounds {A} (a : list A) i :
  0 ≤ i < Z.of_nat (length a) →
  ∃ x, np_get a i = Returned x ∧ a !! Z.to_nat i = Some x.
Proof.
  intros H. destruct (lookup_lt_is_Some_2 a (Z.to_nat i)) as [x Hx]; [lia|].
  exists x. split; [|done].
  rewrite <- (Z2Nat.id i) by lia. by apply np_get_nat.
Qed.

Lemma writes_keep_positive w k x (js : list Z) : ∀ c,
  keeps_positive w c → x > 0 →
  (∀ j, j ∈ js → - Z.of_nat (length w) ≤ k - j < Z.of_nat (length w)) →
  ∃ c', for_each js (λ j c, np_set c (k - j) x) c = Returned c' ∧ keeps_positive w c'.
Proof.
  induction js as [|j js IH]; intros c Hc Hx Hjs.
  - exists c. done.
  - destruct (np_set_in_bounds c (k - j) x) as [p Hp].
    { rewrite (proj1 Hc). apply Hjs. by left. }
    simpl. rewrite Hp, bind_Returned. apply IH; [|done|].
    + by apply keeps_positive_insert.
    + intros j' Hj'. apply Hjs. by right.
Qed.

Lemma backfill_keeps_positive w k last c :
  keeps_positive w c →
  - Z.of_nat (length w) ≤ k - last → k ≤ Z.of_nat (length w) →
  ∃ c', backfill k last c = Returned c' ∧ keeps_positive w c'.
Proof.
  intros Hc Hlo Hhi. unfold backfill, py_range.
  destruct (decide (last ≤ 0)) as [Hle|Hgt].
  - exists c. split; [|done]. unfold seqZ.
    by replace (Z.to_nat (last + 1 - 1)) with 0%nat by lia.
  - apply writes_keep_positive; [done|lia|].
    intros j Hj. apply elem_of_seqZ in Hj. lia.
Qed.

Lemma first_sweep_loop_total w (len : nat) : ∀ k c last,
  1 ≤ k → k + Z.of_nat len = Z.of_nat (length w) → 0 ≤ last ≤ k + 1 →
  keeps_positive w c →
  ∃ c' last', for_each (seqZ k (Z.of_nat len)) propagate_step (c, last)
              = Returned (c', last')
            ∧ keeps_positive w c'.
Proof.
  induction len as [|len IH]; intros k c last Hk Hn Hlast Hc.
  - exists c, last. done.
  - rewrite seqZ_succ. cbn [for_each propagate_step].
    destruct (np_get_in_bounds c k) as (v & Hv & _); [rewrite (proj1 Hc); lia|].
    rewrite Hv, bind_Returned. case_decide.
    + destruct (np_set_in_bounds c k (last + 1)) as [p Hp]; [rewrite (proj1 Hc); lia|].
      rewrite Hp, !bind_Returned.
      apply IH; [lia|lia|lia|]. apply keeps_positive_insert; [done|lia].
    + destruct (backfill_keeps_positive w k last c) as (c' & Hb & Hc'); [done|lia|lia|].
      rewrite Hb, !bind_Returned. apply IH; [lia|lia|lia|done].
Qed.

(** On weights whose first value is 0, 1 or 2 the first sweep returns, keeps
    the length, and leaves a positive value wherever the weight was positive. *)
Lemma first_sweep_total (w : list Z) v0 :
  w !! 0%nat = Some v0 → 0 ≤ v0 ≤ 2 →
  ∃ c, first_sweep w = Returned c ∧ keeps_positive w c.
Proof.
  intros H0 Hv0. unfold first_sweep.
  change (np_get w 0) with (np_get w (Z.of_nat 0)).
  rewrite (np_get_nat w 0 v0), bind_Returned by done.
  assert (0 < length w)%nat by (by eapply lookup_lt_Some).
  destruct (first_sweep_loop_total w (length w - 1) 1 w v0)
    as (c & last & Hl & Hc); [lia|lia|lia|apply keeps_positive_refl|].
  exists c. unfold py_range.
  replace (Z.of_nat (length w) - 1) with (Z.of_nat (length w - 1)) by lia.
  by rewrite Hl.
Qed.

(** ** The second sweep computes [labels_from] *)

Lemma labels_from_cons m v v' c x x' d :
  labels_from m (v :: v' :: c) (x :: x' :: d)
  = behind_mark m v v' x :: labels_from m (v' :: c) (own_mark m v' x' :: d).
Proof. reflexivity. Qed.

Lemma label_step_marks (c : list Z) m (p : nat) v v' done x x' drest :
  c !! S p = Some v' → length done = p →
  label_step c m (Z.of_nat (S p)) (done ++ x :: x' :: drest, v)
  = Returned (done ++ behind_mark m v v' x :: own_mark m v' x' :: drest, v').
Proof.
  intros Hc Hp. unfold label_step. rewrite (np_get_nat c (S p) v'), bind_Returned by done.
  replace (Z.of_nat (S p) - 1) with (Z.of_nat (length done)) by lia.
  assert (Hs : ∀ y, np_set (done ++ y :: x' :: drest) (Z.of_nat (S p)) middle_days
               = Returned (done ++ y :: middle_days :: drest)).
  { intros y. rewrite np_set_nat by solve_length. f_equal.
    rewrite (cons_middle y done), (assoc_L (++)).
    replace (S p) with (length (done ++ [y])) by solve_length.
    by rewrite insert_middle, <- (assoc_L (++)). }
  unfold behind_mark, own_mark.
  repeat case_decide; try lia;
    rewrite ?np_set_nat by solve_length;
    rewrite ?insert_middle, ?bind_Returned, ?Hs; try done.
Qed.

Lemma second_sweep_loop m (c crest : list Z) : ∀ cdone v done x drest,
  c = cdone ++ v :: crest → length cdone = length done → length crest = length drest →
  ∃ last,
    for_each (seqZ (Z.of_nat (S (length done))) (Z.of_nat (length crest)))
      (label_step c m) (done ++ x :: drest, v)
    = Returned (done ++ labels_from m (v :: crest) (x :: drest), last).
Proof.
  induction crest as [|v' crest IH]; intros cdone v done x drest Hc Hl1 Hl2.
  - exists v. done.
  - destruct drest as [|x' drest]; [done|].
    cbn [length]. rewrite seqZ_succ. cbn [for_each].
    rewrite (label_step_marks c m (length done) v v'); [|subst c|done].
    2:{ rewrite cons_middle, (assoc_L (++)).
        replace (S (length done)) with (length (cdone ++ [v])) by solve_length.
        apply list_lookup_middle. done. }
    rewrite bind_Returned.
    destruct (IH (cdone ++ [v]) v' (done ++ [behind_mark m v v' x])
                (own_mark m v' x') drest) as [last Hlast].
    { by rewrite <- (assoc_L (++)). }
    { solve_length. }
    { simpl in Hl2. lia. }
    exists last. rewrite <- !(assoc_L (++)) in Hlast. cbn [app] in Hlast.
    rewrite labels_from_cons, <- Hlast. f_equal. f_equal.
    rewrite length_app. simpl. lia.
Qed.

Lemma second_sweep_labels (c : list Z) (d : list day_type) m :
  length d = length c → c ≠ [] →
  second_sweep c d m = Returned (labels_from m c d).
Proof.
  intros Hlen Hne. destruct c as [|v c]; [done|]. destruct d as [|x d]; [done|].
  unfold second_sweep. rewrite (np_get_nat _ 0 v), bind_Returned by done.
  destruct (second_sweep_loop m (v :: c) c [] v [] x d) as [last Hl]; [done|done|..].
  { simpl in Hlen. lia. }
  unfold py_range. cbn [length].
  replace (Z.of_nat (S (length c)) - 1) with (Z.of_nat (length c)) by lia.
  change (for_each (seqZ 1 (Z.of_nat (length c))) (label_step (v :: c) m) (x :: d, v)
          = Returned (labels_from m (v :: c) (x :: d), last)) in Hl.
  by rewrite Hl.
Qed.

(** ** The labels, position by position *)

Lemma labels_from_length m (c : list Z) : ∀ d, length (labels_from m c d) = length d.
Proof.
  induction c as [|v c IH]; intros d; [by destruct d|].
  destruct d as [|x d]; [done|].
  destruct c as [|v' c]; [done|]. destruct d as [|x' d]; [done|].
  rewrite labels_from_cons. cbn [length]. rewrite IH. done.
Qed.

Lemma labels_from_lookup m (p : nat) : ∀ (c : list Z) (d : list day_type),
  length d = length c → labels_from m c d !! p = label_at m c d p.
Proof.
  induction p as [|p IH]; intros c d Hlen.
  - destruct c as [|v [|v' c]], d as [|x [|x' d]]; done.
  - destruct c as [|v c], d as [|x d]; try done.
    destruct c as [|v' c], d as [|x' d]; try done.
    rewrite labels_from_cons. cbn [lookup list_lookup].
    change ((behind_mark m v v' x :: ?l) !! S p) with (l !! p).
    rewrite IH by (simpl in *; lia).
    destruct p; reflexivity.
Qed.

Lemma default_type_not_long wd : ¬ is_long (default_type wd).
Proof.
  unfold default_type, is_long. repeat case_decide; intros [?|[?|?]]; discriminate.
Qed.

Lemma default_types_not_long column p x :
  default_types column !! p = Some x → ¬ is_long x.
Proof.
  unfold default_types. rewrite list_lookup_fmap. intros H.
  destruct (wdays column !! p); simplify_eq/=. apply default_type_not_long.
Qed.

Lemma own_mark_cases m v x : own_mark m v x = x ∨ own_mark m v x = middle_days ∧ v ≠ 0 ∧ v >= m.
Proof. unfold own_mark. repeat case_decide; auto. Qed.

Lemma behind_mark_last_day m last v x :
  behind_mark m last v x = last_day → x = last_day ∨ v = 0 ∧ last >= m.
Proof. unfold behind_mark. repeat case_decide; auto; discriminate. Qed.

Lemma behind_mark_first_day m last v x :
  behind_mark m last v x = first_day → x = first_day ∨ last = 0 ∧ v >= m ∧ v ≠ 0.
Proof. unfold behind_mark. repeat case_decide; auto; discriminate. Qed.

Lemma behind_mark_middle_days m last v x :
  behind_mark m last v x = middle_days → x = middle_days.
Proof. unfold behind_mark. repeat case_decide; auto; discriminate. Qed.

(** last_day is written on a day only by a zero-weight day right after it. *)
Lemma label_at_last_day m c d p :
  (∀ x, d !! p = Some x → ¬ is_long x) →
  label_at m c d p = Some last_day →
  c !! S p = Some 0 ∧ ∃ v, c !! p = Some v ∧ v >= m.
Proof.
  intros Hd. unfold label_at.
  destruct (d !! p) as [x|] eqn:Hx; [|done]. specialize (Hd x eq_refl).
  destruct (c !! p) as [v|] eqn:Hv; [|done]. simpl.
  set (x1 := match p with O => x | S _ => own_mark m v x end).
  assert (Hx1 : x1 ≠ last_day).
  { unfold x1, is_long in *. destruct p; [naive_solver|].
    destruct (own_mark_cases m v x) as [-> | [-> _]]; naive_solver. }
  destruct (c !! S p) as [v'|]; intros [= H]; [|done].
  apply behind_mark_last_day in H as [?|[-> ?]]; [done|]. eauto.
Qed.

(** first_day is written only on a zero-weight day, by a qualifying day right
    after it. *)
Lemma label_at_first_day m c d p :
  (∀ x, d !! p = Some x → ¬ is_long x) →
  label_at m c d p = Some first_day →
  c !! p = Some 0 ∧ ∃ v', c !! S p = Some v' ∧ v' >= m ∧ v' ≠ 0.
Proof.
  intros Hd. unfold label_at.
  destruct (d !! p) as [x|] eqn:Hx; [|done]. specialize (Hd x eq_refl).
  destruct (c !! p) as [v|] eqn:Hv; [|done]. simpl.
  set (x1 := match p with O => x | S _ => own_mark m v x end).
  assert (Hx1 : x1 ≠ first_day).
  { unfold x1, is_long in *. destruct p; [naive_solver|].
    destruct (own_mark_cases m v x) as [-> | [-> _]]; naive_solver. }
  destruct (c !! S p) as [v'|]; intros [= H]; [|done].
  apply behind_mark_first_day in H as [?|(-> & ? & ?)]; [done|]. eauto.
Qed.

(** middle_days is never written on the first day. *)
Lemma label_at_0_middle_days m c d :
  (∀ x, d !! 0%nat = Some x → ¬ is_long x) →
  label_at m c d 0 ≠ Some middle_days.
Proof.
  intros Hd. unfold label_at.
  destruct (d !! 0%nat) as [x|] eqn:Hx; [|done]. specialize (Hd x eq_refl).
  destruct (c !! 0%nat) as [v|]; [|done]. simpl.
  destruct (c !! 1%nat) as [v'|]; intros [= H].
  - apply behind_mark_middle_days in H. unfold is_long in Hd. naive_solver.
  - unfold is_long in Hd. naive_solver.
Qed.

(** ** [_categorize] on a flag column *)

Lemma base_weight_range wd f :
  f = None ∨ f = Some 0 ∨ f = Some 1 → 0 ≤ base_weight wd f ≤ 2.
Proof.
  unfold base_weight. intros [-> | [-> | ->]]; simpl; case_decide; lia.
Qed.

Lemma weights_length column : length (weights column) = length column.
Proof. unfold weights. by rewrite length_fmap. Qed.

Lemma default_types_length column : length (default_types column) = length column.
Proof. unfold default_types, wdays. by rewrite !length_fmap. Qed.

Lemma weights_range column p v :
  flag_column column → weights column !! p = Some v → 0 ≤ v ≤ 2.
Proof.
  unfold weights. rewrite list_lookup_fmap. intros Hc Hp.
  destruct (column !! p) as [r|] eqn:Hr; simplify_eq/=.
  apply base_weight_range.
  by apply (proj1 (Forall_lookup _ _) Hc p r).
Qed.

(** On a non-empty flag column [_categorize] returns: the first sweep yields
    weights [c] that are positive wherever the base weight is, and the result
    is [labels_from] over them. *)
Lemma categorize_returns (column : series) (m : Z) :
  flag_column column → column ≠ [] →
  ∃ c, first_sweep (weights column) = Returned c
     ∧ keeps_positive (weights column) c
     ∧ _categorize column m = Returned (labels_from m c (default_types column)).
Proof.
  intros Hc Hne.
  destruct (lookup_lt_is_Some_2 (weights column) 0) as [v0 Hv0].
  { rewrite weights_length. destruct column; [done|simpl; lia]. }
  destruct (first_sweep_total (weights column) v0) as (c & Hs & Hk); [done|..].
  { by eapply weights_range. }
  exists c. split; [done|]. split; [done|].
  unfold _categorize. rewrite Hs, bind_Returned.
  apply second_sweep_labels.
  - destruct Hk as [-> _]. by rewrite default_types_length, weights_length.
  - destruct Hk as [Hl _]. intros ->. rewrite weights_length in Hl.
    destruct column; [done|discriminate].
Qed.

Lemma categorize_label_at (column : series) (m : Z) :
  flag_column column → column ≠ [] →
  ∃ c days, first_sweep (weights column) = Returned c
     ∧ keeps_positive (weights column) c
     ∧ _categorize column m = Returned days
     ∧ length days = length column
     ∧ ∀ p, days !! p = label_at m c (default_types column) p.
Proof.
  intros Hc Hne. destruct (categorize_returns column m Hc Hne) as (c & Hs & Hk & Hr).
  exists c, (labels_from m c (default_types column)).
  do 3 (split; [done|]). split.
  - by rewrite labels_from_length, default_types_length.
  - intros p. apply labels_from_lookup.
    destruct Hk as [-> _]. by rewrite default_types_length, weights_length.
Qed.

(** ** A run that starts on day 0 *)

Lemma for_each_app {X S} (xs ys : list X) (body : X → S → outcome S) (s : S) :
  for_each (xs ++ ys) body s = for_each xs body s ≫= for_each ys body.
Proof.
  revert s. induction xs as [|x xs IH]; intros s; [done|].
  simpl. destruct (body x s) as [s'|e]; [|done]. simpl. apply IH.
Qed.

(** The loop of the first sweep over days of positive weight only: the
    counter goes up by one per day and is written on each. *)
Lemma first_sweep_open_run (pos : list Z) : ∀ (pend rest : list Z) (last : Z),
  Forall (λ v, v > 0) pos →
  for_each (seqZ (Z.of_nat (length pend)) (Z.of_nat (length pos))) propagate_step
    (pend ++ pos ++ rest, last)
  = Returned (pend ++ seqZ (last + 1) (Z.of_nat (length pos)) ++ rest,
              last + Z.of_nat (length pos)).
Proof.
  induction pos as [|v pos IH]; intros pend rest last Hpos.
  - simpl. by rewrite Z.add_0_r.
  - apply Forall_cons_1 in Hpos as [Hv Hpos].
    cbn [length]. rewrite !seqZ_succ. cbn [for_each propagate_step].
    change ((v :: pos) ++ rest) with (v :: pos ++ rest).
    rewrite (np_get_nat _ _ v) by (by rewrite list_lookup_middle).
    rewrite bind_Returned, decide_True by done.
    rewrite np_set_nat by solve_length.
    rewrite (insert_middle pend (pos ++ rest) v), !bind_Returned.
    pose proof (IH (pend ++ [last + 1]) rest (last + 1) Hpos) as H.
    rewrite <- !(assoc_L (++)) in H. cbn [app] in H.
    replace (Z.of_nat (length (pend ++ [last + 1]))) with (Z.of_nat (length pend) + 1)
      in H by solve_length.
    rewrite H. do 2 f_equal. lia.
Qed.

Lemma weekday_shift d i : weekday d = 0 → 0 ≤ i < 7 → weekday (d + i) = i.
Proof. unfold weekday. intros H Hi. Z.div_mod_to_equations. lia. Qed.

(** ** The sweeps of the source against the sweeps of the specification *)

Lemma spec_label_step_length c m days last i :
  length (spec_label_step c m (days, last) i).1 = length days.
Proof.
  unfold spec_label_step. repeat case_decide; simpl; by rewrite ?length_insert.
Qed.

Lemma label_step_spec (c : list Z) m (i : nat) days last :
  1 ≤ m → (1 ≤ i < length c)%nat → length days = length c →
  label_step c m (Z.of_nat i) (days, last)
  = Returned (spec_label_step c m (days, last) i).
Proof.
  intros Hm Hi Hlen.
  destruct (lookup_lt_is_Some_2 c i) as [v Hv]; [lia|].
  unfold label_step, spec_label_step.
  rewrite (np_get_nat c i v), bind_Returned by done.
  rewrite (list_lookup_total_correct c i v) by done.
  replace (Z.of_nat i - 1) with (Z.of_nat (i - 1)) by lia.
  repeat case_decide; try lia;
    rewrite ?np_set_nat by (rewrite ?length_insert; lia);
    rewrite ?bind_Returned;
    rewrite ?np_set_nat by (rewrite ?length_insert; lia);
    try done; naive_solver lia.
Qed.

Lemma second_sweep_loop_spec (c : list Z) m (len : nat) : ∀ (k : nat) st,
  1 ≤ m → (1 ≤ k)%nat → (k + len ≤ length c)%nat → length st.1 = length c →
  for_each (seqZ (Z.of_nat k) (Z.of_nat len)) (label_step c m) st
  = Returned (foldl (spec_label_step c m) st (seq k len)).
Proof.
  induction len as [|len IH]; intros k [days last] Hm Hk Hn Hlen; [done|].
  rewrite seqZ_succ. cbn [for_each seq foldl].
  rewrite label_step_spec, bind_Returned by (done || lia).
  replace (Z.of_nat k + 1) with (Z.of_nat (S k)) by lia.
  apply IH; [done|lia|lia|].
  destruct (spec_label_step c m (days, last) k) as [days' last'] eqn:E.
  pose proof (spec_label_step_length c m days last k) as Hl.
  rewrite E in Hl. simpl in *. lia.
Qed.

Lemma second_sweep_spec (c : list Z) (d : list day_type) m :
  1 ≤ m → c ≠ [] → length d = length c →
  second_sweep c d m = Returned (spec_labels c d m).
Proof.
  intros Hm Hne Hlen. unfold second_sweep, spec_labels.
  destruct c as [|v c]; [done|].
  change (np_get (v :: c) 0) with (np_get (v :: c) (Z.of_nat 0)).
  rewrite (np_get_nat _ 0 v), bind_Returned by done.
  unfold py_range.
  replace (Z.of_nat (length (v :: c)) - 1) with (Z.of_nat (length (v :: c) - 1)) by (simpl; lia).
  change 1 with (Z.of_nat 1) at 1.
  rewrite (second_sweep_loop_spec (v :: c) m) by (simpl in *; lia || done).
  reflexivity.
Qed.

Lemma writes_spec (i : Z) (x : Z) (js : list Z) : ∀ c : list Z,
  (∀ j, j ∈ js → 0 ≤ i - j < Z.of_nat (length c)) →
  for_each js (λ j c, np_set c (i - j) x) c
  = Returned (foldl (λ w j, spec_write w (i - j) x) c js).
Proof.
  induction js as [|j js IH]; intros c Hjs; [done|].
  assert (Hj : 0 ≤ i - j < Z.of_nat (length c)) by (apply Hjs; by left).
  cbn [for_each foldl]. unfold spec_write at 2. rewrite decide_True by done.
  rewrite <- (Z2Nat.id (i - j)) at 1 by lia.
  rewrite np_set_nat, bind_Returned by lia.
  apply IH. intros j' Hj'. rewrite length_insert. apply Hjs. by right.
Qed.

Lemma writes_spec_length (i x : Z) (js : list Z) : ∀ c : list Z,
  length (foldl (λ w j, spec_write w (i - j) x) c js) = length c.
Proof.
  induction js as [|j js IH]; intros c; [done|].
  simpl. rewrite IH. unfold spec_write. case_decide; by rewrite ?length_insert.
Qed.

Lemma spec_propagate_step_length c last i :
  length (spec_propagate_step (c, last) i).1 = length c.
Proof.
  unfold spec_propagate_step. case_decide; simpl.
  - by rewrite length_insert.
  - apply writes_spec_length.
Qed.

Lemma spec_propagate_step_counter c last (i : nat) :
  last ≤ Z.of_nat i →
  (spec_propagate_step (c, last) i).2 ≤ Z.of_nat (S i).
Proof. unfold spec_propagate_step. case_decide; simpl; lia. Qed.

Lemma propagate_step_spec (c : list Z) (i : nat) last :
  (1 ≤ i < length c)%nat → last ≤ Z.of_nat i →
  propagate_step (Z.of_nat i) (c, last)
  = Returned (spec_propagate_step (c, last) i).
Proof.
  intros Hi Hlast.
  destruct (lookup_lt_is_Some_2 c i) as [v Hv]; [lia|].
  unfold propagate_step, spec_propagate_step.
  rewrite (np_get_nat c i v), bind_Returned by done.
  rewrite (list_lookup_total_correct c i v) by done.
  case_decide.
  - rewrite np_set_nat by lia. reflexivity.
  - unfold backfill, py_range.
    replace (last + 1 - 1) with last by lia.
    rewrite writes_spec; [done|].
    intros j Hj. apply elem_of_seqZ in Hj. lia.
Qed.

Lemma first_sweep_loop_spec (len : nat) : ∀ (k : nat) st,
  (1 ≤ k)%nat → (k + len ≤ length st.1)%nat → st.2 ≤ Z.of_nat k →
  for_each (seqZ (Z.of_nat k) (Z.of_nat len)) propagate_step st
  = Returned (foldl spec_propagate_step st (seq k len)).
Proof.
  induction len as [|len IH]; intros k [c last] Hk Hn Hlast; [done|].
  simpl in Hn, Hlast.
  rewrite seqZ_succ. cbn [for_each seq foldl].
  rewrite propagate_step_spec, bind_Returned by (done || lia).
  replace (Z.of_nat k + 1) with (Z.of_nat (S k)) by lia.
  pose proof (spec_propagate_step_length c last k) as Hl.
  pose proof (spec_propagate_step_counter c last k Hlast) as Hc.
  apply IH; [lia|lia|done].
Qed.

(** When the first weight is at most 1 the first sweep of the source is the
    propagation that the specification describes. *)
Lemma first_sweep_spec (w : list Z) v0 :
  w !! 0%nat = Some v0 → v0 ≤ 1 →
  first_sweep w = Returned (spec_propagate w).
Proof.
  intros H0 Hv0. unfold first_sweep, spec_propagate.
  change (np_get w 0) with (np_get w (Z.of_nat 0)).
  rewrite (np_get_nat w 0 v0), bind_Returned by done.
  rewrite (list_lookup_total_correct w 0 v0) by done.
  apply lookup_lt_Some in H0 as Hlen.
  unfold py_range.
  replace (Z.of_nat (length w) - 1) with (Z.of_nat (length w - 1)) by lia.
  change 1 with (Z.of_nat 1) at 1.
  rewrite first_sweep_loop_spec by (simpl; lia).
  reflexivity.
Qed.

(** ** Counting the marked days *)

Lemma long_days_cons x days :
  long_days (x :: days) = ((if decide (is_long x) then 1 else 0) + long_days days)%nat.
Proof. unfold long_days. rewrite filter_cons. by case_decide. Qed.

Lemma sum_list_S_fmap (l : list nat) : sum_list (S <$> l) = (sum_list l + length l)%nat.
Proof.
  induction l as [|x l IH]; [done|]. rewrite fmap_cons.
  change (sum_list (S x :: (S <$> l))) with (S x + sum_list (S <$> l))%nat.
  rewrite IH. simpl. lia.
Qed.

Section counting.
(** The threshold [min_days] of the labeler, at least 1. *)
Context (m : Z) (Hm : 1 ≤ m).

Lemma own_mark_long v x :
  ¬ is_long x → (is_long (own_mark m v x) ↔ v >= m).
Proof.
  intros Hx. unfold own_mark, is_long in *.
  repeat case_decide; intuition (try discriminate; lia).
Qed.

Lemma behind_mark_long v v' x :
  (is_long x ↔ v >= m) →
  (is_long (behind_mark m v v' x) ↔ v >= m ∨ v = 0 ∧ v' >= m).
Proof.
  intros Hx. unfold behind_mark, is_long in *.
  repeat case_decide; intuition (try discriminate; lia).
Qed.

(** A day ends with a long-holiday mark exactly when its weight reaches
    [min_days] or it is a zero-weight day before such a day, provided the
    head of the sequence satisfies this to begin with. *)
Lemma long_days_labels_from (c : list Z) : ∀ (d : list day_type) v x c' d',
  c = v :: c' → d = x :: d' → length d' = length c' →
  (is_long x ↔ v >= m) → Forall (λ x, ¬ is_long x) d' →
  long_days (labels_from m c d) = (ge_count m c + first_marks m c)%nat.
Proof.
  induction c as [|v0 c IH]; intros d v x c' d' Hc Hd Hlen Hx Hd'; [done|].
  simplify_eq. destruct c' as [|v' c'], d' as [|x' d']; try done.
  - simpl. unfold ge_count, long_days. rewrite !filter_cons, !filter_nil.
    repeat case_decide; tauto || done.
  - apply Forall_cons_1 in Hd' as [Hx' Hd'].
    rewrite labels_from_cons, long_days_cons.
    rewrite (IH _ v' (own_mark m v' x') c' d'); [|done|done|..|done].
    2:{ simpl in Hlen. lia. }
    2:{ by apply own_mark_long. }
    pose proof (behind_mark_long v v' x Hx) as Hb.
    unfold ge_count. rewrite (filter_cons _ v). cbn [first_marks].
    repeat case_decide; simpl; try lia; exfalso; intuition lia.
Qed.

(** The same count when the head of the sequence is a day of the run that
    starts the range: it has no iteration of its own, so it is marked only
    from behind, as the last day of a run of one day. *)
Lemma long_days_labels_from_head (v : Z) (c' : list Z) x (d' : list day_type) :
  ¬ is_long x → Forall (λ x, ¬ is_long x) d' → length d' = length c' →
  long_days (labels_from m (v :: c') (x :: d'))
  = match c' with
    | [] => 0%nat
    | v' :: _ =>
        ((if decide (v' = 0 ∧ v >= m ∨ v = 0 ∧ v' >= m)%Z then 1 else 0)
         + ge_count m c' + first_marks m c')%nat
    end.
Proof.
  intros Hx Hd' Hlen. destruct c' as [|v' c'], d' as [|x' d']; try done.
  - simpl. unfold long_days. by rewrite filter_cons_False, filter_nil.
  - apply Forall_cons_1 in Hd' as [Hx' Hd'].
    rewrite labels_from_cons, long_days_cons.
    rewrite (long_days_labels_from (v' :: c') _ v' (own_mark m v' x') c' d');
      [|done|done|simpl in Hlen; lia|by apply own_mark_long|done].
    assert (Hb : is_long (behind_mark m v v' x) ↔ v' = 0 ∧ v >= m ∨ v = 0 ∧ v' >= m).
    { unfold behind_mark, is_long in *.
      repeat case_decide; intuition (try discriminate; lia). }
    repeat case_decide; simpl; try lia; exfalso; tauto.
Qed.

Lemma ge_count_app l1 l2 :
  ge_count m (l1 ++ l2) = (ge_count m l1 + ge_count m l2)%nat.
Proof. unfold ge_count. by rewrite filter_app, length_app. Qed.

Lemma ge_count_replicate (n : nat) x :
  ge_count m (replicate n x) = if decide (x >= m) then n else 0%nat.
Proof.
  unfold ge_count.
  destruct (decide (x >= m)) as [H|H]; induction n as [|n IH]; simpl; try done.
  - rewrite filter_cons_True by done. simpl. by rewrite IH.
  - by rewrite filter_cons_False by done.
Qed.

Lemma ge_count_seqZ (cur : nat) :
  ge_count m (seqZ 1 (Z.of_nat cur)) = Z.to_nat (Z.of_nat cur - m + 1).
Proof.
  induction cur as [|cur IH].
  - change (seqZ 1 (Z.of_nat 0)) with (@nil Z). unfold ge_count.
    rewrite filter_nil. simpl. lia.
  - rewrite seqZ_S, ge_count_app, IH. unfold ge_count.
    rewrite filter_cons, filter_nil. case_decide; simpl; lia.
Qed.

Lemma first_marks_cons2 v v' l :
  first_marks m (v :: v' :: l)
  = ((if decide (v = 0 ∧ v' >= m)%Z then 1 else 0) + first_marks m (v' :: l))%nat.
Proof. reflexivity. Qed.

Lemma first_marks_app l1 a l2 :
  first_marks m (l1 ++ a :: l2)
  = (first_marks m (l1 ++ [a]) + first_marks m (a :: l2))%nat.
Proof.
  induction l1 as [|v l1 IH]; [done|].
  cbn [app first_marks]. rewrite IH. destruct l1; simpl; lia.
Qed.

Lemma first_marks_nonzero l a :
  Forall (λ v, v ≠ 0) l → first_marks m (l ++ [a]) = 0%nat.
Proof.
  induction l as [|v l IH]; intros Hl; [done|].
  apply Forall_cons_1 in Hl as [Hv Hl].
  cbn [app first_marks]. rewrite IH by done.
  destruct l; simpl; by rewrite decide_False by (intros [? _]; done).
Qed.

Lemma first_marks_seqZ (cur : nat) : first_marks m (seqZ 1 (Z.of_nat cur)) = 0%nat.
Proof.
  destruct cur as [|cur]; [done|].
  rewrite seqZ_S. apply first_marks_nonzero.
  apply Forall_forall. intros v Hv. apply elem_of_seqZ in Hv. lia.
Qed.

Lemma qualifying_runs_cons (cur : nat) runs :
  filter (λ L : nat, Z.of_nat L >= m)
    ((if decide (cur = 0%nat) then [] else [cur]) ++ runs)
  = (if decide (Z.of_nat cur >= m) then [cur] else [])
      ++ filter (λ L : nat, Z.of_nat L >= m) runs.
Proof.
  repeat case_decide; simpl; rewrite ?filter_cons;
    repeat case_decide; try done; lia.
Qed.

(** The days that reach [min_days] after the first sweep: every day of a
    closed run that reaches it, and the days of the open run from the
    [min_days]-th on. *)
Lemma ge_count_run_lengths (w : list Z) : ∀ cur : nat,
  Forall (λ v, 0 ≤ v) w →
  ge_count m (run_lengths cur w)
  = (sum_list (filter (λ L : nat, (Z.of_nat L >= m)%Z) (closed_runs cur w))
     + Z.to_nat (Z.of_nat (trailing_run cur w) - m + 1))%nat.
Proof.
  induction w as [|v w IH]; intros cur Hw.
  - simpl. by rewrite ge_count_seqZ.
  - apply Forall_cons_1 in Hw as [Hv Hw].
    cbn [run_lengths closed_runs trailing_run].
    destruct (decide (v = 0)) as [->|Hnz].
    2:{ rewrite decide_True by lia. by apply IH. }
    rewrite decide_False by lia.
    rewrite ge_count_app, ge_count_replicate.
    change (0 :: run_lengths 0 w) with ([0] ++ run_lengths 0 w).
    rewrite ge_count_app, IH by done.
    rewrite qualifying_runs_cons.
    unfold ge_count. rewrite filter_cons, filter_nil.
    repeat case_decide; simpl; lia.
Qed.

(** The zero-weight days that precede a day reaching [min_days] after the
    first sweep: the day before each closed run that reaches it, and the
    day before the open run when [min_days] is 1. *)
Lemma first_marks_run_lengths (w : list Z) : ∀ cur : nat,
  Forall (λ v, 0 ≤ v) w →
  first_marks m (0 :: run_lengths cur w)
  = (length (filter (λ L : nat, (Z.of_nat L >= m)%Z) (closed_runs cur w))
     + if decide ((1 ≤ trailing_run cur w)%nat ∧ (m ≤ 1)%Z) then 1 else 0)%nat.
Proof.
  induction w as [|v w IH]; intros cur Hw.
  - cbn [run_lengths closed_runs trailing_run].
    destruct cur as [|cur].
    + rewrite decide_False by lia. reflexivity.
    + pose proof (first_marks_seqZ (S cur)) as Hs.
      rewrite seqZ_succ in *. cbn [first_marks] in *.
      rewrite filter_nil. simpl length.
      repeat case_decide; lia.
  - apply Forall_cons_1 in Hw as [Hv Hw].
    cbn [run_lengths closed_runs trailing_run].
    destruct (decide (v = 0)) as [->|Hnz].
    2:{ rewrite decide_True by lia. by apply IH. }
    rewrite decide_False by lia.
    rewrite app_comm_cons, first_marks_app, IH by done.
    rewrite qualifying_runs_cons, length_app.
    destruct cur as [|cur].
    + simpl. repeat case_decide; simpl; lia.
    + assert (Hr : first_marks m (replicate (S cur) (Z.of_nat (S cur)) ++ [0])
                   = 0%nat).
      { apply first_marks_nonzero, Forall_replicate. lia. }
      change ((0 :: replicate (S cur) (Z.of_nat (S cur))) ++ [0])
        with (0 :: Z.of_nat (S cur) :: replicate cur (Z.of_nat (S cur)) ++ [0]).
      rewrite first_marks_cons2.
      change (Z.of_nat (S cur) :: replicate cur (Z.of_nat (S cur)) ++ [0])
        with (replicate (S cur) (Z.of_nat (S cur)) ++ [0]).
      rewrite Hr. repeat case_decide; simpl; lia.
Qed.
End counting.

(** A run that starts the range and is closed by a later zero day: the
    first sweep leaves its length on each of its days. *)
Lemma closed_runs_head (w : list Z) : ∀ (cur L : nat) runs,
  Forall (λ v, 0 ≤ v) w → closed_runs (S cur) w = L :: runs →
  (S cur ≤ L)%nat
  ∧ ∃ rest, run_lengths (S cur) w = replicate L (Z.of_nat L) ++ 0 :: rest.
Proof.
  induction w as [|v w IH]; intros cur L runs Hw Hcr; [done|].
  apply Forall_cons_1 in Hw as [Hv Hw]. cbn [closed_runs run_lengths] in *.
  destruct (decide (v = 0)) as [->|Hnz].
  - rewrite decide_False in Hcr by done. injection Hcr as <- _.
    split; [done|]. rewrite decide_False by lia. eauto.
  - rewrite decide_True by lia.
    destruct (IH (S cur) L runs Hw Hcr) as [Hle Hrest]. split; [lia|done].
Qed.

(** A run that covers the whole range: the first sweep leaves the positions
    1, 2, ... *)
Lemma closed_runs_none (w : list Z) : ∀ cur : nat,
  Forall (λ v, 0 ≤ v) w → closed_runs (S cur) w = [] →
  run_lengths (S cur) w = seqZ 1 (Z.of_nat (S cur + length w))
  ∧ trailing_run (S cur) w = (S cur + length w)%nat.
Proof.
  induction w as [|v w IH]; intros cur Hw Hcr.
  - cbn [run_lengths trailing_run length]. by replace (S cur + 0)%nat with (S cur) by lia.
  - apply Forall_cons_1 in Hw as [Hv Hw]. cbn [closed_runs run_lengths trailing_run] in *.
    destruct (decide (v = 0)) as [->|Hnz].
    + by rewrite decide_False in Hcr.
    + rewrite decide_True by lia. destruct (IH (S cur) Hw Hcr) as [-> ->].
      cbn [length]. split; [f_equal|]; lia.
Qed.

(** ** The calendar assembler *)

Lemma max_day_off (hs : list holiday) (b : bool) :
  foldr Z.max (Z.b2z b) (Z.b2z ∘ day_off <$> hs)
  = if decide (b = true ∨ Exists (λ h, day_off h = true) hs) then 1 else 0.
Proof.
  induction hs as [|h hs IH].
  - simpl. destruct b; case_decide as H; try done.
    + exfalso. apply H. by left.
    + destruct H as [?|H]; [done|]. by apply Exists_nil in H.
  - cbn [fmap list_fmap foldr]. rewrite IH. unfold compose.
    destruct (day_off h) eqn:Hh; cbn [Z.b2z].
    + rewrite (decide_True (P := b = true ∨ Exists _ (h :: hs))).
      * case_decide; lia.
      * right. by left.
    + case_decide as H1; case_decide as H2; try lia; exfalso.
      * apply H2. destruct H1 as [?|?]; [by left|right; by right].
      * apply H1. destruct H2 as [?|H2]; [by left|].
        apply Exists_cons in H2 as [?|?]; [congruence|by right].
Qed.

(** A filled cell of the pivot table is 1 exactly on a marked day. *)
Lemma pivot_cell_marked (df : list holiday) d c :
  int8 (fillna 0 (pivot_cell df d c)) = if decide (marked df d c) then 1 else 0.
Proof.
  unfold pivot_cell, marked.
  assert (Hg : Exists (λ h, date h = d ∧ country_code h = c ∧ day_off h = true) df
               ↔ Exists (λ h, day_off h = true)
                   (filter (λ h, date h = d ∧ country_code h = c) df)).
  { rewrite !Exists_exists. split.
    - intros (h & Hin & ? & ? & ?). exists h. split; [|done].
      apply list_elem_of_filter. done.
    - intros (h & Hin & ?). apply list_elem_of_filter in Hin as [[? ?] ?]. eauto. }
  destruct (filter (λ h, date h = d ∧ country_code h = c) df) as [|h hs].
  - simpl. rewrite decide_False; [done|]. rewrite Hg. by intros ?%Exists_nil.
  - simpl. rewrite max_day_off.
    case_decide as H1; case_decide as H2; try done; exfalso.
    + apply H2, Hg. destruct H1 as [?|?]; [by left|by right].
    + apply H1. apply Hg in H2. apply Exists_cons in H2 as [?|?]; auto.
Qed.

Lemma elem_of_pivot_index (df : list holiday) d :
  d ∈ pivot_index df ↔ d ∈ date <$> df.
Proof.
  unfold pivot_index. rewrite merge_sort_Permutation. apply elem_of_remove_dups.
Qed.

Lemma NoDup_pivot_index (df : list holiday) : NoDup (pivot_index df).
Proof.
  unfold pivot_index. rewrite merge_sort_Permutation. apply NoDup_remove_dups.
Qed.

Lemma pivot_cell_absent (df : list holiday) d c :
  d ∉ pivot_index df → pivot_cell df d c = None.
Proof.
  rewrite elem_of_pivot_index. intros Hd. unfold pivot_cell.
  destruct (filter (λ h, date h = d ∧ country_code h = c) df) as [|h hs] eqn:E; [done|].
  exfalso. apply Hd. assert (Hin : h ∈ h :: hs) by left.
  rewrite <- E in Hin. apply list_elem_of_filter in Hin as [[<- _] Hin].
  by apply list_elem_of_fmap_2.
Qed.

(** The rows of a frame with distinct keys that carry the key [d]. *)
Lemma filter_key {A} (f : Z → list A) (idx : list Z) d :
  NoDup idx →
  filter (λ r : Z * list A, r.1 = d) ((λ d', (d', f d')) <$> idx)
  = if decide (d ∈ idx) then [(d, f d)] else [].
Proof.
  induction idx as [|a idx IH]; intros Hnd.
  - rewrite decide_False by apply not_elem_of_nil. done.
  - apply NoDup_cons in Hnd as [Ha Hnd]. cbn [fmap list_fmap].
    rewrite filter_cons, IH by done. simpl.
    destruct (decide (a = d)) as [->|Hne].
    + rewrite decide_False by done. rewrite decide_True by left. done.
    + case_decide as H1; case_decide as H2; try done; exfalso.
      * apply H2. by right.
      * apply H1. apply elem_of_cons in H2 as [?|?]; [congruence|done].
Qed.

Lemma merge_left_pivot (f : Z → list (option Z)) (cal idx : list Z) (n : nat) :
  NoDup idx →
  (∀ d, d ∉ idx → f d = replicate n None) →
  merge_left cal n ((λ d', (d', f d')) <$> idx) = (λ d, (d, f d)) <$> cal.
Proof.
  intros Hnd Habs. unfold merge_left.
  induction cal as [|d cal IH]; [done|].
  rewrite bind_cons, IH, fmap_cons, filter_key by done.
  case_decide as Hd; simpl; [done|]. by rewrite Habs.
Qed.

Lemma flag_value_cases w df d c : flag_value w df d c = 0 ∨ flag_value w df d c = 1.
Proof. unfold flag_value. repeat case_decide; auto. Qed.

(** The dense calendar, when every requested country is a column of the
    pivot table: one row per day of the range, one [flag_value] per country. *)
Lemma dense_calendar_rows (holidays : list holiday) date_from date_to cc weekends :
  NoDup (requested cc) →
  Forall (λ c, c ∈ pivot_columns holidays) (requested cc) →
  dense_calendar holidays date_from date_to cc weekends
  = Returned ((λ d, (d, flag_value weekends holidays d <$> requested cc))
                <$> date_range date_from date_to).
Proof.
  intros Hnd Hcols. unfold dense_calendar, select_countries.
  rewrite decide_True by done. rewrite bind_Returned.
  rewrite (decide_True (P := NoDup (requested cc))) by done.
  rewrite (merge_left_pivot (λ d, pivot_cell holidays d <$> requested cc)).
  2:{ apply NoDup_pivot_index. }
  2:{ intros d Hd. apply const_fmap. intros _ c _. by apply pivot_cell_absent. }
  f_equal. destruct weekends; unfold force_weekends, fill_flags;
    rewrite <- ?list_fmap_compose; apply list_fmap_ext; intros _ d _; simpl.
  - unfold flag_value. case_decide as Hwd.
    + simpl. f_equal. rewrite <- !list_fmap_compose. apply list_fmap_ext.
      intros _ c _. simpl. by rewrite decide_True.
    + simpl. f_equal. rewrite <- list_fmap_compose. apply list_fmap_ext.
      intros _ c _. simpl. rewrite pivot_cell_marked.
      by rewrite (decide_False (P := true = true ∧ _)) by tauto.
  - f_equal. rewrite <- list_fmap_compose. apply list_fmap_ext.
    intros _ c _. simpl. rewrite pivot_cell_marked. unfold flag_value.
    by rewrite (decide_False (P := false = true ∧ _)) by (intros [? _]; done).
Qed.

Lemma dense_calendar_KeyError (holidays : list holiday) date_from date_to cc weekends :
  ¬ Forall (λ c, c ∈ pivot_columns holidays) (requested cc) →
  dense_calendar holidays date_from date_to cc weekends = Raised KeyError.
Proof.
  intros Hcols. unfold dense_calendar, select_countries.
  by rewrite decide_False by done.
Qed.

(** A country requested twice, all of them columns of the pivot table. *)
Lemma dense_calendar_ValueError (holidays : list holiday) date_from date_to cc weekends :
  Forall (λ c, c ∈ pivot_columns holidays) (requested cc) →
  ¬ NoDup (requested cc) →
  dense_calendar holidays date_from date_to cc weekends = Raised ValueError.
Proof.
  intros Hcols Hnd. unfold dense_calendar, select_countries.
  rewrite decide_True by done. rewrite bind_Returned.
  by rewrite (decide_False (P := NoDup (requested cc))).
Qed.

Lemma frame_column_dense w df (codes : list string) (dates : list Z) j c :
  codes !! j = Some c →
  frame_column ((λ d, (d, flag_value w df d <$> codes)) <$> dates) j
  = (λ d, (d, Some (flag_value w df d c))) <$> dates.
Proof.
  intros Hj. unfold frame_column. rewrite <- list_fmap_compose.
  apply list_fmap_ext. intros _ d _. simpl. by rewrite list_lookup_fmap, Hj.
Qed.

Lemma flag_column_dense w df (dates : list Z) c :
  flag_column ((λ d, (d, Some (flag_value w df d c))) <$> dates).
Proof.
  unfold flag_column. apply Forall_fmap, Forall_forall. intros d _. simpl.
  destruct (flag_value_cases w df d c) as [-> | ->]; auto.
Qed.

Lemma date_range_length date_from date_to :
  length (date_range date_from date_to) = Z.to_nat (date_to - date_from + 1).
Proof. unfold date_range. apply length_seqZ. Qed.

Lemma date_range_nonempty date_from date_to :
  date_from ≤ date_to → date_range date_from date_to ≠ [].
Proof.
  intros H E. apply (f_equal length) in E. rewrite date_range_length in E.
  simpl in E. lia.
Qed.

Lemma date_range_empty date_from date_to :
  date_to < date_from → date_range date_from date_to = [].
Proof.
  intros H. apply length_zero_iff_nil. rewrite date_range_length. lia.
Qed.

Lemma elem_of_date_range date_from date_to d :
  d ∈ date_range date_from date_to ↔ date_from ≤ d ≤ date_to.
Proof. unfold date_range. rewrite elem_of_seqZ. lia. Qed.

(** The loop over the countries returns when the labeler returns on each. *)
Lemma collect_returns {A} (cat : nat → outcome A) (js : list nat) : ∀ acc,
  (∀ j, j ∈ js → ∃ a, cat j = Returned a) →
  ∃ cols, for_each js (λ j cols, col ← cat j; Returned (cols ++ [col])) acc
          = Returned cols.
Proof.
  induction js as [|j js IH]; intros acc Hjs.
  - by exists acc.
  - destruct (Hjs j) as [a Ha]; [by left|].
    cbn [for_each]. rewrite Ha, !bind_Returned.
    apply IH. intros j' Hj'. apply Hjs. by right.
Qed.

Lemma flag_columns_dense w df (codes : list string) (dates : list Z) :
  frame_column ((λ d, (d, flag_value w df d <$> codes)) <$> dates)
    <$> seq 0 (length codes)
  = (λ c, (λ d, (d, Some (flag_value w df d c))) <$> dates) <$> codes.
Proof.
  apply list_eq. intros j. rewrite !list_lookup_fmap.
  destruct (codes !! j) as [c|] eqn:Hj; simpl.
  - rewrite lookup_seq_lt by (by eapply lookup_lt_Some). simpl.
    f_equal. by apply frame_column_dense.
  - rewrite lookup_seq_ge; [done|]. by apply lookup_ge_None.
Qed.

Lemma flag_of_dense (dates : list Z) (codes : list string) cols w df d c :
  d ∈ dates → c ∈ codes →
  flag_of {| cal_index := dates; cal_countries := codes; cal_day_type := cols;
             cal_flags := (λ c, (λ d, (d, Some (flag_value w df d c))) <$> dates)
                            <$> codes |} d c
  = Some (flag_value w df d c).
Proof.
  intros Hd Hc. unfold flag_of. simpl.
  destruct (list_find_elem_of (λ c', c' = c) codes c Hc eq_refl) as [[j c'] Hj].
  rewrite Hj. simpl. apply list_find_Some in Hj as (Hj & -> & _).
  rewrite list_lookup_fmap, Hj. simpl.
  assert (Hin : (d, Some (flag_value w df d c))
                ∈ (λ d, (d, Some (flag_value w df d c))) <$> dates).
  { by apply (list_elem_of_fmap_2 (λ d, (d, Some (flag_value w df d c)))). }
  destruct (list_find_elem_of (λ r : Z * option Z, r.1 = d) _ _ Hin eq_refl)
    as [[i r] Hi].
  rewrite Hi. simpl. apply list_find_Some in Hi as (Hi & Hr & _).
  rewrite list_lookup_fmap in Hi. destruct (dates !! i); simplify_eq/=. done.
Qed.

Lemma elem_of_pivot_columns (df : list holiday) c :
  c ∈ pivot_columns df ↔ c ∈ country_code <$> df.
Proof. unfold pivot_columns. apply elem_of_remove_dups. Qed.

Lemma flag_value_marked w df d c :
  flag_value w df d c
  = if decide (marked df d c ∨ w = true ∧ weekday d ∈ [5; 6]) then 1 else 0.
Proof. unfold flag_value. repeat case_decide; tauto || done. Qed.


(** The call of line 61 passes the country list as a third argument: as the
    function is written it raises TypeError there, whatever its
    arguments. *)
Lemma load_calendar_TypeError (holidays : list holiday) date_from date_to cc m weekends :
  load_calendar holidays date_from date_to cc m weekends = Raised TypeError.
Proof. reflexivity. Qed.

(** ** Runs that touch an end of the range *)

(** C4. On every non-empty flag column and for every threshold
    ([min_days >= 1] included) [_categorize] returns, and no day of the run of
    nonzero weights that reaches the final day is labelled last_day: a day
    [p] lies in that run when every day from [p] to the end has a nonzero
    weight.  The final day itself is never labelled last_day, whatever its
    weight. *)
Theorem trailing_run_never_last_day (column : series) (min_days : Z) :
  flag_column column → column ≠ [] →
  ∃ days, _categorize column min_days = Returned days
    ∧ length days = length column
    ∧ (∀ p, (∀ q v, (p ≤ q)%nat → weights column !! q = Some v → v ≠ 0) →
            days !! p ≠ Some last_day)
    ∧ days !! (length column - 1)%nat ≠ Some last_day.
Proof.
  intros Hc Hne.
  destruct (categorize_label_at column min_days Hc Hne)
    as (c & days & Hs & [Hlen Hpos] & Hr & Hl & Hat).
  exists days. do 2 (split; [done|]).
  assert (Hd : ∀ p x, default_types column !! p = Some x → ¬ is_long x)
    by apply default_types_not_long.
  split.
  - intros p Hrun Hp. rewrite Hat in Hp.
    apply label_at_last_day in Hp as [Hz _]; [|by apply Hd].
    destruct (lookup_lt_is_Some_2 (weights column) (S p)) as [v Hv].
    { rewrite <- Hlen. by eapply lookup_lt_Some. }
    pose proof (weights_range column (S p) v Hc Hv).
    assert (v ≠ 0) by (apply (Hrun (S p)); [lia|done]).
    destruct (Hpos (S p) v Hv) as (y & Hy & ?); [lia|]. simplify_eq; lia.
  - intros Hp. rewrite Hat in Hp.
    apply label_at_last_day in Hp as [Hz _]; [|by apply Hd].
    apply lookup_lt_Some in Hz. rewrite Hlen, weights_length in Hz. lia.
Qed.

Lemma trailing_run_never_last_day_witness :
  ∃ days, _categorize (column_from (dt_date 2024 1 1) [0; 1; 1; 1]) 3 = Returned days
    ∧ days !! 1%nat ≠ Some last_day ∧ days !! 3%nat ≠ Some last_day.
Proof.
  destruct (trailing_run_never_last_day
              (column_from (dt_date 2024 1 1) [0; 1; 1; 1]) 3)
    as (days & Hr & _ & Hrun & Hfin).
  - solve_flag_column.
  - discriminate.
  - exists days. split; [done|]. split; [|exact Hfin].
    apply Hrun. intros q v Hq.
    destruct q as [|[|[|[|q]]]]; [lia|..]; vm_compute; intros [= <-]; done.
Defined.

(** C10. On every flag column of at least two days and for every
    [min_days >= 1] [_categorize] returns, and no day of the run of nonzero
    weights that begins on day 0 is labelled first_day: a day [p] lies in that
    run when every day from 0 to [p] has a nonzero weight.  Day 0 is never
    labelled middle_days.  When day 0 has a nonzero weight and the weight that
    the first sweep leaves on day 1 reaches [min_days], day 0 keeps its
    weekday label and day 1 is labelled middle_days, unless day 2 closes the
    run. *)
Theorem leading_run_never_first_day (column : series) (min_days : Z) :
  flag_column column → (2 ≤ length column)%nat → 1 ≤ min_days →
  ∃ c days, first_sweep (weights column) = Returned c
    ∧ _categorize column min_days = Returned days
    ∧ (∀ p, (∀ q v, (q ≤ p)%nat → weights column !! q = Some v → v ≠ 0) →
            days !! p ≠ Some first_day)
    ∧ days !! 0%nat ≠ Some middle_days
    ∧ (∀ w0 v1, weights column !! 0%nat = Some w0 → w0 ≠ 0 →
                c !! 1%nat = Some v1 → v1 >= min_days → c !! 2%nat ≠ Some 0 →
                days !! 0%nat = default_types column !! 0%nat
                ∧ days !! 1%nat = Some middle_days).
Proof.
  intros Hc Hn Hm.
  assert (Hne : column ≠ []) by (intros ->; simpl in Hn; lia).
  destruct (categorize_label_at column min_days Hc Hne)
    as (c & days & Hs & [Hlen Hpos] & Hr & Hl & Hat).
  exists c, days. do 2 (split; [done|]).
  assert (Hd : ∀ p x, default_types column !! p = Some x → ¬ is_long x)
    by apply default_types_not_long.
  split; [|split].
  - intros p Hrun Hp. rewrite Hat in Hp.
    apply label_at_first_day in Hp as [Hz _]; [|by apply Hd].
    destruct (lookup_lt_is_Some_2 (weights column) p) as [v Hv].
    { rewrite <- Hlen. by eapply lookup_lt_Some. }
    pose proof (weights_range column p v Hc Hv).
    assert (v ≠ 0) by (apply (Hrun p); [lia|done]).
    destruct (Hpos p v Hv) as (y & Hy & ?); [lia|]. simplify_eq; lia.
  - rewrite Hat. apply label_at_0_middle_days. by apply Hd.
  - intros w0 v1 Hw0 Hnz Hv1 Hge Hv2.
    pose proof (weights_range column 0 w0 Hc Hw0).
    destruct (Hpos 0%nat w0 Hw0) as (c0 & Hc0 & ?); [lia|].
    destruct (lookup_lt_is_Some_2 (default_types column) 0) as [x0 Hx0].
    { rewrite default_types_length. lia. }
    destruct (lookup_lt_is_Some_2 (default_types column) 1) as [x1 Hx1].
    { rewrite default_types_length. lia. }
    rewrite !Hat. unfold label_at. rewrite Hx0, Hx1, Hc0, Hv1. simpl. split.
    + f_equal. unfold behind_mark. repeat case_decide; try done; lia.
    + f_equal. unfold own_mark. rewrite decide_False, decide_True by lia.
      destruct (c !! 2%nat) as [v2|]; [|done].
      unfold behind_mark. repeat case_decide; try done; try lia. congruence.
Qed.

Lemma leading_run_never_first_day_witness :
  ∃ days, _categorize (column_from (dt_date 2024 1 1) [1; 1; 1; 0]) 3 = Returned days
    ∧ days !! 2%nat ≠ Some first_day ∧ days !! 0%nat ≠ Some middle_days
    ∧ days !! 1%nat = Some middle_days.
Proof.
  destruct (leading_run_never_first_day
              (column_from (dt_date 2024 1 1) [1; 1; 1; 0]) 3)
    as (c & days & Hs & Hr & Hrun & Hz & Hmid).
  - solve_flag_column.
  - simpl. lia.
  - lia.
  - exists days. split; [done|]. split; [|split; [exact Hz|]].
    + apply Hrun. intros q v Hq.
      destruct q as [|[|[|q]]]; [..|lia]; vm_compute; intros [= <-]; done.
    + vm_compute in Hs. injection Hs as <-.
      apply (Hmid 1 3); [reflexivity|lia|reflexivity|lia|discriminate].
Defined.

(** ** Scenario A of the specification *)

(** C3 (as amended). With [min_days = 3], on seven consecutive days from a
    Monday with the flags 0,0,1,1,1,0,0 the labeler returns others, others,
    others, others, middle_days, middle_days, middle_days: the week-end
    extends the run to the end of the range, where it stays open. *)
Theorem scenario_A_labels (d : Z) :
  weekday d = 0 →
  _categorize (column_from d [0; 0; 1; 1; 1; 0; 0]) 3
  = Returned [others; others; others; others; middle_days; middle_days; middle_days].
Proof.
  intros Hd. unfold _categorize.
  assert (Hw : weights (column_from d [0; 0; 1; 1; 1; 0; 0]) = [0; 0; 1; 1; 1; 1; 1]).
  { unfold weights, column_from. cbn [length]. rewrite !seqZ_succ. simpl.
    rewrite <- !Z.add_assoc, Hd.
    repeat match goal with
           | |- context [weekday (d + ?i)] => rewrite (weekday_shift d i) by (done || lia)
           end.
    reflexivity. }
  assert (Ht : default_types (column_from d [0; 0; 1; 1; 1; 0; 0])
               = [others; others; others; others; Friday; Saturday; Sunday]).
  { unfold default_types, wdays, column_from. cbn [length]. rewrite !seqZ_succ. simpl.
    rewrite <- !Z.add_assoc, Hd.
    repeat match goal with
           | |- context [weekday (d + ?i)] => rewrite (weekday_shift d i) by (done || lia)
           end.
    reflexivity. }
  rewrite Hw, Ht. reflexivity.
Qed.

Lemma scenario_A_labels_witness :
  weekday (dt_date 2024 1 1) = 0
  ∧ _categorize (column_from (dt_date 2024 1 1) [0; 0; 1; 1; 1; 0; 0]) 3
    = Returned [others; others; others; others; middle_days; middle_days; middle_days].
Proof.
  split; [reflexivity|]. apply (scenario_A_labels (dt_date 2024 1 1)). reflexivity.
Defined.

(** The label sequence that the specification expects in scenario A is not
    the one that the labeler returns. *)
Lemma scenario_A_expected_fails :
  weekday (dt_date 2024 1 1) = 0
  ∧ _categorize (column_from (dt_date 2024 1 1) [0; 0; 1; 1; 1; 0; 0]) 3
    ≠ Returned [others; others; first_day; middle_days; last_day; Saturday; Sunday].
Proof. split; [reflexivity|]. vm_compute. discriminate. Qed.

(** ** The back-fill of a run that starts on a week-end holiday *)

(** C9. When day 0 of the column is a holiday on a Saturday or Sunday its
    base weight is 2.  If the days 1 .. i-1 have positive weights and day [i]
    has weight zero, the first sweep reaches iteration [i] with the counter at
    [i + 1], one more than the [i] days of the run; the back-fill range then
    contains [j = i + 1], whose target [i - j] is -1; numpy resolves -1 to the
    last position [n - 1], which lies outside the run, and after the
    iteration that position holds [i + 1]. *)
Theorem backfill_reaches_index_minus_one (column : series) (i : nat) (d0 : Z) :
  column !! 0%nat = Some (d0, Some 1) → weekday d0 = 5 ∨ weekday d0 = 6 →
  (1 ≤ i < length column)%nat →
  (∀ q v, (1 ≤ q < i)%nat → weights column !! q = Some v → v > 0) →
  weights column !! i = Some 0 →
  let w := weights column in
  let n := length w in
  w !! 0%nat = Some 2
  ∧ ∃ c c',
      for_each (py_range 1 (Z.of_nat i)) propagate_step (w, 2)
      = Returned (c, Z.of_nat i + 1)
      ∧ Z.of_nat i + 1 ∈ py_range 1 (Z.of_nat i + 1 + 1)
      ∧ np_index n (Z.of_nat i - (Z.of_nat i + 1)) = Returned (n - 1)%nat
      ∧ propagate_step (Z.of_nat i) (c, Z.of_nat i + 1) = Returned (c', 0)
      ∧ c' !! (n - 1)%nat = Some (Z.of_nat i + 1)
      ∧ (i ≤ n - 1)%nat.
Proof.
  intros H0 Hwd Hi Hpos Hz w n.
  assert (Hn : n = length column) by apply weights_length.
  assert (Hw0 : w !! 0%nat = Some 2).
  { unfold w, weights. rewrite list_lookup_fmap, H0. simpl. f_equal.
    unfold base_weight. rewrite decide_True by done. reflexivity. }
  split; [done|].
  (* the weights are 2, then i - 1 positive ones, then the zero of day i *)
  set (pos := drop 1 (take i w)). set (rest := drop (S i) w).
  assert (Hw : w = [2] ++ pos ++ 0 :: rest).
  { rewrite <- (take_drop_middle w i 0) at 1 by done. fold rest.
    rewrite (assoc_L (++)). f_equal. unfold pos.
    destruct i as [|i]; [lia|]. destruct w as [|w0 w']; [done|].
    simpl in Hw0. simplify_eq. simpl. by rewrite drop_0. }
  assert (Hlp : length pos = (i - 1)%nat).
  { unfold pos. rewrite length_drop, length_take. lia. }
  assert (Hfp : Forall (λ v, v > 0) pos).
  { apply Forall_lookup_2. intros q v Hq. unfold pos in Hq.
    rewrite lookup_drop in Hq. apply lookup_take_Some in Hq as [Hq ?].
    apply (Hpos (1 + q)%nat); [lia|done]. }
  pose proof (first_sweep_open_run pos [2] (0 :: rest) 2 Hfp) as Hloop.
  rewrite Hlp in Hloop. rewrite <- Hw in Hloop.
  change (Z.of_nat (length [2])) with 1 in Hloop.
  set (c := [2] ++ seqZ (2 + 1) (Z.of_nat (i - 1)) ++ 0 :: rest) in Hloop.
  assert (Hlc : length c = n).
  { unfold c, n. rewrite Hw. solve_length. }
  assert (Hci : c !! i = Some 0).
  { unfold c. rewrite (assoc_L (++)). apply list_lookup_middle. solve_length. }
  (* the back-fill: the writes for j = 1 .. i, then the write for j = i + 1 *)
  destruct (writes_keep_positive c (Z.of_nat i) (Z.of_nat i + 1)
              (seqZ 1 (Z.of_nat i)) c) as (c1 & Hc1 & [Hl1 _]).
  { apply keeps_positive_refl. }
  { lia. }
  { intros j Hj. apply elem_of_seqZ in Hj. lia. }
  exists c, (<[(n - 1)%nat := Z.of_nat i + 1]> c1).
  split; [|split; [|split; [|split; [|split]]]].
  - unfold py_range. replace (Z.of_nat i - 1) with (Z.of_nat (i - 1)) by lia.
    rewrite Hloop. f_equal. f_equal. lia.
  - unfold py_range. apply elem_of_seqZ. lia.
  - replace (Z.of_nat i - (Z.of_nat i + 1)) with (-1) by lia.
    rewrite np_index_wrap by lia. f_equal. lia.
  - cbn [propagate_step]. rewrite (np_get_nat c i 0), bind_Returned by done.
    rewrite decide_False by lia. unfold backfill, py_range.
    replace (Z.of_nat i + 1 + 1 - 1) with (Z.of_nat (S i)) by lia.
    rewrite seqZ_S, for_each_app, Hc1, bind_Returned. cbn [for_each].
    unfold np_set. replace (Z.of_nat i - (1 + Z.of_nat i)) with (-1) by lia.
    rewrite np_index_wrap by lia. simpl.
    do 3 f_equal. lia.
  - apply list_lookup_insert_eq. lia.
  - lia.
Qed.

Lemma backfill_reaches_index_minus_one_witness :
  let w := weights (column_from (dt_date 2024 1 7) [1; 0; 0]) in
  w !! 0%nat = Some 2
  ∧ ∃ c c',
      for_each (py_range 1 1) propagate_step (w, 2) = Returned (c, 1 + 1)
      ∧ 1 + 1 ∈ py_range 1 (1 + 1 + 1)
      ∧ np_index (length w) (1 - (1 + 1)) = Returned (length w - 1)%nat
      ∧ propagate_step 1 (c, 1 + 1) = Returned (c', 0)
      ∧ c' !! (length w - 1)%nat = Some (1 + 1)
      ∧ (1 ≤ length w - 1)%nat.
Proof.
  apply (backfill_reaches_index_minus_one
           (column_from (dt_date 2024 1 7) [1; 0; 0]) 1 (dt_date 2024 1 7)).
  - reflexivity.
  - right. reflexivity.
  - simpl. lia.
  - intros q v Hq. lia.
  - reflexivity.
Defined.

(** ** The two sweeps and the rules of the specification *)

(** C2. For every weight sequence of length at least 1, every label sequence
    of the same length and every [min_days >= 1], the second sweep of
    [_categorize] returns exactly the labels of the specification's rule.
    The boundary marks land one index behind the day that triggers them and
    stay there: if day [i] has weight 0 and day [i - 1] a weight that reaches
    [min_days], day [i - 1] ends as last_day; if day [i] reaches [min_days]
    and day [i - 1] has weight 0, day [i - 1] ends as first_day. *)
Theorem second_sweep_refines_spec (counts : list Z) (days : list day_type)
    (min_days : Z) :
  1 ≤ min_days → counts ≠ [] → length days = length counts →
  second_sweep counts days min_days = Returned (spec_labels counts days min_days)
  ∧ ∀ (i : nat) v last,
      (1 ≤ i)%nat → counts !! i = Some v → counts !! (i - 1)%nat = Some last →
      (v = 0 → last >= min_days →
         spec_labels counts days min_days !! (i - 1)%nat = Some last_day)
      ∧ (v >= min_days → last = 0 →
         spec_labels counts days min_days !! (i - 1)%nat = Some first_day).
Proof.
  intros Hm Hne Hlen.
  pose proof (second_sweep_spec counts days min_days Hm Hne Hlen) as Hspec.
  split; [done|].
  pose proof (second_sweep_labels counts days min_days Hlen Hne) as Hfrom.
  rewrite Hspec in Hfrom. injection Hfrom as ->.
  intros i v last Hi Hv Hlast.
  destruct i as [|p]; [lia|].
  replace (S p - 1)%nat with p in * by lia.
  destruct (lookup_lt_is_Some_2 days p) as [x Hx].
  { rewrite Hlen. by eapply lookup_lt_Some. }
  rewrite labels_from_lookup by done.
  unfold label_at. rewrite Hx, Hlast, Hv. simpl.
  unfold behind_mark. split; intros H1 H2.
  - by rewrite decide_True, decide_True.
  - rewrite decide_False by lia. by rewrite decide_True, decide_True.
Qed.

Lemma second_sweep_refines_spec_witness :
  second_sweep [0; 3; 3; 3; 0] [others; others; others; Friday; Saturday] 3
  = Returned (spec_labels [0; 3; 3; 3; 0] [others; others; others; Friday; Saturday] 3)
  ∧ spec_labels [0; 3; 3; 3; 0] [others; others; others; Friday; Saturday] 3 !! 3%nat
    = Some last_day
  ∧ spec_labels [0; 3; 3; 3; 0] [others; others; others; Friday; Saturday] 3 !! 0%nat
    = Some first_day.
Proof.
  destruct (second_sweep_refines_spec [0; 3; 3; 3; 0]
              [others; others; others; Friday; Saturday] 3) as [Hs Hm].
  - lia.
  - discriminate.
  - reflexivity.
  - split; [exact Hs|]. split.
    + apply (Hm 4%nat 0 3); [lia|reflexivity|reflexivity|reflexivity|lia].
    + apply (Hm 1%nat 3 0); [lia|reflexivity|reflexivity|lia|reflexivity].
Defined.

(** C1 at the failing input.  Three days from Sunday 2024-01-07, the Sunday
    being a holiday: the base weights are 2, 0, 0, one closed run of length 1.
    The first sweep of the source returns 2, 0, 1.  The run does not hold its
    length 1 ([run_lengths] gives 1, 0, 0), the propagation of the
    specification leaves 2, 0, 0, and the last day, which has weight zero and
    lies in no run, ends with weight 1; with [min_days = 1] that Tuesday is
    labelled middle_days and the Monday first_day. *)
Theorem first_sweep_weekend_holiday_start :
  let column := column_from (dt_date 2024 1 7) [1; 0; 0] in
  flag_column column
  ∧ weekday (dt_date 2024 1 7) = 6
  ∧ weights column = [2; 0; 0]
  ∧ closed_runs 0 (weights column) = [1%nat]
  ∧ first_sweep (weights column) = Returned [2; 0; 1]
  ∧ spec_propagate (weights column) = [2; 0; 0]
  ∧ run_lengths 1 [0; 0] = [1; 0; 0]
  ∧ _categorize column 1 = Returned [last_day; first_day; middle_days].
Proof.
  split; [solve_flag_column|]. repeat split; reflexivity.
Qed.

(** ** The round trip between run lengths and marked days *)

(** C7 (as amended). On every flag column whose first day has weight 0 or 1
    (it is not a holiday flagged on a Saturday or Sunday) and for every
    [min_days >= 1] [_categorize] returns, and the number of days labelled
    first_day, middle_days or last_day is the sum of: for every closed run
    after day 0 whose length [L] reaches [min_days], [L + 1] (the days of the
    run and the zero-weight day before it, which carries first_day); for a
    closed run that starts on day 0 and whose length [L] reaches [min_days],
    [L - 1] when [L >= 2] and 1 when [L = 1] (day 0 has no day before it and
    is marked only as the last day of a run of one day); for a run of [T]
    days after day 0 that is still open at the end of the range, one
    middle_days for each of its days from the [min_days]-th on, plus one
    first_day when [min_days] is 1; and for an open run that covers the whole
    range, one middle_days for each of its days from the [min_days]-th on,
    day 0 left out. *)
Theorem long_days_count (column : series) (min_days : Z) :
  flag_column column →
  (∃ v, weights column !! 0%nat = Some v ∧ v ≤ 1) →
  1 ≤ min_days →
  ∃ days, _categorize column min_days = Returned days
    ∧ long_days days = marked_total min_days (weights column).
Proof.
  intros Hc (v0 & H0 & Hv0) Hm.
  destruct (weights column) as [|v w] eqn:Hw; [done|].
  simpl in H0. injection H0 as ->.
  assert (Hne : column ≠ []) by (by intros ->).
  assert (Hpos : Forall (λ v, 0 ≤ v) w).
  { apply Forall_lookup_2. intros p v Hp.
    pose proof (weights_range column (S p) v Hc) as Hr.
    rewrite Hw in Hr. specialize (Hr Hp). lia. }
  assert (Hdl : length (default_types column) = S (length w)).
  { by rewrite default_types_length, <- (weights_length column), Hw. }
  assert (Hv : v0 = 0 ∨ v0 = 1).
  { pose proof (weights_range column 0 v0 Hc) as Hr. rewrite Hw in Hr.
    specialize (Hr eq_refl). lia. }
  destruct (default_types column) as [|x d] eqn:Hd; [done|].
  assert (Hx : ¬ is_long x).
  { by apply (default_types_not_long column 0 x); rewrite Hd. }
  assert (Hd' : Forall (λ x, ¬ is_long x) d).
  { apply Forall_lookup_2. intros p y Hy.
    apply (default_types_not_long column (S p) y). by rewrite Hd. }
  destruct Hv as [-> | ->].
  - assert (Hlen : length (run_lengths 0 w) = length w).
    { pose proof (first_sweep_total (0 :: w) 0 eq_refl) as (c & Hs & [Hl _]); [lia|].
      rewrite first_sweep_zero_head in Hs. injection Hs as <-. simpl in Hl. lia. }
    exists (labels_from min_days (0 :: run_lengths 0 w) (x :: d)). split.
    + unfold _categorize. rewrite Hw, Hd, first_sweep_zero_head, bind_Returned.
      apply second_sweep_labels; [|done]. simpl in *. lia.
    + rewrite (long_days_labels_from min_days Hm _ _ 0 x (run_lengths 0 w) d);
        [|done|done|simpl in Hdl; lia|split; [done|lia]|done].
      change (0 :: run_lengths 0 w) with ([0] ++ run_lengths 0 w) at 1.
      rewrite ge_count_app, ge_count_run_lengths, first_marks_run_lengths by done.
      unfold marked_total. rewrite (decide_True (P := 0 = 0)) by done.
      unfold closed_marks, trailing_marks. rewrite sum_list_S_fmap.
      unfold ge_count. rewrite filter_cons_False by lia. simpl. lia.
  - assert (Hlen : length (run_lengths 1 w) = S (length w)).
    { pose proof (first_sweep_total (1 :: w) 1 eq_refl) as (c & Hs & [Hl _]); [lia|].
      rewrite first_sweep_one_head in Hs. injection Hs as <-. simpl in Hl. lia. }
    exists (labels_from min_days (run_lengths 1 w) (x :: d)). split.
    + unfold _categorize. rewrite Hw, Hd, first_sweep_one_head, bind_Returned.
      apply second_sweep_labels; [simpl in *; lia|].
      intros E. by rewrite E in Hlen.
    + pose proof (ge_count_run_lengths min_days Hm w 1 Hpos) as Hge.
      pose proof (first_marks_run_lengths min_days Hm w 1 Hpos) as Hfm.
      unfold marked_total. rewrite (decide_False (P := 1 = 0)) by lia.
      destruct (closed_runs 1 w) as [|L runs] eqn:Hcr.
      * destruct (closed_runs_none w 0 Hpos Hcr) as [Hrl Htr].
        rewrite Htr in *. rewrite Hrl in *. rewrite seqZ_succ in *.
        rewrite long_days_labels_from_head; [|done..|].
        2:{ rewrite length_seqZ. simpl in Hdl. lia. }
        unfold whole_range_marks.
        unfold ge_count in Hge. rewrite filter_cons in Hge.
        rewrite first_marks_cons2 in Hfm. fold (ge_count min_days) in Hge.
        destruct w as [|v' w].
        -- simpl. lia.
        -- cbn [length] in *. rewrite seqZ_succ in *.
           rewrite first_marks_cons2 in Hfm. rewrite filter_nil in *.
           unfold ge_count in *. cbn [length sum_list] in *.
           repeat case_decide; simpl in *; lia.
      * destruct (closed_runs_head w 0 L runs Hpos Hcr) as (HL & rest & Hrl).
        rewrite Hrl in *. destruct L as [|L]; [lia|].
        cbn [replicate app] in *.
        rewrite long_days_labels_from_head; [|done..|].
        2:{ simpl in Hlen, Hdl. lia. }
        unfold ge_count in Hge. rewrite filter_cons in Hge.
        rewrite first_marks_cons2 in Hfm. fold (ge_count min_days) in Hge.
        rewrite (filter_cons _ (S L)) in Hge, Hfm.
        unfold leading_marks, closed_marks, trailing_marks.
        rewrite sum_list_S_fmap.
        destruct L as [|L]; cbn [replicate app] in *.
        -- rewrite first_marks_cons2 in Hfm. unfold ge_count in *.
           repeat case_decide; cbn [length sum_list] in *; unfold id in *; lia.
        -- rewrite first_marks_cons2 in Hfm. unfold ge_count in *.
           repeat case_decide; cbn [length sum_list] in *; unfold id in *; lia.
Qed.

Lemma long_days_count_witness :
  ∃ days, _categorize (column_from (dt_date 2024 1 1) [1; 1; 1; 0; 1; 1]) 2 = Returned days
    ∧ long_days days = 3%nat.
Proof.
  destruct (long_days_count (column_from (dt_date 2024 1 1) [1; 1; 1; 0; 1; 1]) 2)
    as (days & Hr & Hn).
  - solve_flag_column.
  - exists 1. split; [reflexivity|lia].
  - lia.
  - exists days. split; [exact Hr|]. rewrite Hn. reflexivity.
Defined.

(** The round trip as the specification states it fails.  One holiday on a
    Tuesday between two working days is a closed run of length 1, there is
    no open run at the end, and with [min_days = 1] two days are marked (the
    Monday as first_day, the Tuesday as last_day).  Two holidays on the
    Monday and the Tuesday that start the range, before a working day, are a
    closed run of length 2, and with [min_days = 1] one day is marked (the
    Tuesday as last_day). *)
Lemma long_days_round_trip_fails :
  let column := column_from (dt_date 2024 1 1) [0; 1; 0] in
  let column' := column_from (dt_date 2024 1 1) [1; 1; 0] in
  (_categorize column 1 = Returned [first_day; last_day; others]
   ∧ closed_runs 0 (weights column) = [1%nat]
   ∧ trailing_run 0 (weights column) = 0%nat
   ∧ qualifying_total 1 (closed_runs 0 (weights column)) = 1%nat
   ∧ long_days [first_day; last_day; others] = 2%nat
   ∧ long_days [first_day; last_day; others]
     ≠ qualifying_total 1 (closed_runs 0 (weights column)))
  ∧ (_categorize column' 1 = Returned [others; last_day; others]
     ∧ closed_runs 0 (weights column') = [2%nat]
     ∧ trailing_run 0 (weights column') = 0%nat
     ∧ qualifying_total 1 (closed_runs 0 (weights column')) = 2%nat
     ∧ long_days [others; last_day; others] = 1%nat
     ∧ long_days [others; last_day; others]
       ≠ qualifying_total 1 (closed_runs 0 (weights column'))).
Proof. repeat split; try reflexivity; vm_compute; discriminate. Qed.

(** ** The dense calendar *)

(** C5.  [load_calendar] builds no calendar: the call of line 61 hands the
    country list to [load_holidays] as a third argument, which the method
    does not take, and raises TypeError for every table, range, country list,
    threshold and [weekends] mode.  On the two-day table of a leap day, asked
    for 2024-02-28 to 2024-03-01 and the countries jp and us, the copy of the
    package file, which calls [load_holidays] with the two dates, returns the
    dense calendar of three days with the flags of the table. *)
Theorem load_calendar_builds_no_calendar :
  (∀ holidays date_from date_to country_codes long_holidays weekends,
     load_calendar holidays date_from date_to country_codes long_holidays weekends
     = Raised TypeError)
  ∧ let holidays := [Holiday "jp" true (dt_date 2024 2 29);
                     Holiday "us" false (dt_date 2024 2 29)] in
    load_calendar holidays (dt_date 2024 2 28) (dt_date 2024 3 1) (Some ["jp"; "us"]) 3
      false
    = Raised TypeError
    ∧ ∃ cal,
        Package.load_calendar holidays (dt_date 2024 2 28) (dt_date 2024 3 1)
          (Some ["jp"; "us"]) 3
        = Returned cal
        ∧ cal_index cal = [dt_date 2024 2 28; dt_date 2024 2 29; dt_date 2024 3 1]
        ∧ flag_of cal (dt_date 2024 2 29) "jp" = Some 1
        ∧ flag_of cal (dt_date 2024 2 29) "us" = Some 0
        ∧ flag_of cal (dt_date 2024 2 28) "jp" = Some 0.
Proof.
  split; [apply load_calendar_TypeError|]. split; [apply load_calendar_TypeError|].
  eexists. split; [vm_compute; reflexivity|]. repeat split.
Qed.

(** C6.  The week-end forcing of lines 73-75 is never reached: with
    [weekends] set, [load_calendar] raises TypeError at the call of line 61
    for every table, range, country list and threshold, so no Saturday or
    Sunday gets a flag; so it is on a range of 14 days with an empty
    table. *)
Theorem weekends_never_reached :
  (∀ holidays date_from date_to country_codes long_holidays,
     load_calendar holidays date_from date_to country_codes long_holidays true
     = Raised TypeError)
  ∧ load_calendar [] (dt_date 2024 1 1) (dt_date 2024 1 14) None 3 true
    = Raised TypeError
  ∧ load_calendar [Holiday "jp" true (dt_date 2024 1 6)]
      (dt_date 2024 1 1) (dt_date 2024 1 14) (Some ["jp"]) 3 true
    = Raised TypeError.
Proof.
  split; [intros; apply load_calendar_TypeError|].
  split; apply load_calendar_TypeError.
Qed.

(** ** A range whose start is after its end *)




(** * Further properties of the labeler *)

(** When the first day is not a holiday on a week-end, the first sweep is
    [run_lengths] from the first day on. *)
Lemma first_sweep_run_lengths (w : list Z) v0 :
  w !! 0%nat = Some v0 → 0 ≤ v0 ≤ 1 → first_sweep w = Returned (run_lengths 0 w).
Proof.
  intros H0 Hv0. destruct w as [|v w]; [done|]. simpl in H0. injection H0 as ->.
  assert (v0 = 0 ∨ v0 = 1) as [-> | ->] by lia.
  - apply first_sweep_zero_head.
  - apply first_sweep_one_head.
Qed.

(** The second sweep leaves every label alone when no weight reaches the
    threshold. *)
Lemma labels_from_unmarked m (c : list Z) : ∀ d : list day_type,
  Forall (λ v, v < m) c → labels_from m c d = d.
Proof.
  induction c as [|v c IH]; intros d Hc; [by destruct d|].
  destruct d as [|x d]; [done|].
  destruct c as [|v' c]; [done|]. destruct d as [|x' d]; [done|].
  apply Forall_cons_1 in Hc as [Hv Hc].
  pose proof (Forall_inv Hc) as Hv'. simpl in Hv'.
  rewrite labels_from_cons.
  assert (Ho : own_mark m v' x' = x').
  { unfold own_mark. repeat case_decide; done || lia. }
  assert (Hb : behind_mark m v v' x = x).
  { unfold behind_mark. repeat case_decide; done || lia. }
  rewrite Ho, Hb, IH by done. done.
Qed.

(** X1. With [min_days = 1] no day after the first keeps its weekday label
    once its base weight is nonzero: it is labelled middle_days, or last_day
    when the next day has weight zero after the first sweep. *)
Theorem threshold_one_marks_every_day_off (column : series) :
  flag_column column → column ≠ [] →
  ∃ days, _categorize column 1 = Returned days
    ∧ ∀ (p : nat) v, (1 ≤ p)%nat → weights column !! p = Some v → v ≠ 0 →
        days !! p = Some middle_days ∨ days !! p = Some last_day.
Proof.
  intros Hc Hne.
  destruct (categorize_label_at column 1 Hc Hne)
    as (c & days & Hs & [Hlen Hpos] & Hr & Hl & Hat).
  exists days. split; [done|]. intros p v Hp Hv Hnz.
  pose proof (weights_range column p v Hc Hv).
  destruct (Hpos p v Hv) as (y & Hy & Hy0); [lia|].
  destruct (lookup_lt_is_Some_2 (default_types column) p) as [x Hx].
  { rewrite default_types_length, <- weights_length. by eapply lookup_lt_Some. }
  rewrite Hat. unfold label_at. rewrite Hx, Hy. simpl.
  destruct p as [|p]; [lia|].
  assert (Ho : own_mark 1 y x = middle_days).
  { unfold own_mark. rewrite decide_False, decide_True by lia. done. }
  rewrite Ho. destruct (c !! S (S p)) as [v'|]; [|by left].
  unfold behind_mark. repeat case_decide; auto; lia.
Qed.

Lemma threshold_one_marks_every_day_off_witness :
  ∃ days, _categorize (column_from (dt_date 2024 1 1) [0; 1; 0; 1; 1]) 1 = Returned days
    ∧ (days !! 1%nat = Some middle_days ∨ days !! 1%nat = Some last_day)
    ∧ (days !! 4%nat = Some middle_days ∨ days !! 4%nat = Some last_day).
Proof.
  destruct (threshold_one_marks_every_day_off
              (column_from (dt_date 2024 1 1) [0; 1; 0; 1; 1])) as (days & Hr & Hm).
  - solve_flag_column.
  - discriminate.
  - exists days. split; [exact Hr|]. split.
    + apply (Hm 1%nat 1); [lia|reflexivity|lia].
    + apply (Hm 4%nat 1); [lia|reflexivity|lia].
Defined.

(** ** What the first sweep can write *)

Lemma writes_keep_Forall (P : Z → Prop) (n : nat) k x (js : list Z) : ∀ c : list Z,
  length c = n → Forall P c → P x →
  (∀ j, j ∈ js → - Z.of_nat n ≤ k - j < Z.of_nat n) →
  ∃ c', for_each js (λ j c, np_set c (k - j) x) c = Returned c'
      ∧ length c' = n ∧ Forall P c'.
Proof.
  induction js as [|j js IH]; intros c Hlen Hc Hx Hjs.
  - by exists c.
  - destruct (np_set_in_bounds c (k - j) x) as [p Hp].
    { rewrite Hlen. apply Hjs. by left. }
    simpl. rewrite Hp, bind_Returned. apply IH.
    + by rewrite length_insert.
    + by apply Forall_insert.
    + done.
    + intros j' Hj'. apply Hjs. by right.
Qed.

Lemma first_sweep_loop_Forall (P : Z → Prop) (n len : nat) : ∀ k (c : list Z) last,
  (∀ x, 1 ≤ x ≤ Z.of_nat n + 1 → P x) →
  1 ≤ k → k + Z.of_nat len = Z.of_nat n → 0 ≤ last ≤ k + 1 →
  length c = n → Forall P c →
  ∃ c' last', for_each (seqZ k (Z.of_nat len)) propagate_step (c, last)
              = Returned (c', last')
            ∧ length c' = n ∧ Forall P c'.
Proof.
  induction len as [|len IH]; intros k c last HP Hk Hn Hlast Hlen Hc.
  - by exists c, last.
  - rewrite seqZ_succ. cbn [for_each propagate_step].
    destruct (np_get_in_bounds c k) as (v & Hv & _); [lia|].
    rewrite Hv, bind_Returned. case_decide.
    + destruct (np_set_in_bounds c k (last + 1)) as [p Hp]; [lia|].
      rewrite Hp, !bind_Returned.
      apply IH; [done|lia|lia|lia|by rewrite length_insert|].
      apply Forall_insert; [done|]. apply HP. lia.
    + destruct (decide (last ≤ 0)) as [Hle|Hgt].
      * unfold backfill, py_range, seqZ.
        replace (Z.to_nat (last + 1 - 1)) with 0%nat by lia.
        cbn [seq fmap list_fmap for_each]. rewrite !bind_Returned.
        apply IH; [done|lia|lia|lia|done|done].
      * destruct (writes_keep_Forall P n k last (py_range 1 (last + 1)) c)
          as (c' & Hb & Hlen' & Hc'); [done|done|apply HP; lia|..].
        { intros j Hj. apply elem_of_seqZ in Hj. lia. }
        unfold backfill. rewrite Hb, !bind_Returned.
        apply IH; [done|lia|lia|lia|done|done].
Qed.

(** On weights whose first value is 0, 1 or 2 the first sweep returns a
    sequence of the same length; a property that holds of every weight and
    of every number from 1 to [n + 1] holds of everything it leaves. *)
Lemma first_sweep_Forall (P : Z → Prop) (w : list Z) v0 :
  w !! 0%nat = Some v0 → 0 ≤ v0 ≤ 2 → Forall P w →
  (∀ x, 1 ≤ x ≤ Z.of_nat (length w) + 1 → P x) →
  ∃ c, first_sweep w = Returned c ∧ length c = length w ∧ Forall P c.
Proof.
  intros H0 Hv0 Hw HP. unfold first_sweep.
  change (np_get w 0) with (np_get w (Z.of_nat 0)).
  rewrite (np_get_nat w 0 v0), bind_Returned by done.
  assert (0 < length w)%nat by (by eapply lookup_lt_Some).
  destruct (first_sweep_loop_Forall P (length w) (length w - 1) 1 w v0)
    as (c & last & Hl & Hlen & Hc); [done|lia|lia|lia|done|done|].
  exists c. unfold py_range.
  replace (Z.of_nat (length w) - 1) with (Z.of_nat (length w - 1)) by lia.
  by rewrite Hl.
Qed.

(** X2. A threshold that exceeds the number of days by more than one marks
    nothing: on every non-empty flag column [_categorize] returns the weekday
    labels (others, Friday, Saturday, Sunday) unchanged. *)
Theorem threshold_beyond_range_marks_nothing (column : series) (min_days : Z) :
  flag_column column → column ≠ [] → Z.of_nat (length column) + 1 < min_days →
  _categorize column min_days = Returned (default_types column).
Proof.
  intros Hc Hne Hm.
  destruct (lookup_lt_is_Some_2 (weights column) 0) as [v0 Hv0].
  { rewrite weights_length. destruct column; [done|simpl; lia]. }
  destruct (first_sweep_Forall (λ v, v < min_days) (weights column) v0)
    as (c & Hs & Hlen & Hlt); [done|by eapply weights_range|..].
  { apply Forall_lookup_2. intros p v Hv.
    pose proof (weights_range column p v Hc Hv). destruct column; [done|].
    simpl in Hm. lia. }
  { rewrite weights_length. intros x Hx. lia. }
  unfold _categorize. rewrite Hs, bind_Returned.
  rewrite second_sweep_labels.
  - by rewrite labels_from_unmarked.
  - by rewrite Hlen, default_types_length, weights_length.
  - intros ->. rewrite weights_length in Hlen. destruct column; done.
Qed.

Lemma threshold_beyond_range_marks_nothing_witness :
  _categorize (column_from (dt_date 2024 1 5) [1; 1; 1]) 5
  = Returned [Friday; Saturday; Sunday].
Proof.
  apply (threshold_beyond_range_marks_nothing
           (column_from (dt_date 2024 1 5) [1; 1; 1]) 5).
  - solve_flag_column.
  - discriminate.
  - simpl. lia.
Defined.

(** ** Closed runs *)

Lemma run_lengths_length (w : list Z) : ∀ cur,
  length (run_lengths cur w) = (cur + length w)%nat.
Proof.
  induction w as [|v w IH]; intros cur; simpl.
  - rewrite length_seqZ. lia.
  - case_decide.
    + rewrite IH. lia.
    + rewrite length_app, length_replicate. simpl. rewrite IH. lia.
Qed.

(** A day of weight zero keeps its zero. *)
Lemma run_lengths_zero (w : list Z) : ∀ cur p v,
  w !! p = Some v → ¬ v > 0 → run_lengths cur w !! (cur + p)%nat = Some v.
Proof.
  induction w as [|x w IH]; intros cur p v Hp Hv; [done|].
  destruct p as [|p]; simpl in Hp.
  - injection Hp as ->. simpl. rewrite decide_False by done.
    rewrite lookup_app_r by (rewrite length_replicate; lia).
    rewrite length_replicate. by replace (cur + 0 - cur)%nat with 0%nat by lia.
  - simpl. case_decide.
    + replace (cur + S p)%nat with (S cur + p)%nat by lia. by apply IH.
    + rewrite lookup_app_r by (rewrite length_replicate; lia).
      rewrite length_replicate.
      replace (cur + S p - cur)%nat with (S p) by lia. simpl.
      by apply (IH 0%nat).
Qed.

(** The days of a pending run are left with a positive count. *)
Lemma run_lengths_pending (w : list Z) : ∀ cur q,
  (q < cur)%nat → ∃ y, run_lengths cur w !! q = Some y ∧ y > 0.
Proof.
  induction w as [|x w IH]; intros cur q Hq; simpl.
  - exists (1 + Z.of_nat q). split; [|lia]. apply lookup_seqZ. lia.
  - case_decide.
    + apply IH. lia.
    + exists (Z.of_nat cur). split; [|lia].
      rewrite lookup_app_l by (rewrite length_replicate; lia).
      apply lookup_replicate_2. lia.
Qed.

(** A day of nonzero weight is left with a positive count. *)
Lemma run_lengths_positive (w : list Z) : ∀ cur p v,
  w !! p = Some v → v > 0 →
  ∃ y, run_lengths cur w !! (cur + p)%nat = Some y ∧ y > 0.
Proof.
  induction w as [|x w IH]; intros cur p v Hp Hv; [done|].
  destruct p as [|p]; simpl in Hp.
  - injection Hp as ->. simpl. rewrite decide_True by done.
    apply run_lengths_pending. lia.
  - simpl. case_decide.
    + replace (cur + S p)%nat with (S cur + p)%nat by lia. by eapply IH.
    + rewrite lookup_app_r by (rewrite length_replicate; lia).
      rewrite length_replicate.
      replace (cur + S p - cur)%nat with (S p) by lia. simpl.
      by eapply (IH 0%nat).
Qed.

Lemma run_lengths_prefix (pre : list Z) : ∀ cur v rest,
  ¬ v > 0 →
  ∃ front, length front = (cur + length pre)%nat
         ∧ run_lengths cur (pre ++ v :: rest) = front ++ v :: run_lengths 0 rest.
Proof.
  induction pre as [|x pre IH]; intros cur v rest Hv; simpl.
  - exists (replicate cur (Z.of_nat cur)). rewrite length_replicate.
    split; [lia|]. by rewrite decide_False.
  - case_decide.
    + destruct (IH (S cur) v rest Hv) as (front & Hlen & ->).
      exists front. split; [lia|done].
    + destruct (IH 0%nat v rest Hv) as (front & Hlen & ->).
      exists (replicate cur (Z.of_nat cur) ++ x :: front). split.
      * rewrite length_app, length_replicate. simpl. lia.
      * by rewrite <- app_assoc.
Qed.

Lemma run_lengths_closed (run : list Z) : ∀ cur v rest,
  Forall (λ x, x > 0) run → ¬ v > 0 →
  run_lengths cur (run ++ v :: rest)
  = replicate (cur + length run) (Z.of_nat (cur + length run)) ++ v :: run_lengths 0 rest.
Proof.
  induction run as [|x run IH]; intros cur v rest Hrun Hv; simpl.
  - rewrite decide_False by done. by replace (cur + 0)%nat with cur by lia.
  - apply Forall_cons_1 in Hrun as [Hx Hrun]. rewrite decide_True by done.
    rewrite IH by done. by replace (S cur + length run)%nat with (cur + S (length run))%nat by lia.
Qed.

(** The sequence that the first sweep leaves around a run of [L] nonzero
    days between two days of weight zero, the first at position [s]. *)
Lemma run_lengths_around_run (w : list Z) (s L : nat) :
  w !! s = Some 0 →
  (∀ i, (i < L)%nat → ∃ v, w !! (s + 1 + i)%nat = Some v ∧ v > 0) →
  w !! (s + 1 + L)%nat = Some 0 →
  run_lengths 0 w !! s = Some 0
  ∧ (∀ i, (i < L)%nat → run_lengths 0 w !! (s + 1 + i)%nat = Some (Z.of_nat L))
  ∧ run_lengths 0 w !! (s + 1 + L)%nat = Some 0.
Proof.
  intros Hs Hrun He.
  split; [by apply (run_lengths_zero w 0 s 0)|].
  split; [|by apply (run_lengths_zero w 0 (s + 1 + L) 0)].
  intros i Hi.
  pose proof (take_drop_middle w s 0 Hs) as Hw.
  set (rest := drop (S s) w) in *.
  assert (Hr : rest !! L = Some 0).
  { unfold rest. rewrite lookup_drop. rewrite <- He. f_equal. lia. }
  pose proof (take_drop_middle rest L 0 Hr) as Hrest.
  assert (HL : length (take L rest) = L).
  { rewrite length_take. apply lookup_lt_Some in Hr. lia. }
  assert (Hpos : Forall (λ x, x > 0) (take L rest)).
  { apply Forall_lookup_2. intros j x Hj.
    assert (j < L)%nat as Hlt.
    { apply lookup_lt_Some in Hj. rewrite length_take in Hj. lia. }
    rewrite lookup_take_lt in Hj by done. unfold rest in Hj.
    rewrite lookup_drop in Hj. destruct (Hrun j Hlt) as (v & Hv & Hv0).
    replace (S s + j)%nat with (s + 1 + j)%nat in Hj by lia. congruence. }
  destruct (run_lengths_prefix (take s w) 0 0 rest) as (front & Hlen & Heq); [lia|].
  rewrite Hw in Heq. rewrite Heq.
  assert (Hfl : length front = s).
  { rewrite Hlen, length_take. apply lookup_lt_Some in Hs. lia. }
  rewrite lookup_app_r by lia.
  replace (s + 1 + i - length front)%nat with (S i) by lia. simpl.
  rewrite <- Hrest, run_lengths_closed by (done || lia).
  rewrite HL. simpl. rewrite lookup_app_l by (rewrite length_replicate; lia).
  apply lookup_replicate_2. lia.
Qed.

Lemma label_at_lookup m (c : list Z) (d : list day_type) p x v :
  d !! p = Some x → c !! p = Some v →
  label_at m c d p
  = Some (let x := match p with O => x | S _ => own_mark m v x end in
          match c !! S p with
          | Some v' => behind_mark m v v' x
          | None => x
          end).
Proof. intros Hx Hv. unfold label_at. rewrite Hx, Hv. done. Qed.

(** The sweeps of [_categorize] on a column whose first day is no holiday on
    a week-end: the counts are [run_lengths], the labels are [label_at]. *)
Lemma categorize_run_lengths (column : series) (m : Z) :
  flag_column column → column ≠ [] →
  (∀ v, weights column !! 0%nat = Some v → v ≤ 1) →
  ∃ days, _categorize column m = Returned days
    ∧ length days = length column
    ∧ ∀ p, days !! p
           = label_at m (run_lengths 0 (weights column)) (default_types column) p.
Proof.
  intros Hc Hne Hhead.
  destruct (categorize_label_at column m Hc Hne)
    as (c & days & Hs & _ & Hr & Hl & Hat).
  destruct (lookup_lt_is_Some_2 (weights column) 0) as [v0 Hv0].
  { rewrite weights_length. destruct column; [done|simpl; lia]. }
  pose proof (weights_range column 0 v0 Hc Hv0).
  rewrite (first_sweep_run_lengths _ v0) in Hs by (done || (specialize (Hhead v0 Hv0); lia)).
  injection Hs as <-. by exists days.
Qed.

(** The labels around a run of [L] nonzero weights between two zeros, the
    first at position [s], when the counts are [run_lengths]. *)
Lemma label_at_closed_run (w : list Z) (d : list day_type) (m : Z) (s L : nat) :
  length d = length w → 1 ≤ m → (1 ≤ L)%nat →
  w !! s = Some 0 →
  (∀ i, (i < L)%nat → ∃ v, w !! (s + 1 + i)%nat = Some v ∧ v > 0) →
  w !! (s + 1 + L)%nat = Some 0 →
  (m ≤ Z.of_nat L →
     label_at m (run_lengths 0 w) d s = Some first_day
     ∧ (∀ i, (i + 1 < L)%nat →
          label_at m (run_lengths 0 w) d (s + 1 + i)%nat = Some middle_days)
     ∧ label_at m (run_lengths 0 w) d (s + L)%nat = Some last_day)
  ∧ (Z.of_nat L < m →
       ∀ i, (i ≤ L)%nat → label_at m (run_lengths 0 w) d (s + i)%nat = d !! (s + i)%nat).
Proof.
  intros Hlen Hm HL Hs Hrun He.
  destruct (run_lengths_around_run w s L Hs Hrun He) as (Hcs & Hcr & Hce).
  assert (Hd : ∀ p, (p ≤ s + 1 + L)%nat → ∃ x, d !! p = Some x).
  { intros p Hp. apply lookup_lt_is_Some_2. apply lookup_lt_Some in He. lia. }
  split.
  - intros Hge. split; [|split].
    + destruct (Hd s) as [x Hx]; [lia|].
      rewrite (label_at_lookup _ _ _ _ x 0 Hx Hcs).
      replace (S s) with (s + 1 + 0)%nat by lia. rewrite (Hcr 0%nat) by lia.
      assert (Ho : match s with O => x | S _ => own_mark m 0 x end = x)
        by (by destruct s).
      cbv zeta. rewrite Ho. unfold behind_mark. repeat case_decide; done || lia.
    + intros i Hi. destruct (Hd (s + 1 + i)%nat) as [x Hx]; [lia|].
      rewrite (label_at_lookup _ _ _ _ x (Z.of_nat L) Hx) by (apply Hcr; lia).
      replace (S (s + 1 + i)) with (s + 1 + S i)%nat by lia.
      rewrite (Hcr (S i)) by lia.
      replace (s + 1 + i)%nat with (S (s + i)) by lia. cbv zeta.
      unfold own_mark, behind_mark. repeat case_decide; done || lia.
    + destruct (Hd (s + L)%nat) as [x Hx]; [lia|].
      assert (HcL : run_lengths 0 w !! (s + L)%nat = Some (Z.of_nat L)).
      { replace (s + L)%nat with (s + 1 + (L - 1))%nat by lia. apply Hcr. lia. }
      rewrite (label_at_lookup _ _ _ _ x (Z.of_nat L) Hx HcL).
      replace (S (s + L)) with (s + 1 + L)%nat by lia. rewrite Hce.
      replace (s + L)%nat with (S (s + (L - 1))) by lia. cbv zeta.
      unfold own_mark, behind_mark. repeat case_decide; done || lia.
  - intros Hlt i Hi. destruct (Hd (s + i)%nat) as [x Hx]; [lia|].
    rewrite Hx. destruct i as [|i].
    + replace (s + 0)%nat with s in * by lia.
      rewrite (label_at_lookup _ _ _ _ x 0 Hx Hcs).
      replace (S s) with (s + 1 + 0)%nat by lia. rewrite (Hcr 0%nat) by lia.
      assert (Ho : match s with O => x | S _ => own_mark m 0 x end = x)
        by (by destruct s).
      cbv zeta. rewrite Ho. unfold behind_mark. repeat case_decide; done || lia.
    + assert (HcL : run_lengths 0 w !! (s + S i)%nat = Some (Z.of_nat L)).
      { replace (s + S i)%nat with (s + 1 + i)%nat by lia. apply Hcr. lia. }
      rewrite (label_at_lookup _ _ _ _ x (Z.of_nat L) Hx HcL).
      assert (Hnext : run_lengths 0 w !! S (s + S i) = Some (Z.of_nat L)
                      ∨ run_lengths 0 w !! S (s + S i) = Some 0).
      { destruct (decide (S i = L)) as [<-|Hn].
        - right. rewrite <- Hce. f_equal. lia.
        - left. replace (S (s + S i)) with (s + 1 + S i)%nat by lia. apply Hcr. lia. }
      replace (s + S i)%nat with (S (s + i)) in * by lia. cbv zeta.
      unfold own_mark, behind_mark.
      destruct Hnext as [-> | ->]; repeat case_decide; done || lia.
Qed.

(** X3. A run of [L] days off between two days of weight zero (the first at
    position [s]), in a column that does not start with a holiday on a
    week-end.  When the run reaches the threshold, the day BEFORE the run is
    first_day, the days of the run but the last are middle_days and its last
    day is last_day; when it does not, the day before the run and the days of
    the run keep their weekday labels. *)
Theorem closed_run_labels (column : series) (min_days : Z) (s L : nat) :
  flag_column column → 1 ≤ min_days → (1 ≤ L)%nat →
  (∀ v, weights column !! 0%nat = Some v → v ≤ 1) →
  weights column !! s = Some 0 →
  (∀ i, (i < L)%nat → ∃ v, weights column !! (s + 1 + i)%nat = Some v ∧ v ≠ 0) →
  weights column !! (s + 1 + L)%nat = Some 0 →
  ∃ days, _categorize column min_days = Returned days
    ∧ (min_days ≤ Z.of_nat L →
         days !! s = Some first_day
         ∧ (∀ i, (i + 1 < L)%nat → days !! (s + 1 + i)%nat = Some middle_days)
         ∧ days !! (s + L)%nat = Some last_day)
    ∧ (Z.of_nat L < min_days →
         ∀ i, (i ≤ L)%nat → days !! (s + i)%nat = default_types column !! (s + i)%nat).
Proof.
  intros Hc Hm HL Hhead Hs Hrun He.
  assert (Hne : column ≠ []) by (intros ->; done).
  destruct (categorize_run_lengths column min_days Hc Hne Hhead)
    as (days & Hr & Hlen & Hat).
  exists days. split; [done|].
  destruct (label_at_closed_run (weights column) (default_types column) min_days s L)
    as [Hlong Hshort]; [|done|done|done| |done|].
  { by rewrite default_types_length, weights_length. }
  { intros i Hi. destruct (Hrun i Hi) as (v & Hv & Hv0). exists v. split; [done|].
    pose proof (weights_range column _ v Hc Hv). lia. }
  split.
  - intros Hge. destruct (Hlong Hge) as (H1 & H2 & H3).
    rewrite !Hat. split; [done|]. split; [|done]. intros i Hi. rewrite Hat. by apply H2.
  - intros Hlt i Hi. rewrite Hat. by apply Hshort.
Qed.

Lemma closed_run_labels_witness :
  ∃ days,
    _categorize (column_from (dt_date 2024 1 1) [0; 1; 1; 1; 0; 0; 0; 0; 0]) 3
    = Returned days
    ∧ days !! 0%nat = Some first_day
    ∧ days !! 1%nat = Some middle_days
    ∧ days !! 2%nat = Some middle_days
    ∧ days !! 3%nat = Some last_day.
Proof.
  destruct (closed_run_labels
              (column_from (dt_date 2024 1 1) [0; 1; 1; 1; 0; 0; 0; 0; 0]) 3 0 3)
    as (days & Hr & Hlong & _).
  - solve_flag_column.
  - lia.
  - lia.
  - intros v Hv. vm_compute in Hv. injection Hv as <-. lia.
  - reflexivity.
  - intros i Hi. destruct i as [|[|[|i]]]; [..|lia]; eexists; (split; [reflexivity|done]).
  - reflexivity.
  - exists days. split; [done|]. destruct Hlong as (H0 & Hmid & H3); [lia|].
    split; [done|]. split; [apply (Hmid 0%nat); lia|].
    split; [apply (Hmid 1%nat); lia|done].
Defined.

(** ** Runs that the range cuts *)

Lemma run_lengths_all_positive (run : list Z) : ∀ cur,
  Forall (λ x, x > 0) run →
  run_lengths cur run = seqZ 1 (Z.of_nat (cur + length run)).
Proof.
  induction run as [|x run IH]; intros cur Hrun; simpl.
  - by replace (cur + 0)%nat with cur by lia.
  - apply Forall_cons_1 in Hrun as [Hx Hrun]. rewrite decide_True by done.
    rewrite IH by done. f_equal. lia.
Qed.

(** The sequence that the first sweep leaves on a run of [T] nonzero days
    that starts after the zero of position [s] and lasts to the end. *)
Lemma run_lengths_open_run (w : list Z) (s T : nat) :
  w !! s = Some 0 → length w = (s + 1 + T)%nat →
  (∀ i, (i < T)%nat → ∃ v, w !! (s + 1 + i)%nat = Some v ∧ v > 0) →
  run_lengths 0 w !! s = Some 0
  ∧ (∀ i, (i < T)%nat → run_lengths 0 w !! (s + 1 + i)%nat = Some (Z.of_nat i + 1))
  ∧ length (run_lengths 0 w) = (s + 1 + T)%nat.
Proof.
  intros Hs Hlen Hrun.
  split; [by apply (run_lengths_zero w 0 s 0)|].
  split; [|by rewrite run_lengths_length].
  intros i Hi.
  pose proof (take_drop_middle w s 0 Hs) as Hw.
  set (rest := drop (S s) w) in *.
  assert (HT : length rest = T) by (unfold rest; rewrite length_drop; lia).
  assert (Hpos : Forall (λ x, x > 0) rest).
  { apply Forall_lookup_2. intros j x Hj.
    assert (j < T)%nat as Hlt by (apply lookup_lt_Some in Hj; lia).
    unfold rest in Hj. rewrite lookup_drop in Hj.
    destruct (Hrun j Hlt) as (v & Hv & Hv0).
    replace (S s + j)%nat with (s + 1 + j)%nat in Hj by lia. congruence. }
  destruct (run_lengths_prefix (take s w) 0 0 rest) as (front & Hfl & Heq); [lia|].
  rewrite Hw in Heq. rewrite Heq.
  assert (length front = s) as Hfs by (rewrite Hfl, length_take; lia).
  rewrite lookup_app_r by lia.
  replace (s + 1 + i - length front)%nat with (S i) by lia. simpl.
  rewrite run_lengths_all_positive by done. apply lookup_seqZ. lia.
Qed.

(** The labels on such a run, when the counts are [run_lengths]. *)
Lemma label_at_open_run (w : list Z) (d : list day_type) (m : Z) (s T : nat) :
  length d = length w → 1 ≤ m → (1 ≤ T)%nat →
  w !! s = Some 0 → length w = (s + 1 + T)%nat →
  (∀ i, (i < T)%nat → ∃ v, w !! (s + 1 + i)%nat = Some v ∧ v > 0) →
  (∀ i, (i < T)%nat →
     label_at m (run_lengths 0 w) d (s + 1 + i)%nat
     = if decide (m ≤ Z.of_nat i + 1) then Some middle_days else d !! (s + 1 + i)%nat)
  ∧ label_at m (run_lengths 0 w) d s
    = if decide (m = 1) then Some first_day else d !! s.
Proof.
  intros Hlen Hm HT Hs Hwlen Hrun.
  destruct (run_lengths_open_run w s T Hs Hwlen Hrun) as (Hcs & Hcr & Hcl).
  assert (Hd : ∀ p, (p < s + 1 + T)%nat → ∃ x, d !! p = Some x).
  { intros p Hp. apply lookup_lt_is_Some_2. lia. }
  split.
  - intros i Hi. destruct (Hd (s + 1 + i)%nat) as [x Hx]; [lia|].
    rewrite (label_at_lookup _ _ _ _ x (Z.of_nat i + 1) Hx) by (by apply Hcr).
    rewrite Hx.
    assert (Hnext : run_lengths 0 w !! S (s + 1 + i) = Some (Z.of_nat (S i) + 1)
                    ∨ run_lengths 0 w !! S (s + 1 + i) = None).
    { destruct (decide (S i < T)%nat) as [Hlt|Hge].
      - left. replace (S (s + 1 + i)) with (s + 1 + S i)%nat by lia. by apply Hcr.
      - right. apply lookup_ge_None. lia. }
    replace (s + 1 + i)%nat with (S (s + i)) in * by lia. cbv zeta.
    unfold own_mark, behind_mark.
    destruct Hnext as [-> | ->]; repeat case_decide; done || lia.
  - destruct (Hd s) as [x Hx]; [lia|].
    rewrite (label_at_lookup _ _ _ _ x 0 Hx Hcs), Hx.
    replace (S s) with (s + 1 + 0)%nat by lia. rewrite (Hcr 0%nat) by lia.
    assert (Ho : match s with O => x | S _ => own_mark m 0 x end = x)
      by (by destruct s).
    cbv zeta. rewrite Ho. unfold behind_mark. simpl.
    repeat case_decide; done || lia.
Qed.

(** X4. A run of [T] days off that lasts to the end of the range, after a
    day of weight zero at position [s], in a column that does not start with
    a holiday on a week-end.  The run is not closed, its days count 1, 2, ...:
    the i-th day of the run is middle_days from the [min_days]-th on and keeps
    its weekday label before, no day is last_day, and the day before the run
    is first_day only when [min_days] is 1. *)
Theorem open_run_labels (column : series) (min_days : Z) (s T : nat) :
  flag_column column → 1 ≤ min_days → (1 ≤ T)%nat →
  (∀ v, weights column !! 0%nat = Some v → v ≤ 1) →
  weights column !! s = Some 0 →
  length column = (s + 1 + T)%nat →
  (∀ i, (i < T)%nat → ∃ v, weights column !! (s + 1 + i)%nat = Some v ∧ v ≠ 0) →
  ∃ days, _categorize column min_days = Returned days
    ∧ (∀ i, (i < T)%nat →
         days !! (s + 1 + i)%nat
         = if decide (min_days ≤ Z.of_nat i + 1) then Some middle_days
           else default_types column !! (s + 1 + i)%nat)
    ∧ days !! s
      = if decide (min_days = 1) then Some first_day else default_types column !! s.
Proof.
  intros Hc Hm HT Hhead Hs Hlen Hrun.
  assert (Hne : column ≠ []) by (intros ->; done).
  destruct (categorize_run_lengths column min_days Hc Hne Hhead)
    as (days & Hr & _ & Hat).
  exists days. split; [done|].
  destruct (label_at_open_run (weights column) (default_types column) min_days s T)
    as [Hrunl Hbefore]; [|done|done|done| | |].
  { by rewrite default_types_length, weights_length. }
  { by rewrite weights_length. }
  { intros i Hi. destruct (Hrun i Hi) as (v & Hv & Hv0). exists v. split; [done|].
    pose proof (weights_range column _ v Hc Hv). lia. }
  split.
  - intros i Hi. rewrite Hat. by apply Hrunl.
  - by rewrite Hat.
Qed.

Lemma open_run_labels_witness :
  ∃ days,
    _categorize (column_from (dt_date 2024 1 1) [0; 0; 1; 1; 1; 0; 0]) 3 = Returned days
    ∧ days !! 2%nat = Some others
    ∧ days !! 4%nat = Some middle_days
    ∧ days !! 6%nat = Some middle_days.
Proof.
  destruct (open_run_labels
              (column_from (dt_date 2024 1 1) [0; 0; 1; 1; 1; 0; 0]) 3 1 5)
    as (days & Hr & Hrun & _).
  - solve_flag_column.
  - lia.
  - lia.
  - intros v Hv. vm_compute in Hv. injection Hv as <-. lia.
  - reflexivity.
  - reflexivity.
  - intros i Hi. destruct i as [|[|[|[|[|i]]]]]; [..|lia];
      eexists; (split; [reflexivity|done]).
  - exists days. split; [done|].
    split; [exact (Hrun 0%nat ltac:(lia))|].
    split; [exact (Hrun 2%nat ltac:(lia))|exact (Hrun 4%nat ltac:(lia))].
Defined.

(** ** Weeks without a holiday *)

Lemma weekday_succ d :
  weekday (d + 1) = if decide (weekday d = 6) then 0 else weekday d + 1.
Proof. unfold weekday. case_decide; Z.div_mod_to_equations; lia. Qed.

Lemma weekday_range d : 0 ≤ weekday d < 7.
Proof. unfold weekday. Z.div_mod_to_equations; lia. Qed.

(** In a week without a holiday a run of nonzero weights is a Saturday and
    the Sunday after it: no count of the first sweep exceeds 2. *)
Lemma run_lengths_week (n : nat) : ∀ d (cur : nat),
  cur = 0%nat ∨ cur = 1%nat ∧ (weekday d = 6 ∨ weekday d = 0)
    ∨ cur = 2%nat ∧ weekday d = 0 →
  Forall (λ v, v < 3)
    (run_lengths cur ((λ d, base_weight (weekday d) (Some 0)) <$> seqZ d (Z.of_nat n))).
Proof.
  induction n as [|n IH]; intros d cur Hinv.
  - simpl. apply Forall_forall. intros v Hv. apply elem_of_seqZ in Hv. lia.
  - rewrite seqZ_succ. cbn [fmap list_fmap run_lengths].
    change (list_fmap _ _ ?f ?l) with (f <$> l).
    pose proof (weekday_succ d) as Hsucc. pose proof (weekday_range d).
    assert (Hb : base_weight (weekday d) (Some 0)
                 = if decide (weekday d = 5 ∨ weekday d = 6) then 1 else 0).
    { unfold base_weight, fillna. simpl. lia. }
    destruct (decide (weekday d = 5 ∨ weekday d = 6)) as [Hwe|Hwd].
    + rewrite decide_True by lia. apply IH.
      destruct (decide (weekday d = 6)) as [H6|H6]; lia.
    + rewrite decide_False by lia. apply Forall_app. split.
      * apply Forall_replicate. lia.
      * apply Forall_cons. split; [lia|]. apply IH. by left.
Qed.

(** When no count of the first sweep reaches the threshold, the weekday
    labels are returned as they are. *)
Lemma categorize_small_counts (column : series) (m : Z) :
  flag_column column → column ≠ [] →
  (∀ v, weights column !! 0%nat = Some v → v ≤ 1) →
  Forall (λ v, v < m) (run_lengths 0 (weights column)) →
  _categorize column m = Returned (default_types column).
Proof.
  intros Hc Hne Hhead Hsmall.
  destruct (lookup_lt_is_Some_2 (weights column) 0) as [v0 Hv0].
  { rewrite weights_length. destruct column; [done|simpl; lia]. }
  pose proof (weights_range column 0 v0 Hc Hv0).
  unfold _categorize.
  rewrite (first_sweep_run_lengths _ v0 Hv0), bind_Returned
    by (specialize (Hhead v0 Hv0); lia).
  rewrite second_sweep_labels.
  - by rewrite labels_from_unmarked.
  - by rewrite run_lengths_length, default_types_length, weights_length.
  - intros Hnil. apply (f_equal length) in Hnil.
    rewrite run_lengths_length, weights_length in Hnil.
    destruct column; done.
Qed.

(** The weights of consecutive days without a holiday. *)
Lemma weights_unflagged (column : series) (start : Z) :
  column.*1 = seqZ start (Z.of_nat (length column)) →
  Forall (λ r, fillna 0 r.2 = 0) column →
  weights column
  = (λ d, base_weight (weekday d) (Some 0)) <$> seqZ start (Z.of_nat (length column)).
Proof.
  intros Hdates Hflags.
  rewrite <- Hdates. unfold weights. rewrite <- list_fmap_compose.
  apply Forall_fmap_ext_1. eapply Forall_impl; [exact Hflags|].
  intros [d f] Hf. simpl in *. unfold base_weight. by rewrite Hf.
Qed.

Lemma categorize_unflagged (column : series) (start m : Z) :
  column ≠ [] →
  column.*1 = seqZ start (Z.of_nat (length column)) →
  Forall (λ r, fillna 0 r.2 = 0) column →
  3 ≤ m →
  _categorize column m = Returned (default_types column).
Proof.
  intros Hne Hdates Hflags Hm.
  pose proof (weights_unflagged column start Hdates Hflags) as Hw.
  assert (Hc : flag_column column).
  { eapply Forall_impl; [exact Hflags|].
    intros [d [f|]] Hf; simpl in *; [subst f|]; auto. }
  apply categorize_small_counts; [done|done|..].
  - intros v0 Hv0.
    destruct column as [|[d f] column]; [done|]. simpl in Hv0.
    apply Forall_cons_1 in Hflags as [Hf _]. simpl in Hf.
    injection Hv0 as <-. unfold base_weight. rewrite Hf. case_decide; lia.
  - eapply Forall_impl; [rewrite Hw; apply run_lengths_week; by left|].
    simpl. intros v Hv. lia.
Qed.

(** ** What a label can be, and where *)

Lemma behind_mark_cases m last v x :
  behind_mark m last v x = x ∨ is_long (behind_mark m last v x).
Proof. unfold behind_mark, is_long. repeat case_decide; auto. Qed.

Lemma label_at_middle_days m c d p :
  (∀ x, d !! p = Some x → ¬ is_long x) →
  label_at m c d p = Some middle_days →
  (1 ≤ p)%nat ∧ ∃ v, c !! p = Some v ∧ v ≠ 0 ∧ v >= m.
Proof.
  intros Hd. unfold label_at.
  destruct (d !! p) as [x|] eqn:Hx; [|done].
  destruct (c !! p) as [v|] eqn:Hv; [|done]. simpl. intros Ht.
  assert (Hown : match p with O => x | S _ => own_mark m v x end = middle_days).
  { destruct (c !! S p); [|congruence].
    injection Ht as Ht. by apply behind_mark_middle_days in Ht. }
  assert (Hnl : x ≠ middle_days).
  { intros ->. apply (Hd middle_days); [done|]. right. by left. }
  destruct p as [|p]; [done|]. split; [lia|]. exists v. split; [done|].
  destruct (own_mark_cases m v x) as [Heq|(_ & Hv0 & Hvm)]; [congruence|done].
Qed.

(** X5. [_categorize] returns one label per day, and each is first_day,
    middle_days, last_day or the label of the weekday of its own date: no day
    is given the weekday label of another day. *)
Theorem labels_are_weekday_or_long (column : series) (min_days : Z) :
  flag_column column → column ≠ [] →
  ∃ days, _categorize column min_days = Returned days
    ∧ length days = length column
    ∧ ∀ p t, days !! p = Some t →
        is_long t ∨ ∃ r, column !! p = Some r ∧ t = default_type (weekday r.1).
Proof.
  intros Hc Hne.
  destruct (categorize_label_at column min_days Hc Hne)
    as (c & days & _ & _ & Hr & Hl & Hat).
  exists days. split; [done|]. split; [done|]. intros p t Ht.
  rewrite Hat in Ht. unfold label_at in Ht.
  destruct (default_types column !! p) as [x|] eqn:Hx; [|done].
  destruct (c !! p) as [v|] eqn:Hv; [|done]. simpl in Ht.
  assert (Hxr : ∃ r, column !! p = Some r ∧ x = default_type (weekday r.1)).
  { unfold default_types, wdays in Hx. rewrite !list_lookup_fmap in Hx.
    destruct (column !! p) as [r|]; [|done]. simpl in Hx. exists r.
    split; [done|congruence]. }
  set (x' := match p with O => x | S _ => own_mark min_days v x end) in Ht.
  assert (Hx' : x' = x ∨ is_long x').
  { unfold x'. destruct p; [by left|].
    destruct (own_mark_cases min_days v x) as [->|(-> & _)]; [by left|].
    right. right. by left. }
  destruct (c !! S p) as [v'|].
  - injection Ht as <-.
    destruct (behind_mark_cases min_days v v' x') as [->|Hlong]; [|by left].
    destruct Hx' as [->|Hlong]; [by right|by left].
  - injection Ht as <-. destruct Hx' as [->|Hlong]; [by right|by left].
Qed.

Lemma labels_are_weekday_or_long_witness :
  ∃ days, _categorize (column_from (dt_date 2024 1 5) [1; 0; 0; 0]) 3 = Returned days
    ∧ length days = 4%nat.
Proof.
  destruct (labels_are_weekday_or_long (column_from (dt_date 2024 1 5) [1; 0; 0; 0]) 3)
    as (days & Hr & Hl & _).
  - solve_flag_column.
  - discriminate.
  - by exists days.
Defined.

(** X6. Where the long-holiday labels sit, in a column that does not start
    with a holiday on a week-end and with a threshold of at least 1:
    first_day is only given to a day of weight zero (a working day: the day
    before the run), middle_days and last_day only to days of nonzero
    weight. *)
Theorem long_labels_sit_on_days_off (column : series) (min_days : Z) :
  flag_column column → column ≠ [] → 1 ≤ min_days →
  (∀ v, weights column !! 0%nat = Some v → v ≤ 1) →
  ∃ days, _categorize column min_days = Returned days
    ∧ ∀ p, (days !! p = Some first_day → weights column !! p = Some 0)
         ∧ (days !! p = Some middle_days ∨ days !! p = Some last_day →
              ∃ v, weights column !! p = Some v ∧ v ≠ 0).
Proof.
  intros Hc Hne Hm Hhead.
  destruct (categorize_run_lengths column min_days Hc Hne Hhead)
    as (days & Hr & Hlen & Hat).
  exists days. split; [done|]. intros p.
  assert (Hw : ∀ y, run_lengths 0 (weights column) !! p = Some y →
               ∃ v, weights column !! p = Some v ∧ (y = 0 → v = 0) ∧ (y ≠ 0 → v ≠ 0)).
  { intros y Hy. destruct (lookup_lt_is_Some_2 (weights column) p) as [v Hv].
    { apply lookup_lt_Some in Hy. rewrite run_lengths_length in Hy. lia. }
    exists v. split; [done|].
    pose proof (weights_range column p v Hc Hv).
    destruct (decide (v > 0)) as [Hpos|Hz].
    - destruct (run_lengths_positive (weights column) 0 p v Hv Hpos) as (y' & Hy' & ?).
      simpl in Hy'. split; intros; [|lia]. assert (y' = y) by congruence. lia.
    - pose proof (run_lengths_zero (weights column) 0 p v Hv Hz) as Hy'.
      simpl in Hy'. assert (y = v) by congruence. lia. }
  split.
  - intros Ht. rewrite Hat in Ht.
    apply label_at_first_day in Ht as [Hz _];
      [|intros x; apply default_types_not_long].
    destruct (Hw 0 Hz) as (v & Hv & Hv0 & _). rewrite Hv. f_equal. by apply Hv0.
  - intros [Ht|Ht]; rewrite Hat in Ht.
    + apply label_at_middle_days in Ht as (_ & y & Hy & Hy0 & _);
        [|intros x; apply default_types_not_long].
      destruct (Hw y Hy) as (v & Hv & _ & Hv0). exists v. split; [done|by apply Hv0].
    + apply label_at_last_day in Ht as (_ & y & Hy & Hym);
        [|intros x; apply default_types_not_long].
      destruct (Hw y Hy) as (v & Hv & _ & Hv0). exists v. split; [done|].
      apply Hv0. lia.
Qed.

Lemma long_labels_sit_on_days_off_witness :
  ∃ days, _categorize (column_from (dt_date 2024 1 3) [0; 0; 1; 0; 0; 0; 0]) 3
          = Returned days
    ∧ (days !! 1%nat = Some first_day →
         weights (column_from (dt_date 2024 1 3) [0; 0; 1; 0; 0; 0; 0]) !! 1%nat = Some 0).
Proof.
  destruct (long_labels_sit_on_days_off
              (column_from (dt_date 2024 1 3) [0; 0; 1; 0; 0; 0; 0]) 3)
    as (days & Hr & Hp).
  - solve_flag_column.
  - discriminate.
  - lia.
  - intros v Hv. vm_compute in Hv. injection Hv as <-. lia.
  - exists days. split; [done|]. apply (Hp 1%nat).
Defined.

(** X7. Raising the threshold only removes long-holiday labels: a day that
    is first_day, middle_days or last_day under a threshold carries the same
    label under every smaller threshold. *)
Theorem lower_threshold_keeps_long_labels (column : series) (m m' : Z) :
  flag_column column → column ≠ [] → m ≤ m' →
  ∃ days days', _categorize column m = Returned days
    ∧ _categorize column m' = Returned days'
    ∧ ∀ p t, days' !! p = Some t → is_long t → days !! p = Some t.
Proof.
  intros Hc Hne Hmm.
  destruct (categorize_label_at column m Hc Hne)
    as (c & days & Hs & _ & Hr & _ & Hat).
  destruct (categorize_label_at column m' Hc Hne)
    as (c' & days' & Hs' & _ & Hr' & _ & Hat').
  assert (c' = c) as -> by congruence.
  exists days, days'. split; [done|]. split; [done|]. intros p t Ht Hlong.
  rewrite Hat' in Ht. rewrite Hat. unfold label_at in *.
  destruct (default_types column !! p) as [x|] eqn:Hx; [|done].
  pose proof (default_types_not_long column p x Hx) as Hnl.
  destruct (c !! p) as [v|]; [|done]. simpl in *.
  injection Ht as <-. f_equal. unfold is_long in *.
  destruct (c !! S p) as [v'|]; destruct p as [|p];
    unfold own_mark, behind_mark in *;
    repeat case_decide; try done; try lia; tauto.
Qed.

Lemma lower_threshold_keeps_long_labels_witness :
  ∃ days days',
    _categorize (column_from (dt_date 2024 1 1) [0; 1; 1; 1; 0; 0; 0]) 2 = Returned days
    ∧ _categorize (column_from (dt_date 2024 1 1) [0; 1; 1; 1; 0; 0; 0]) 3 = Returned days'
    ∧ (days' !! 3%nat = Some last_day → days !! 3%nat = Some last_day).
Proof.
  destruct (lower_threshold_keeps_long_labels
              (column_from (dt_date 2024 1 1) [0; 1; 1; 1; 0; 0; 0]) 2 3)
    as (days & days' & Hr & Hr' & Hp).
  - solve_flag_column.
  - discriminate.
  - lia.
  - exists days, days'. split; [done|]. split; [done|].
    intros Ht. apply (Hp 3%nat last_day Ht). right. by right.
Defined.

(** X8. The threshold is not validated.  With [min_days] zero or negative
    every day between the first and the last of the range is labelled
    first_day, middle_days or last_day, holiday or not. *)
Theorem nonpositive_threshold_marks_all (column : series) (min_days : Z) :
  flag_column column → column ≠ [] → min_days ≤ 0 →
  ∃ days, _categorize column min_days = Returned days
    ∧ ∀ p, (1 ≤ p)%nat → (S p < length column)%nat →
        ∃ t, days !! p = Some t ∧ is_long t.
Proof.
  intros Hc Hne Hm.
  destruct (categorize_label_at column min_days Hc Hne)
    as (c & days & Hs & [Hlen _] & Hr & _ & Hat).
  destruct (lookup_lt_is_Some_2 (weights column) 0) as [v0 Hv0].
  { rewrite weights_length. destruct column; [done|simpl; lia]. }
  destruct (first_sweep_Forall (λ v, 0 ≤ v) (weights column) v0)
    as (c' & Hs' & _ & Hnn); [done|by eapply weights_range|..].
  { apply Forall_lookup_2. intros p v Hv.
    pose proof (weights_range column p v Hc Hv). lia. }
  { intros x Hx. lia. }
  assert (c' = c) as -> by congruence.
  exists days. split; [done|]. intros p Hp1 Hpn.
  rewrite weights_length in Hlen.
  destruct (lookup_lt_is_Some_2 c p) as [v Hv]; [lia|].
  destruct (lookup_lt_is_Some_2 c (S p)) as [v' Hv']; [lia|].
  destruct (lookup_lt_is_Some_2 (default_types column) p) as [x Hx].
  { rewrite default_types_length. lia. }
  pose proof (Forall_lookup_1 _ _ _ _ Hnn Hv) as Hv0'.
  pose proof (Forall_lookup_1 _ _ _ _ Hnn Hv') as Hv0''. simpl in *.
  rewrite Hat, (label_at_lookup _ _ _ _ x v Hx Hv), Hv'.
  destruct p as [|p]; [lia|]. cbv zeta. eexists. split; [done|].
  unfold own_mark, behind_mark, is_long.
  repeat case_decide; auto; lia.
Qed.

Lemma nonpositive_threshold_marks_all_witness :
  ∃ days, _categorize (column_from (dt_date 2024 1 1) [0; 0; 0; 0]) 0 = Returned days
    ∧ ∃ t, days !! 1%nat = Some t ∧ is_long t.
Proof.
  destruct (nonpositive_threshold_marks_all
              (column_from (dt_date 2024 1 1) [0; 0; 0; 0]) 0)
    as (days & Hr & Hp).
  - solve_flag_column.
  - discriminate.
  - lia.
  - exists days. split; [done|]. apply (Hp 1%nat); simpl; lia.
Defined.

(** * Further properties of the calendar *)

(** The loop over the countries collects the column that the labeler returns
    for each, in order. *)
Lemma collect_columns {A} (cat : nat → outcome A) (js : list nat) : ∀ acc,
  (∀ j, j ∈ js → ∃ a, cat j = Returned a) →
  ∃ cols, for_each js (λ j cols, col ← cat j; Returned (cols ++ [col])) acc
          = Returned (acc ++ cols)
        ∧ Forall2 (λ j col, cat j = Returned col) js cols.
Proof.
  induction js as [|j js IH]; intros acc Hjs.
  - exists []. by rewrite app_nil_r.
  - destruct (Hjs j) as [a Ha]; [by left|].
    destruct (IH (acc ++ [a])) as (cols & Hfor & Hall).
    { intros j' Hj'. apply Hjs. by right. }
    exists (a :: cols). cbn [for_each]. rewrite Ha, !bind_Returned, Hfor.
    split; [by rewrite <- app_assoc|by constructor].
Qed.

(** Lines 62-86 on a frame: on a valid range, and when the requested
    countries are distinct columns of the pivot table, the day-type column of
    each country is what [_categorize] returns on the dense column of that
    country. *)
Lemma build_calendar_columns (holidays : list holiday) date_from date_to cc m weekends :
  date_from ≤ date_to →
  NoDup (requested cc) →
  Forall (λ c, c ∈ pivot_columns holidays) (requested cc) →
  ∃ cols,
    build_calendar holidays date_from date_to cc m weekends
    = Returned {| cal_index := date_range date_from date_to;
                  cal_countries := requested cc;
                  cal_day_type := cols;
                  cal_flags :=
                    dense_column weekends holidays (date_range date_from date_to)
                      <$> requested cc |}
    ∧ Forall2 (λ c col,
                 _categorize
                   (dense_column weekends holidays (date_range date_from date_to) c) m
                 = Returned col)
        (requested cc) cols.
Proof.
  intros Hrange Hnd Hcols. unfold build_calendar.
  rewrite dense_calendar_rows, bind_Returned by done.
  destruct (collect_columns
              (λ j, _categorize
                      (frame_column
                         ((λ d, (d, flag_value weekends holidays d <$> requested cc))
                            <$> date_range date_from date_to) j) m)
              (seq 0 (length (requested cc))) []) as (cols & Hcat & Hall).
  { intros j Hj. apply elem_of_seq in Hj.
    destruct (lookup_lt_is_Some_2 (requested cc) j) as [c Hc]; [lia|].
    rewrite (frame_column_dense _ _ _ _ j c) by done.
    destruct (categorize_returns
                ((λ d, (d, Some (flag_value weekends holidays d c)))
                   <$> date_range date_from date_to) m) as (c' & _ & _ & Hr).
    - apply flag_column_dense.
    - intros E. apply fmap_nil_inv in E. by apply date_range_nonempty in E.
    - eauto. }
  exists cols. rewrite Hcat, bind_Returned. split.
  - f_equal. f_equal.
    + rewrite <- list_fmap_compose. simpl. apply list_fmap_id.
    + apply flag_columns_dense.
  - apply Forall2_same_length_lookup. apply Forall2_length in Hall as Hlen.
    rewrite length_seq in Hlen. split; [done|].
    intros j c col Hc Hcol.
    pose proof (Forall2_lookup_lr _ _ _ j j col Hall) as Hj.
    unfold dense_column.
    rewrite <- (frame_column_dense weekends holidays (requested cc) _ j c Hc).
    apply Hj; [|done]. apply lookup_seq. split; [done|]. by eapply lookup_lt_Some.
Qed.

Lemma list_find_date_range date_from date_to d :
  date_from ≤ d ≤ date_to →
  list_find (λ d', d' = d) (date_range date_from date_to)
  = Some (Z.to_nat (d - date_from), d).
Proof.
  intros Hd. apply list_find_Some. unfold date_range. split; [|split; [done|]].
  - apply lookup_seqZ. lia.
  - intros i y Hy Hi. apply lookup_seqZ in Hy. lia.
Qed.

Lemma list_find_date_range_None date_from date_to d :
  ¬ date_from ≤ d ≤ date_to →
  list_find (λ d', d' = d) (date_range date_from date_to) = None.
Proof.
  intros Hd. apply list_find_None. apply Forall_forall. intros y Hy.
  apply elem_of_date_range in Hy. lia.
Qed.

(** The day type of a requested country in the calendar that [load_calendar]
    builds: the entry of its labelled column at the offset of the day. *)
Lemma day_type_of_dense (dates : list Z) (codes : list string) cols flags
    (cat : string → outcome (list day_type)) d c col :
  Forall2 (λ c col, cat c = Returned col) codes cols →
  c ∈ codes → cat c = Returned col →
  day_type_of {| cal_index := dates; cal_countries := codes; cal_day_type := cols;
                 cal_flags := flags |} d c
  = i ← list_find (λ d', d' = d) dates ≫= (λ id, Some id.1); col !! i.
Proof.
  intros Hall Hc Hcol. unfold day_type_of. simpl.
  destruct (list_find_elem_of (λ c', c' = c) codes c Hc eq_refl) as [[j c'] Hj].
  rewrite Hj. simpl. apply list_find_Some in Hj as (Hj & -> & _).
  destruct (Forall2_lookup_l _ _ _ j c Hall Hj) as (col' & Hcol' & Hcat).
  rewrite Hcol'. simpl. by assert (col' = col) as -> by congruence.
Qed.

Lemma weekend_elem wd : wd ∈ [5; 6] ↔ wd = 5 ∨ wd = 6.
Proof. rewrite !elem_of_cons, elem_of_nil. tauto. Qed.

Lemma dense_column_lookup w h date_from date_to c d :
  date_from ≤ d ≤ date_to →
  dense_column w h (date_range date_from date_to) c !! Z.to_nat (d - date_from)
  = Some (d, Some (flag_value w h d c)).
Proof.
  intros Hd. unfold dense_column, date_range. rewrite list_lookup_fmap.
  rewrite (proj2 (lookup_seqZ date_from _ (Z.to_nat (d - date_from)) d)) by lia.
  done.
Qed.

Lemma weights_dense_column w h date_from date_to c d :
  date_from ≤ d ≤ date_to →
  weights (dense_column w h (date_range date_from date_to) c) !! Z.to_nat (d - date_from)
  = Some (base_weight (weekday d) (Some (flag_value w h d c))).
Proof.
  intros Hd. unfold weights. rewrite list_lookup_fmap.
  by rewrite dense_column_lookup.
Qed.

Lemma default_types_dense_column w h date_from date_to c d :
  date_from ≤ d ≤ date_to →
  default_types (dense_column w h (date_range date_from date_to) c)
    !! Z.to_nat (d - date_from)
  = Some (default_type (weekday d)).
Proof.
  intros Hd. unfold default_types, wdays. rewrite !list_lookup_fmap.
  by rewrite dense_column_lookup.
Qed.

Lemma dense_column_length w h dates c : length (dense_column w h dates c) = length dates.
Proof. unfold dense_column. by rewrite length_fmap. Qed.

Lemma dense_column_flag_column w h dates c : flag_column (dense_column w h dates c).
Proof. apply flag_column_dense. Qed.

Lemma dense_column_nonempty w h date_from date_to c :
  date_from ≤ date_to → dense_column w h (date_range date_from date_to) c ≠ [].
Proof.
  intros Hr E. apply fmap_nil_inv in E. by apply date_range_nonempty in E.
Qed.

(** * The copy of the package file *)

Lemma elem_of_py_unique (l : list string) x : x ∈ py_unique l ↔ x ∈ l.
Proof.
  induction l as [|y l IH]; [done|]. simpl.
  rewrite !elem_of_cons, list_elem_of_filter, IH.
  destruct (decide (x = y)); tauto.
Qed.

Lemma NoDup_py_unique (l : list string) : NoDup (py_unique l).
Proof.
  induction l as [|y l IH]; simpl; [constructor|].
  constructor.
  - rewrite list_elem_of_filter. tauto.
  - by apply NoDup_filter.
Qed.

Lemma requested_Some (cs : list string) : cs ≠ [] → requested (Some cs) = cs.
Proof. by destruct cs. Qed.

Lemma countries_or_all_columns (df : list holiday) :
  Forall (λ c, c ∈ pivot_columns df) (py_unique (country_code <$> df)).
Proof.
  apply Forall_forall. intros c Hc.
  by apply elem_of_pivot_columns, elem_of_py_unique.
Qed.

(** On the list of countries that it settles on, the copy of the package
    file does to the frame what lines 62-86 above do with [weekends] off. *)
Lemma package_load_calendar_eq (holidays : list holiday) date_from date_to cc m :
  countries_or_all holidays cc ≠ [] →
  Package.load_calendar holidays date_from date_to cc m
  = build_calendar holidays date_from date_to (Some (countries_or_all holidays cc)) m false.
Proof.
  intros Hne. unfold Package.load_calendar, build_calendar, dense_calendar.
  rewrite requested_Some by done.
  destruct (select_countries holidays (countries_or_all holidays cc)); [|done].
  rewrite !bind_Returned. by case_decide.
Qed.

(** The calendar of the package file for distinct countries of the table on
    a valid range. *)
Lemma package_calendar_columns (holidays : list holiday) date_from date_to cc m :
  date_from ≤ date_to →
  countries_or_all holidays cc ≠ [] →
  NoDup (countries_or_all holidays cc) →
  Forall (λ c, c ∈ pivot_columns holidays) (countries_or_all holidays cc) →
  ∃ cols,
    Package.load_calendar holidays date_from date_to cc m
    = Returned {| cal_index := date_range date_from date_to;
                  cal_countries := countries_or_all holidays cc;
                  cal_day_type := cols;
                  cal_flags :=
                    dense_column false holidays (date_range date_from date_to)
                      <$> countries_or_all holidays cc |}
    ∧ Forall2 (λ c col,
                 _categorize
                   (dense_column false holidays (date_range date_from date_to) c) m
                 = Returned col)
        (countries_or_all holidays cc) cols.
Proof.
  intros Hrange Hne Hnd Hcols.
  rewrite package_load_calendar_eq by done.
  rewrite <- (requested_Some _ Hne) in Hnd, Hcols.
  destruct (build_calendar_columns holidays date_from date_to
              (Some (countries_or_all holidays cc)) m false Hrange Hnd Hcols)
    as (cols & Hret & Hall).
  rewrite requested_Some in Hret, Hall by done. by exists cols.
Qed.

(** The day type and the flag of a country of the request on a day of the
    range. *)
Lemma package_calendar_day_type (holidays : list holiday) date_from date_to cc m c :
  date_from ≤ date_to →
  NoDup (countries_or_all holidays cc) →
  Forall (λ c, c ∈ pivot_columns holidays) (countries_or_all holidays cc) →
  c ∈ countries_or_all holidays cc →
  ∃ cal col,
    Package.load_calendar holidays date_from date_to cc m = Returned cal
    ∧ _categorize (dense_column false holidays (date_range date_from date_to) c) m
      = Returned col
    ∧ (∀ d, date_from ≤ d ≤ date_to →
         day_type_of cal d c = col !! Z.to_nat (d - date_from)
         ∧ flag_of cal d c = Some (flag_value false holidays d c)).
Proof.
  intros Hrange Hnd Hcols Hc.
  assert (Hne : countries_or_all holidays cc ≠ []).
  { intros E. rewrite E in Hc. by apply elem_of_nil in Hc. }
  destruct (package_calendar_columns holidays date_from date_to cc m Hrange Hne Hnd Hcols)
    as (cols & Hret & Hall).
  apply list_elem_of_lookup in Hc as Hj. destruct Hj as [j Hj].
  destruct (Forall2_lookup_l _ _ _ j c Hall Hj) as (col & _ & Hcol).
  eexists _, col. split; [exact Hret|]. split; [done|]. intros d Hd. split.
  - rewrite (day_type_of_dense _ _ _ _
               (λ c, _categorize
                       (dense_column false holidays (date_range date_from date_to) c) m)
               d c col Hall Hc Hcol).
    by rewrite list_find_date_range.
  - unfold dense_column. apply flag_of_dense; [|done]. by apply elem_of_date_range.
Qed.

(** With no country asked for, on a non-empty table and a valid range. *)
Lemma package_default_calendar (holidays : list holiday) date_from date_to cc m :
  holidays ≠ [] → date_from ≤ date_to → cc = None ∨ cc = Some [] →
  ∃ cols,
    Package.load_calendar holidays date_from date_to cc m
    = Returned {| cal_index := date_range date_from date_to;
                  cal_countries := py_unique (country_code <$> holidays);
                  cal_day_type := cols;
                  cal_flags :=
                    dense_column false holidays (date_range date_from date_to)
                      <$> py_unique (country_code <$> holidays) |}
    ∧ Forall2 (λ c col,
                 _categorize
                   (dense_column false holidays (date_range date_from date_to) c) m
                 = Returned col)
        (py_unique (country_code <$> holidays)) cols.
Proof.
  intros Hne Hrange Hcc.
  set (cs := py_unique (country_code <$> holidays)).
  assert (Hcs : countries_or_all holidays cc = cs) by (by destruct Hcc as [-> | ->]).
  assert (Hcsne : cs ≠ []) by (by destruct holidays).
  destruct (package_calendar_columns holidays date_from date_to cc m Hrange)
    as (cols & Hret & Hall); rewrite ?Hcs; try done.
  - apply NoDup_py_unique.
  - apply countries_or_all_columns.
  - rewrite Hcs in Hret, Hall. by exists cols.
Qed.

(** X9. The columns of a country do not depend on the other countries of the
    request.  Whenever two requests to [load_calendar] of the package file
    over the same range, each for distinct countries of the table (or for
    none, which stands for all of them), both contain a country, the two
    calendars give it the same day type and the same flag on every day of the
    range. *)
Theorem country_columns_independent (holidays : list holiday) date_from date_to
    (countries1 countries2 : option (list string)) (long_holidays : Z) (c : string) :
  date_from ≤ date_to →
  NoDup (countries_or_all holidays countries1) →
  NoDup (countries_or_all holidays countries2) →
  Forall (λ c, c ∈ pivot_columns holidays) (countries_or_all holidays countries1) →
  Forall (λ c, c ∈ pivot_columns holidays) (countries_or_all holidays countries2) →
  c ∈ countries_or_all holidays countries1 →
  c ∈ countries_or_all holidays countries2 →
  ∃ cal1 cal2,
    Package.load_calendar holidays date_from date_to countries1 long_holidays
    = Returned cal1
    ∧ Package.load_calendar holidays date_from date_to countries2 long_holidays
      = Returned cal2
    ∧ ∀ d, date_from ≤ d ≤ date_to →
        (∃ t, day_type_of cal1 d c = Some t)
        ∧ day_type_of cal1 d c = day_type_of cal2 d c
        ∧ flag_of cal1 d c = flag_of cal2 d c.
Proof.
  intros Hrange Hnd1 Hnd2 H1 H2 Hc1 Hc2.
  destruct (package_calendar_day_type holidays date_from date_to countries1 long_holidays
              c Hrange Hnd1 H1 Hc1) as (cal1 & col1 & Hr1 & Hcat1 & Hd1).
  destruct (package_calendar_day_type holidays date_from date_to countries2 long_holidays
              c Hrange Hnd2 H2 Hc2) as (cal2 & col2 & Hr2 & Hcat2 & Hd2).
  assert (col2 = col1) as -> by congruence.
  exists cal1, cal2. split; [done|]. split; [done|]. intros d Hd.
  destruct (Hd1 d Hd) as [-> ->]. destruct (Hd2 d Hd) as [-> ->].
  split; [|done].
  apply lookup_lt_is_Some_2.
  destruct (categorize_label_at
              (dense_column false holidays (date_range date_from date_to) c)
              long_holidays) as (? & days & _ & _ & Hr & Hl & _).
  { apply dense_column_flag_column. }
  { by apply dense_column_nonempty. }
  assert (days = col1) as -> by congruence.
  rewrite Hl, dense_column_length, date_range_length. lia.
Qed.

Lemma country_columns_independent_witness :
  ∃ cal1 cal2,
    Package.load_calendar [Holiday "jp" true (dt_date 2024 1 1);
                           Holiday "us" true (dt_date 2024 1 2)]
      (dt_date 2024 1 1) (dt_date 2024 1 3) (Some ["jp"]) 3 = Returned cal1
    ∧ Package.load_calendar [Holiday "jp" true (dt_date 2024 1 1);
                             Holiday "us" true (dt_date 2024 1 2)]
        (dt_date 2024 1 1) (dt_date 2024 1 3) None 3 = Returned cal2
    ∧ day_type_of cal1 (dt_date 2024 1 2) "jp" = day_type_of cal2 (dt_date 2024 1 2) "jp".
Proof.
  destruct (country_columns_independent
              [Holiday "jp" true (dt_date 2024 1 1);
               Holiday "us" true (dt_date 2024 1 2)]
              (dt_date 2024 1 1) (dt_date 2024 1 3) (Some ["jp"]) None
              3 "jp") as (cal1 & cal2 & Hr1 & Hr2 & Hd).
  - vm_compute. discriminate.
  - apply (bool_decide_unpack _). vm_compute. exact I.
  - apply (bool_decide_unpack _). vm_compute. exact I.
  - apply (bool_decide_unpack _). vm_compute. exact I.
  - apply (bool_decide_unpack _). vm_compute. exact I.
  - apply (bool_decide_unpack _). vm_compute. exact I.
  - apply (bool_decide_unpack _). vm_compute. exact I.
  - exists cal1, cal2. split; [exact Hr1|]. split; [exact Hr2|].
    destruct (Hd (dt_date 2024 1 2)) as (_ & Heq & _); [|exact Heq].
    vm_compute. split; discriminate.
Defined.

Lemma weekday_around_friday d :
  weekday d = 4 →
  weekday (d - 1) = 3 ∧ weekday (d + 1) = 5 ∧ weekday (d + 2) = 6 ∧ weekday (d + 3) = 0.
Proof. unfold weekday. intros. repeat split; Z.div_mod_to_equations; lia. Qed.

Lemma flag_value_unmarked_weekday w h d c :
  ¬ marked h d c → weekday d ≠ 5 → weekday d ≠ 6 → flag_value w h d c = 0.
Proof.
  intros Hm H5 H6. rewrite flag_value_marked, decide_False; [done|].
  rewrite weekend_elem. tauto.
Qed.

(** X10. A long week-end, end to end, in the calendar of the package file.
    When a Friday is a day off of a requested country, the Thursday before it
    and the Monday after it are not, and the range starts on a Monday-to-Friday
    date at the latest on that Thursday and runs at least to that Monday,
    every threshold from 1 to 3 labels the Thursday first_day, the Friday and
    the Saturday middle_days and the Sunday last_day. *)
Theorem long_weekend_labels (holidays : list holiday) date_from date_to
    (countries : option (list string)) (long_holidays : Z) (c : string) (d : Z) :
  NoDup (countries_or_all holidays countries) →
  Forall (λ c, c ∈ pivot_columns holidays) (countries_or_all holidays countries) →
  c ∈ countries_or_all holidays countries →
  1 ≤ long_holidays ≤ 3 →
  weekday date_from < 5 → weekday d = 4 → date_from < d → d + 3 ≤ date_to →
  marked holidays d c → ¬ marked holidays (d - 1) c → ¬ marked holidays (d + 3) c →
  ∃ cal,
    Package.load_calendar holidays date_from date_to countries long_holidays
    = Returned cal
    ∧ day_type_of cal (d - 1) c = Some first_day
    ∧ day_type_of cal d c = Some middle_days
    ∧ day_type_of cal (d + 1) c = Some middle_days
    ∧ day_type_of cal (d + 2) c = Some last_day.
Proof.
  intros Hnd Hcols Hc Hm Hstart Hfri Hfrom Hto Hd Hthu Hmon.
  destruct (weekday_around_friday d Hfri) as (Hw3 & Hw5 & Hw6 & Hw0).
  destruct (package_calendar_day_type holidays date_from date_to countries
              long_holidays c) as (cal & col & Hr & Hcat & Hday);
    [lia|done..|].
  exists cal. split; [done|].
  set (column := dense_column false holidays (date_range date_from date_to) c) in *.
  assert (Hwt : ∀ x, date_from ≤ x ≤ date_to →
            weights column !! Z.to_nat (x - date_from)
            = Some (base_weight (weekday x) (Some (flag_value false holidays x c)))).
  { intros x Hx. by apply weights_dense_column. }
  pose proof (dense_column_flag_column false holidays
                (date_range date_from date_to) c) as Hfc.
  assert (Hne : column ≠ []) by (apply dense_column_nonempty; lia).
  destruct (categorize_run_lengths column long_holidays Hfc Hne)
    as (days & Hr' & _ & Hat).
  { intros v Hv. specialize (Hwt date_from).
    replace (Z.to_nat (date_from - date_from)) with 0%nat in Hwt by lia.
    rewrite Hwt in Hv by lia. injection Hv as <-.
    unfold base_weight, fillna. simpl. rewrite decide_False by lia.
    destruct (flag_value_cases false holidays date_from c) as [-> | ->]; lia. }
  assert (days = col) as -> by congruence.
  set (s := Z.to_nat (d - 1 - date_from)).
  destruct (label_at_closed_run (weights column) (default_types column)
              long_holidays s 3) as [Hlong _].
  - by rewrite default_types_length, weights_length.
  - lia.
  - lia.
  - unfold s. rewrite Hwt by lia. rewrite Hw3.
    rewrite flag_value_unmarked_weekday by (done || lia). done.
  - intros i Hi.
    replace (s + 1 + i)%nat with (Z.to_nat (d + Z.of_nat i - date_from))
      by (unfold s; lia).
    rewrite Hwt by lia. eexists. split; [done|].
    unfold base_weight, fillna. simpl.
    destruct i as [|[|[|i]]]; [| | |lia].
    + replace (d + Z.of_nat 0) with d by lia. rewrite Hfri.
      rewrite decide_False by lia.
      rewrite flag_value_marked, decide_True by tauto. lia.
    + replace (d + Z.of_nat 1) with (d + 1) by lia. rewrite Hw5.
      rewrite decide_True by lia.
      destruct (flag_value_cases false holidays (d + 1) c) as [-> | ->]; lia.
    + replace (d + Z.of_nat 2) with (d + 2) by lia. rewrite Hw6.
      rewrite decide_True by lia.
      destruct (flag_value_cases false holidays (d + 2) c) as [-> | ->]; lia.
  - replace (s + 1 + 3)%nat with (Z.to_nat (d + 3 - date_from)) by (unfold s; lia).
    rewrite Hwt by lia. rewrite Hw0.
    rewrite flag_value_unmarked_weekday by (done || lia). done.
  - destruct Hlong as (H1 & H2 & H3); [lia|].
    destruct (Hday (d - 1)) as [-> _]; [lia|].
    destruct (Hday d) as [-> _]; [lia|].
    destruct (Hday (d + 1)) as [-> _]; [lia|].
    destruct (Hday (d + 2)) as [-> _]; [lia|].
    rewrite !Hat. fold s. split; [done|].
    replace (Z.to_nat (d - date_from)) with (s + 1 + 0)%nat by (unfold s; lia).
    replace (Z.to_nat (d + 1 - date_from)) with (s + 1 + 1)%nat by (unfold s; lia).
    replace (Z.to_nat (d + 2 - date_from)) with (s + 3)%nat by (unfold s; lia).
    split; [apply H2; lia|]. split; [apply H2; lia|done].
Qed.

Lemma long_weekend_labels_witness :
  ∃ cal,
    Package.load_calendar [Holiday "jp" true (dt_date 2024 5 3)]
      (dt_date 2024 5 1) (dt_date 2024 5 7) (Some ["jp"]) 3
    = Returned cal
    ∧ day_type_of cal (dt_date 2024 5 2) "jp" = Some first_day
    ∧ day_type_of cal (dt_date 2024 5 3) "jp" = Some middle_days
    ∧ day_type_of cal (dt_date 2024 5 4) "jp" = Some middle_days
    ∧ day_type_of cal (dt_date 2024 5 5) "jp" = Some last_day.
Proof.
  apply (long_weekend_labels [Holiday "jp" true (dt_date 2024 5 3)]
           (dt_date 2024 5 1) (dt_date 2024 5 7) (Some ["jp"]) 3 "jp"
           (dt_date 2024 5 3)).
  - apply (bool_decide_unpack _). vm_compute. exact I.
  - apply (bool_decide_unpack _). vm_compute. exact I.
  - apply (bool_decide_unpack _). vm_compute. exact I.
  - lia.
  - vm_compute. reflexivity.
  - vm_compute. reflexivity.
  - vm_compute. reflexivity.
  - vm_compute. discriminate.
  - apply (bool_decide_unpack _). vm_compute. exact I.
  - apply (bool_decide_unpack _). vm_compute. exact I.
  - apply (bool_decide_unpack _). vm_compute. exact I.
Defined.

(** X11. A quiet country, in the calendar of the package file.  When the
    table marks no day off of a requested country inside the range (the
    country occurs in the table, with days outside the range or with day_off
    false) and the threshold is at least 3, every day of the range keeps the
    label of its weekday for that country and its flag is 0. *)
Theorem quiet_country_keeps_weekday_labels (holidays : list holiday) date_from date_to
    (countries : option (list string)) (long_holidays : Z) (c : string) :
  date_from ≤ date_to →
  NoDup (countries_or_all holidays countries) →
  Forall (λ c, c ∈ pivot_columns holidays) (countries_or_all holidays countries) →
  c ∈ countries_or_all holidays countries →
  3 ≤ long_holidays →
  (∀ d, date_from ≤ d ≤ date_to → ¬ marked holidays d c) →
  ∃ cal,
    Package.load_calendar holidays date_from date_to countries long_holidays
    = Returned cal
    ∧ ∀ d, date_from ≤ d ≤ date_to →
        day_type_of cal d c = Some (default_type (weekday d))
        ∧ flag_of cal d c = Some 0.
Proof.
  intros Hrange Hnd Hcols Hc Hm Hquiet.
  destruct (package_calendar_day_type holidays date_from date_to countries
              long_holidays c Hrange Hnd Hcols Hc) as (cal & col & Hr & Hcat & Hday).
  exists cal. split; [done|].
  set (column := dense_column false holidays (date_range date_from date_to) c) in *.
  assert (Hflag : ∀ d, date_from ≤ d ≤ date_to → flag_value false holidays d c = 0).
  { intros d Hd. rewrite flag_value_marked, decide_False; [done|].
    intros [Hmk|[? _]]; [by apply (Hquiet d)|done]. }
  assert (Hcat' : _categorize column long_holidays = Returned (default_types column)).
  { apply (categorize_unflagged column date_from).
    - apply dense_column_nonempty. lia.
    - unfold column, dense_column. rewrite <- list_fmap_compose, length_fmap.
      rewrite date_range_length.
      replace (Z.of_nat (Z.to_nat (date_to - date_from + 1)))
        with (date_to - date_from + 1) by lia.
      apply list_fmap_id.
    - unfold column, dense_column. apply Forall_fmap, Forall_forall.
      intros d Hd. apply elem_of_date_range in Hd. simpl. by rewrite Hflag.
    - done. }
  assert (col = default_types column) as -> by congruence.
  intros d Hd. destruct (Hday d Hd) as [-> ->]. split.
  - by apply default_types_dense_column.
  - by rewrite Hflag.
Qed.

Lemma quiet_country_keeps_weekday_labels_witness :
  ∃ cal,
    Package.load_calendar [Holiday "jp" true (dt_date 2024 1 1);
                           Holiday "us" false (dt_date 2024 1 12)]
      (dt_date 2024 1 11) (dt_date 2024 1 14) (Some ["jp"; "us"]) 3
    = Returned cal
    ∧ day_type_of cal (dt_date 2024 1 12) "us" = Some Friday
    ∧ flag_of cal (dt_date 2024 1 12) "us" = Some 0.
Proof.
  destruct (quiet_country_keeps_weekday_labels
              [Holiday "jp" true (dt_date 2024 1 1);
               Holiday "us" false (dt_date 2024 1 12)]
              (dt_date 2024 1 11) (dt_date 2024 1 14) (Some ["jp"; "us"]) 3 "us")
    as (cal & Hr & Hd).
  - vm_compute. discriminate.
  - apply (bool_decide_unpack _). vm_compute. exact I.
  - apply (bool_decide_unpack _). vm_compute. exact I.
  - apply (bool_decide_unpack _). vm_compute. exact I.
  - lia.
  - intros d Hd Hmk. apply Exists_exists in Hmk as (h & Hin & Hdate & Hcode & Hoff).
    apply elem_of_cons in Hin as [-> | Hin].
    + discriminate Hcode.
    + apply list_elem_of_singleton in Hin as ->. discriminate Hoff.
  - exists cal. split; [exact Hr|].
    apply (Hd (dt_date 2024 1 12)). vm_compute. split; discriminate.
Defined.

(** The first sweep reads the weights for their sign only. *)
Lemma run_lengths_ext (w1 w2 : list Z) : ∀ cur,
  Forall2 (λ a b, (a > 0 ↔ b > 0) ∧ (¬ a > 0 → a = b)) w1 w2 →
  run_lengths cur w1 = run_lengths cur w2.
Proof.
  intros cur Hall. revert cur.
  induction Hall as [|a b w1 w2 [Hsign Hzero] _ IH]; intros cur; [done|]. simpl.
  destruct (decide (a > 0)) as [Ha|Ha].
  - rewrite decide_True by tauto. apply IH.
  - rewrite decide_False by tauto. rewrite (Hzero Ha), IH. done.
Qed.

(** X12. The flags of Saturdays and Sundays do not matter to the labels.
    [_categorize] counts a Saturday or Sunday as a day off whatever its flag:
    two flag columns over the same days that start on a Monday-to-Friday date
    and carry the same flags (NaN read as 0) on the days from Monday to Friday
    get the same labels. *)
Theorem weekend_flags_leave_day_types (column column' : series) (min_days : Z) :
  flag_column column → flag_column column' → column ≠ [] →
  fst <$> column = fst <$> column' →
  (∀ r, column !! 0%nat = Some r → weekday r.1 < 5) →
  (∀ i r r', column !! i = Some r → column' !! i = Some r' → weekday r.1 < 5 →
     fillna 0 r.2 = fillna 0 r'.2) →
  ∃ days,
    _categorize column min_days = Returned days
    ∧ _categorize column' min_days = Returned days
    ∧ length days = length column.
Proof.
  intros Hc Hc' Hne Hdates Hstart Hflags.
  assert (Hlen : length column' = length column).
  { by rewrite <- (length_fmap fst column'), <- Hdates, length_fmap. }
  assert (Hne' : column' ≠ []) by (intros ->; by destruct column).
  assert (Hdate : ∀ i r r', column !! i = Some r → column' !! i = Some r' → r'.1 = r.1).
  { intros i r r' Hr Hr'.
    assert (H : (fst <$> column) !! i = Some r.1) by (by rewrite list_lookup_fmap, Hr).
    rewrite Hdates, list_lookup_fmap, Hr' in H. by injection H. }
  assert (Hhead : ∀ (col : series) r v, flag_column col → col !! 0%nat = Some r →
            weekday r.1 < 5 → weights col !! 0%nat = Some v → v ≤ 1).
  { intros col r v Hfc Hr Hwd Hv. unfold weights in Hv.
    rewrite list_lookup_fmap, Hr in Hv. injection Hv as <-.
    pose proof (Forall_lookup_1 _ _ _ _ Hfc Hr) as Hf. simpl in Hf.
    unfold base_weight, fillna. rewrite decide_False by lia.
    destruct Hf as [-> | [-> | ->]]; simpl; lia. }
  destruct (lookup_lt_is_Some_2 column 0) as [r0 Hr0]; [destruct column; [done|simpl; lia]|].
  destruct (lookup_lt_is_Some_2 column' 0) as [r0' Hr0'];
    [apply lookup_lt_Some in Hr0; lia|].
  destruct (categorize_run_lengths column min_days Hc Hne) as (days & Hdays & Hl & Hat).
  { intros v. apply (Hhead column r0); [done..|]. by apply Hstart. }
  destruct (categorize_run_lengths column' min_days Hc' Hne') as (days' & Hdays' & Hl' & Hat').
  { intros v. apply (Hhead column' r0'); [done..|].
    rewrite (Hdate 0%nat r0 r0') by done. by apply Hstart. }
  exists days. split; [done|]. split; [|done].
  rewrite Hdays'. f_equal. apply list_eq. intros p. rewrite Hat, Hat'. f_equal.
  - apply run_lengths_ext. unfold weights. apply Forall2_fmap.
    apply Forall2_same_length_lookup. split; [done|].
    intros i r' r Hr' Hr. cbv beta.
    rewrite (Hdate i r r') by done.
    pose proof (Forall_lookup_1 _ _ _ _ Hc Hr) as Hf.
    pose proof (Forall_lookup_1 _ _ _ _ Hc' Hr') as Hf'. simpl in Hf, Hf'.
    unfold base_weight. case_decide as Hwe.
    + unfold fillna.
      destruct Hf as [-> | [-> | ->]], Hf' as [-> | [-> | ->]]; simpl; lia.
    + pose proof (weekday_range r.1).
      rewrite (Hflags i r r') by (done || lia). lia.
  - unfold default_types, wdays.
    assert (Hwd : ∀ col : series,
              (λ r : Z * option Z, weekday r.1) <$> col = weekday <$> (fst <$> col)).
    { intros col. by rewrite <- list_fmap_compose. }
    by rewrite !Hwd, Hdates.
Qed.

Lemma weekend_flags_leave_day_types_witness :
  ∃ days,
    _categorize (column_from (dt_date 2024 5 1) [0; 0; 1; 0; 0; 0; 0]) 3 = Returned days
    ∧ _categorize (column_from (dt_date 2024 5 1) [0; 0; 1; 1; 1; 0; 0]) 3 = Returned days
    ∧ days !! 3%nat = Some middle_days.
Proof.
  destruct (weekend_flags_leave_day_types
              (column_from (dt_date 2024 5 1) [0; 0; 1; 0; 0; 0; 0])
              (column_from (dt_date 2024 5 1) [0; 0; 1; 1; 1; 0; 0]) 3)
    as (days & Hr & Hr' & _).
  - solve_flag_column.
  - solve_flag_column.
  - discriminate.
  - reflexivity.
  - intros r Hr. injection Hr as <-. vm_compute. reflexivity.
  - intros i r r' Hr Hr' Hwd.
    do 7 (destruct i as [|i]; [injection Hr as <-; injection Hr' as <-;
                               try reflexivity; vm_compute in Hwd; discriminate Hwd|]).
    discriminate Hr.
  - exists days. split; [exact Hr|]. split; [exact Hr'|].
    vm_compute in Hr. injection Hr as <-. reflexivity.
Defined.

(** * The earlier copies of [load_calendar] *)

(** X13. With no country asked for, [load_calendar] of the package file
    takes the countries of the fetched table, each once and in the order of
    their first row, and cannot fail on a missing column: on a non-empty table
    and a valid range it returns a calendar in which every country of the
    table has, on every day of the range, a day type and the flag 1 or 0 that
    the table gives. *)
Theorem package_default_countries_returns (holidays : list holiday) date_from date_to
    (countries : option (list string)) (long_holidays : Z) :
  holidays ≠ [] → date_from ≤ date_to →
  countries = None ∨ countries = Some [] →
  ∃ cal,
    Package.load_calendar holidays date_from date_to countries long_holidays
    = Returned cal
    ∧ cal_index cal = date_range date_from date_to
    ∧ cal_countries cal = py_unique (country_code <$> holidays)
    ∧ NoDup (cal_countries cal)
    ∧ (∀ c, c ∈ cal_countries cal ↔ c ∈ country_code <$> holidays)
    ∧ ∀ d c, date_from ≤ d ≤ date_to → c ∈ country_code <$> holidays →
        (∃ t, day_type_of cal d c = Some t)
        ∧ flag_of cal d c = Some (if decide (marked holidays d c) then 1 else 0).
Proof.
  intros Hne Hrange Hcc.
  destruct (package_default_calendar holidays date_from date_to countries
              long_holidays Hne Hrange Hcc) as (cols & Hret & Hall).
  eexists. split; [exact Hret|]. cbn [cal_index cal_countries].
  split; [done|]. split; [done|]. split; [apply NoDup_py_unique|].
  split; [intros c; apply elem_of_py_unique|].
  intros d c Hd Hc. apply elem_of_py_unique in Hc.
  apply list_elem_of_lookup in Hc as Hj. destruct Hj as [j Hj].
  destruct (Forall2_lookup_l _ _ _ j c Hall Hj) as (col & _ & Hcol).
  split.
  - rewrite (day_type_of_dense _ _ _ _
               (λ c, _categorize
                       (dense_column false holidays (date_range date_from date_to) c)
                       long_holidays) d c col Hall Hc Hcol).
    rewrite list_find_date_range by done. simpl.
    apply lookup_lt_is_Some_2.
    destruct (categorize_label_at
                (dense_column false holidays (date_range date_from date_to) c)
                long_holidays) as (? & days & _ & _ & Hr & Hl & _).
    { apply dense_column_flag_column. }
    { by apply dense_column_nonempty. }
    assert (days = col) as -> by congruence.
    rewrite Hl, dense_column_length, date_range_length. lia.
  - unfold dense_column. rewrite flag_of_dense by (done || by apply elem_of_date_range).
    reflexivity.
Qed.

Lemma package_default_countries_returns_witness :
  ∃ cal,
    Package.load_calendar [Holiday "us" true (dt_date 2024 7 4);
                           Holiday "jp" true (dt_date 2024 7 15);
                           Holiday "us" false (dt_date 2024 7 5)]
      (dt_date 2024 7 3) (dt_date 2024 7 6) None 3
    = Returned cal
    ∧ cal_countries cal = ["us"; "jp"]
    ∧ flag_of cal (dt_date 2024 7 4) "us" = Some 1
    ∧ flag_of cal (dt_date 2024 7 4) "jp" = Some 0.
Proof.
  destruct (package_default_countries_returns
              [Holiday "us" true (dt_date 2024 7 4);
               Holiday "jp" true (dt_date 2024 7 15);
               Holiday "us" false (dt_date 2024 7 5)]
              (dt_date 2024 7 3) (dt_date 2024 7 6) None 3)
    as (cal & Hr & _ & Hcs & _ & _ & Hd).
  - discriminate.
  - vm_compute. discriminate.
  - by left.
  - exists cal. split; [exact Hr|]. split; [exact Hcs|]. split.
    + destruct (Hd (dt_date 2024 7 4) "us") as [_ ->].
      * vm_compute. split; discriminate.
      * apply (bool_decide_unpack _). vm_compute. exact I.
      * reflexivity.
    + destruct (Hd (dt_date 2024 7 4) "jp") as [_ ->].
      * vm_compute. split; discriminate.
      * apply (bool_decide_unpack _). vm_compute. exact I.
      * reflexivity.
Defined.

Lemma flag_of_columns (dates : list Z) (codes : list string) cols
    (g : Z → string → option Z) d c :
  d ∈ dates → c ∈ codes →
  flag_of {| cal_index := dates; cal_countries := codes; cal_day_type := cols;
             cal_flags := (λ c, (λ d, (d, g d c)) <$> dates) <$> codes |} d c
  = g d c.
Proof.
  intros Hd Hc. unfold flag_of. simpl.
  destruct (list_find_elem_of (λ c', c' = c) codes c Hc eq_refl) as [[j c'] Hj].
  rewrite Hj. simpl. apply list_find_Some in Hj as (Hj & -> & _).
  rewrite list_lookup_fmap, Hj. simpl.
  assert (Hin : (d, g d c) ∈ (λ d, (d, g d c)) <$> dates).
  { by apply (list_elem_of_fmap_2 (λ d, (d, g d c))). }
  destruct (list_find_elem_of (λ r : Z * option Z, r.1 = d) _ _ Hin eq_refl)
    as [[i r] Hi].
  rewrite Hi. simpl. apply list_find_Some in Hi as (Hi & Hr & _).
  rewrite list_lookup_fmap in Hi. destruct (dates !! i); simplify_eq/=. done.
Qed.

(** [_categorize] reads the dates of a column and its flags with NaN taken
    as 0, and nothing else. *)
Lemma categorize_ext (col1 col2 : series) m :
  weights col1 = weights col2 → default_types col1 = default_types col2 →
  _categorize col1 m = _categorize col2 m.
Proof. intros Hw Hd. unfold _categorize. by rewrite Hw, Hd. Qed.

Lemma nan_flag_value_fillna (holidays : list holiday) d c :
  fillna 0 (nan_flag_value holidays d c) = flag_value false holidays d c.
Proof.
  unfold nan_flag_value. rewrite flag_value_marked.
  destruct (decide (d ∈ date <$> holidays)) as [Hd|Hd]; simpl.
  - apply decide_ext. split; [tauto|]. intros [?|[? _]]; done.
  - rewrite decide_False; [done|]. intros [Hm|[? _]]; [|done].
    apply Hd. apply Exists_exists in Hm as (h & Hin & <- & _).
    by apply list_elem_of_fmap_2.
Qed.

(** The frame of [Api.load_calendar] after the merge. *)
Lemma api_frame (holidays : list holiday) (cs : list string) (dates : list Z) :
  merge_left dates (length cs)
    (fill_pivot ((λ d, (d, pivot_cell holidays d <$> cs)) <$> pivot_index holidays))
  = (λ d, (d, nan_flag_value holidays d <$> cs)) <$> dates.
Proof.
  assert (Hfill : fill_pivot ((λ d, (d, pivot_cell holidays d <$> cs))
                                <$> pivot_index holidays)
                  = (λ d, (d, nan_flag_value holidays d <$> cs)) <$> pivot_index holidays).
  { unfold fill_pivot. rewrite <- list_fmap_compose.
    apply list_fmap_ext. intros i d Hi. simpl. f_equal.
    rewrite <- list_fmap_compose. apply list_fmap_ext. intros _ c _. simpl.
    unfold nan_flag_value. rewrite decide_True.
    - by rewrite pivot_cell_marked.
    - apply elem_of_pivot_index. by eapply list_elem_of_lookup_2. }
  rewrite Hfill. apply merge_left_pivot; [apply NoDup_pivot_index|].
  intros d Hd. apply const_fmap. intros _ c _.
  unfold nan_flag_value. rewrite decide_False; [done|].
  by rewrite <- elem_of_pivot_index.
Qed.

Lemma nan_column_frame (holidays : list holiday) (cs : list string) (dates : list Z) j c :
  cs !! j = Some c →
  nan_column ((λ d, (d, nan_flag_value holidays d <$> cs)) <$> dates) j
  = (λ d, (d, nan_flag_value holidays d c)) <$> dates.
Proof.
  intros Hj. unfold nan_column. rewrite <- list_fmap_compose.
  apply list_fmap_ext. intros _ d _. simpl. by rewrite list_lookup_fmap, Hj.
Qed.

Lemma nan_column_categorize (holidays : list holiday) (dates : list Z) c m :
  _categorize ((λ d, (d, nan_flag_value holidays d c)) <$> dates) m
  = _categorize (dense_column false holidays dates c) m.
Proof.
  apply categorize_ext.
  - unfold weights, dense_column. rewrite <- !list_fmap_compose.
    apply list_fmap_ext. intros _ d _. simpl. unfold base_weight.
    by rewrite nan_flag_value_fillna.
  - unfold default_types, wdays, dense_column. by rewrite <- !list_fmap_compose.
Qed.

(** X14. [HolidaysApi.load_calendar] fills the flags before the merge.  For
    distinct requested countries of the table and a valid range it returns a
    calendar over the days of the range whose day types are those of
    [load_calendar] of the package file, but whose flag is NaN on every day
    that no row of the table carries (for any country), and 1 or 0 on the
    others. *)
Theorem api_calendar_nan_flags (holidays : list holiday) date_from date_to
    (cs : list string) (long_holidays : Z) :
  date_from ≤ date_to → cs ≠ [] → NoDup cs →
  Forall (λ c, c ∈ country_code <$> holidays) cs →
  ∃ cal cal',
    Api.load_calendar holidays date_from date_to (Some cs) long_holidays = Returned cal
    ∧ Package.load_calendar holidays date_from date_to (Some cs) long_holidays
      = Returned cal'
    ∧ cal_index cal = date_range date_from date_to
    ∧ ∀ d c, date_from ≤ d ≤ date_to → c ∈ cs →
        day_type_of cal d c = day_type_of cal' d c
        ∧ flag_of cal d c
          = if decide (d ∈ date <$> holidays)
            then Some (if decide (marked holidays d c) then 1 else 0)
            else None.
Proof.
  intros Hrange Hne Hnd Hin.
  assert (Hcols : Forall (λ c, c ∈ pivot_columns holidays) cs).
  { eapply Forall_impl; [exact Hin|]. intros c. apply elem_of_pivot_columns. }
  assert (Hall_cs : countries_or_all holidays (Some cs) = cs) by (by destruct cs).
  destruct (package_calendar_columns holidays date_from date_to (Some cs) long_holidays
              Hrange) as (cols & Hret & Hall); rewrite ?Hall_cs; [done..|].
  rewrite Hall_cs in Hret, Hall.
  exists {| cal_index := date_range date_from date_to;
            cal_countries := cs;
            cal_day_type := cols;
            cal_flags := (λ c, (λ d, (d, nan_flag_value holidays d c))
                                 <$> date_range date_from date_to) <$> cs |}.
  eexists. split; [|split; [exact Hret|]].
  - unfold Api.load_calendar. rewrite Hall_cs. unfold select_countries.
    rewrite decide_True, bind_Returned by done.
    rewrite (decide_True (P := NoDup cs)), bind_Returned by done. rewrite api_frame.
    destruct (collect_columns
                (λ j, _categorize
                        (nan_column
                           ((λ d, (d, nan_flag_value holidays d <$> cs))
                              <$> date_range date_from date_to) j) long_holidays)
                (seq 0 (length cs)) []) as (cols' & Hcat & Hall').
    { intros j Hj. apply elem_of_seq in Hj.
      destruct (lookup_lt_is_Some_2 cs j) as [c Hc]; [lia|].
      rewrite (nan_column_frame _ _ _ j c Hc), nan_column_categorize.
      destruct (Forall2_lookup_l _ _ _ j c Hall Hc) as (col & _ & Hcol). eauto. }
    rewrite Hcat, bind_Returned. simpl.
    assert (cols' = cols) as ->.
    { apply Forall2_length in Hall' as Hl1. apply Forall2_length in Hall as Hl2.
      rewrite length_seq in Hl1.
      apply list_eq_same_length with (length cs); [lia|lia|].
      intros j x y Hj Hx Hy.
      destruct (lookup_lt_is_Some_2 cs j) as [c Hc]; [done|].
      pose proof (Forall2_lookup_lr _ _ _ j j x Hall') as Hx'. cbv beta in Hx'.
      rewrite (nan_column_frame _ _ _ j c Hc), nan_column_categorize in Hx'.
      pose proof (Forall2_lookup_lr _ _ _ j c y Hall Hc Hy) as Hy'. cbv beta in Hy'.
      rewrite Hx' in Hy'; [congruence| |done].
      apply lookup_seq. split; [done|lia]. }
    f_equal. f_equal.
    + rewrite <- list_fmap_compose. apply list_fmap_id.
    + apply list_eq. intros j. rewrite !list_lookup_fmap.
      destruct (cs !! j) as [c|] eqn:Hj; simpl.
      * rewrite lookup_seq_lt by (by eapply lookup_lt_Some). simpl.
        f_equal. by apply nan_column_frame.
      * rewrite lookup_seq_ge; [done|]. by apply lookup_ge_None.
  - split; [done|]. intros d c Hd Hc. split.
    + apply list_elem_of_lookup in Hc as Hj. destruct Hj as [j Hj].
      destruct (Forall2_lookup_l _ _ _ j c Hall Hj) as (col & _ & Hcol).
      rewrite !(day_type_of_dense _ _ _ _
                  (λ c, _categorize
                          (dense_column false holidays (date_range date_from date_to) c)
                          long_holidays) d c col Hall Hc Hcol).
      done.
    + rewrite flag_of_columns by (done || by apply elem_of_date_range). done.
Qed.

Lemma api_calendar_nan_flags_witness :
  ∃ cal,
    Api.load_calendar [Holiday "jp" true (dt_date 2024 1 1);
                       Holiday "us" true (dt_date 2024 1 15)]
      (dt_date 2024 1 1) (dt_date 2024 1 3) (Some ["jp"; "us"]) 3 = Returned cal
    ∧ flag_of cal (dt_date 2024 1 1) "jp" = Some 1
    ∧ flag_of cal (dt_date 2024 1 1) "us" = Some 0
    ∧ flag_of cal (dt_date 2024 1 2) "jp" = None.
Proof.
  destruct (api_calendar_nan_flags
              [Holiday "jp" true (dt_date 2024 1 1);
               Holiday "us" true (dt_date 2024 1 15)]
              (dt_date 2024 1 1) (dt_date 2024 1 3) ["jp"; "us"] 3)
    as (cal & cal' & Hr & _ & _ & Hd).
  - vm_compute. discriminate.
  - discriminate.
  - apply (bool_decide_unpack _). vm_compute. exact I.
  - apply (bool_decide_unpack _). vm_compute. exact I.
  - exists cal. split; [exact Hr|].
    assert (Hin : ∀ c, c = "jp" ∨ c = "us" → c ∈ ["jp"; "us"]).
    { intros c [-> | ->]; apply (bool_decide_unpack _); vm_compute; exact I. }
    split; [|split].
    + destruct (Hd (dt_date 2024 1 1) "jp") as [_ ->]; [|by apply Hin; left|].
      * vm_compute. split; discriminate.
      * reflexivity.
    + destruct (Hd (dt_date 2024 1 1) "us") as [_ ->]; [|by apply Hin; right|].
      * vm_compute. split; discriminate.
      * reflexivity.
    + destruct (Hd (dt_date 2024 1 2) "jp") as [_ ->]; [|by apply Hin; left|].
      * vm_compute. split; discriminate.
      * reflexivity.
Defined.

(** * The frame of holidays *)

Lemma result_bind_Done {A B} (f : A → result B) (a : A) : (Done a ≫= f) = f a.
Proof. reflexivity. Qed.

Lemma foldl_append_rows {A B} (f : A → B) (ds : list A) : ∀ buffer : list B,
  foldl (λ buffer d, buffer ++ [f d]) buffer ds = buffer ++ (f <$> ds).
Proof.
  induction ds as [|d ds IH]; intros buffer; simpl.
  - by rewrite app_nil_r.
  - rewrite IH, <- app_assoc. done.
Qed.

(** One holiday of the response in the loop of the newer [load_holidays]. *)
Lemma buffer_holiday_cases (holiday : raw_holiday) (buffer : list holiday_row) :
  Utils.buffer_holiday holiday buffer
  = match raw_dates holiday with
    | Absent => Failed (Builtin KeyError)
    | Null => Failed (Builtin TypeError)
    | Value _ => Done (buffer ++ expand holiday)
    end.
Proof.
  unfold Utils.buffer_holiday, expand.
  destruct (raw_dates holiday) as [| |ds]; simpl; [done|done|].
  by rewrite foldl_append_rows.
Qed.

Lemma utils_loop (holidays_raw : list raw_holiday) : ∀ buffer,
  Forall (λ h, ∃ ds, raw_dates h = Value ds) holidays_raw →
  each holidays_raw Utils.buffer_holiday buffer
  = Done (buffer ++ (holidays_raw ≫= expand)).
Proof.
  induction holidays_raw as [|h l IH]; intros buffer Hall.
  - simpl. by rewrite app_nil_r.
  - apply Forall_cons_1 in Hall as [[ds Hds] Hall].
    cbn [each]. rewrite buffer_holiday_cases, Hds, result_bind_Done, IH by done.
    by rewrite bind_cons, app_assoc.
Qed.

Lemma utils_loop_fails (holidays_raw : list raw_holiday) : ∀ buffer,
  Exists (λ h, raw_dates h = Absent ∨ raw_dates h = Null) holidays_raw →
  ∃ e, each holidays_raw Utils.buffer_holiday buffer = Failed e
     ∧ (e = Builtin KeyError ∨ e = Builtin TypeError).
Proof.
  induction holidays_raw as [|h l IH]; intros buffer Hex.
  - by apply Exists_nil in Hex.
  - cbn [each]. rewrite buffer_holiday_cases.
    destruct (raw_dates h) as [| |ds] eqn:Hds.
    + exists (Builtin KeyError). split; [done|by left].
    + exists (Builtin TypeError). split; [done|by right].
    + rewrite result_bind_Done. apply IH.
      apply Exists_cons in Hex as [[?|?]|Hex]; [congruence|congruence|done].
Qed.

Lemma utils_load_holidays (holidays_raw : list raw_holiday) :
  Forall (λ h, ∃ ds, raw_dates h = Value ds) holidays_raw →
  Utils.load_holidays holidays_raw = Done (holidays_raw ≫= expand).
Proof.
  intros Hall. unfold Utils.load_holidays. by rewrite utils_loop.
Qed.

(** X15. The frame of the newer [load_holidays].  When every holiday of the
    response has a list of dates, the frame holds, holiday after holiday in
    the order of the response, one row per date of the holiday, also when a
    date is repeated, with the members of the holiday (null where the holiday
    lacks one); a holiday without a date leaves no row.  When some holiday has
    no 'dates' member, or a null one, no frame is returned: the call fails
    with KeyError or TypeError. *)
Theorem load_holidays_rows (holidays_raw : list raw_holiday) :
  (Forall (λ h, ∃ ds, raw_dates h = Value ds) holidays_raw →
     Utils.load_holidays holidays_raw = Done (holidays_raw ≫= expand)
     ∧ length (holidays_raw ≫= expand)
       = sum_list ((λ h, length (default [] (dict_get (raw_dates h)))) <$> holidays_raw))
  ∧ (Exists (λ h, raw_dates h = Absent ∨ raw_dates h = Null) holidays_raw →
       Utils.load_holidays holidays_raw = Failed (Builtin KeyError)
       ∨ Utils.load_holidays holidays_raw = Failed (Builtin TypeError)).
Proof.
  split.
  - intros Hall. split; [by apply utils_load_holidays|].
    clear Hall. induction holidays_raw as [|h l IH]; [done|].
    rewrite bind_cons, length_app, IH. simpl. f_equal.
    unfold expand. by rewrite length_fmap.
  - intros Hex. destruct (utils_loop_fails holidays_raw [] Hex) as (e & He & Hcase).
    unfold Utils.load_holidays. rewrite He. simpl.
    destruct Hcase as [-> | ->]; [by left|by right].
Qed.

Lemma load_holidays_rows_witness :
  Utils.load_holidays
    [RawHoliday (Value "jp") (Value "New Year") (Value true) (Value false) Null Absent
       (Value [dt_date 2024 1 1; dt_date 2024 1 2]);
     RawHoliday (Value "us") Absent (Value false) Absent Absent Absent (Value [])]
  = Done [HolidayRow (Some "jp") (Some "New Year") (Some true) (Some false) None None
            (dt_date 2024 1 1);
          HolidayRow (Some "jp") (Some "New Year") (Some true) (Some false) None None
            (dt_date 2024 1 2)].
Proof.
  destruct (load_holidays_rows
              [RawHoliday (Value "jp") (Value "New Year") (Value true) (Value false)
                 Null Absent (Value [dt_date 2024 1 1; dt_date 2024 1 2]);
               RawHoliday (Value "us") Absent (Value false) Absent Absent Absent
                 (Value [])]) as [Hrows _].
  destruct Hrows as [Hr _]; [|exact Hr].
  repeat (apply Forall_cons_2; [eexists; reflexivity|]). apply Forall_nil_2.
Defined.

Lemma dict_item_present {A} (m : member A) : m ≠ Absent → dict_item m = Done (dict_get m).
Proof. by destruct m. Qed.

Lemma concat_holiday_cases (holiday : raw_holiday) holidays_df :
  complete holiday →
  Api.concat_holiday holiday holidays_df
  = match raw_dates holiday with
    | Absent => Failed (Builtin KeyError)
    | Null => Failed (Builtin TypeError)
    | Value _ => Done (Some (default [] holidays_df ++ (nan_row <$> expand holiday)))
    end.
Proof.
  intros (H1 & H2 & H3 & H4 & H5 & H6). unfold Api.concat_holiday, expand.
  rewrite (dict_item_present (raw_country_code holiday)), result_bind_Done by done.
  rewrite (dict_item_present (raw_en_name holiday)), result_bind_Done by done.
  rewrite (dict_item_present (raw_day_off holiday)), result_bind_Done by done.
  rewrite (dict_item_present (raw_observed holiday)), result_bind_Done by done.
  rewrite (dict_item_present (raw_created_at holiday)), result_bind_Done by done.
  rewrite (dict_item_present (raw_updated_at holiday)), result_bind_Done by done.
  destruct (raw_dates holiday) as [| |ds]; [done|done|]. simpl.
  by rewrite <- list_fmap_compose.
Qed.

Lemma api_loop (holidays_raw : list raw_holiday) : ∀ (holidays_df : option (list product_row))
    (buffer : list holiday_row),
  Forall complete holidays_raw →
  default [] holidays_df = nan_row <$> buffer →
  each holidays_raw Api.concat_holiday holidays_df
  = match each holidays_raw Utils.buffer_holiday buffer with
    | Done buffer' =>
        Done (match holidays_raw with
              | [] => holidays_df
              | _ => Some (nan_row <$> buffer')
              end)
    | Failed e => Failed e
    end.
Proof.
  induction holidays_raw as [|h l IH]; intros holidays_df buffer Hall Hdf; [done|].
  apply Forall_cons_1 in Hall as [Hh Hall]. cbn [each].
  rewrite concat_holiday_cases, buffer_holiday_cases by done.
  destruct (raw_dates h) as [| |ds]; [done|done|].
  rewrite !result_bind_Done.
  rewrite (IH _ (buffer ++ expand h)); [|done|by rewrite fmap_app, Hdf].
  destruct l as [|h' l]; [|done].
  cbn [each]. by rewrite fmap_app, Hdf.
Qed.

(** X16. The two copies of [load_holidays].  On a response that is not empty
    and whose holidays all have the six members that the earlier copy
    subscripts, the two copies fail with the same exception or both return a
    frame, with the same rows in the same order but for the nulls: where the
    frame of the newer copy holds [None], that of the earlier copy holds NaN.
    On an empty response the newer copy returns an empty frame and the earlier
    one fails with AttributeError. *)
Theorem load_holidays_copies_agree (holidays_raw : list raw_holiday) :
  Forall complete holidays_raw →
  Api.load_holidays holidays_raw
  = match holidays_raw with
    | [] => Failed AttributeError
    | _ =>
        match Utils.load_holidays holidays_raw with
        | Done rows => Done (nan_row <$> rows)
        | Failed e => Failed e
        end
    end
  ∧ Utils.load_holidays [] = Done [].
Proof.
  intros Hall. split; [|done].
  unfold Api.load_holidays, Utils.load_holidays.
  rewrite (api_loop holidays_raw None []) by done.
  destruct holidays_raw as [|h l]; [done|].
  by destruct (each (h :: l) Utils.buffer_holiday []).
Qed.

Lemma load_holidays_copies_agree_witness :
  Utils.load_holidays
    [RawHoliday (Value "jp") (Value "Coming of Age Day") (Value true) Null
       (Value "2023-11-01") (Value "2023-11-01") (Value [dt_date 2024 1 8])]
  = Done [HolidayRow (Some "jp") (Some "Coming of Age Day") (Some true) None
            (Some "2023-11-01") (Some "2023-11-01") (dt_date 2024 1 8)]
  ∧ Api.load_holidays
      [RawHoliday (Value "jp") (Value "Coming of Age Day") (Value true) Null
         (Value "2023-11-01") (Value "2023-11-01") (Value [dt_date 2024 1 8])]
    = Done [ProductRow (Cell "jp") (Cell "Coming of Age Day") (Cell true) NaN
              (Cell "2023-11-01") (Cell "2023-11-01") (dt_date 2024 1 8)].
Proof.
  split; [reflexivity|].
  destruct (load_holidays_copies_agree
              [RawHoliday (Value "jp") (Value "Coming of Age Day") (Value true) Null
                 (Value "2023-11-01") (Value "2023-11-01") (Value [dt_date 2024 1 8])])
    as [Heq _]; [|exact Heq].
  apply Forall_cons_2; [|apply Forall_nil_2].
  repeat split; discriminate.
Defined.

(** * From the response to the calendar *)

Lemma frame_of_rows_expand (holidays_raw : list raw_holiday) :
  Forall (λ h, ∃ c off ds, raw_country_code h = Value c ∧ raw_day_off h = Value off
                           ∧ raw_dates h = Value ds) holidays_raw →
  frame_of_rows (holidays_raw ≫= expand) = Some (holidays_raw ≫= typed_rows).
Proof.
  intros Hall. unfold frame_of_rows. apply mapM_Some.
  induction Hall as [|h l (c & off & ds & Hc & Hoff & Hds) _ IH]; [constructor|].
  rewrite !bind_cons. apply Forall2_app; [|done].
  unfold expand, typed_rows. rewrite Hc, Hoff, Hds. simpl.
  apply Forall2_fmap, Forall_Forall2_diag, Forall_forall. by intros d _.
Qed.

Lemma elem_of_typed_rows (holidays_raw : list raw_holiday) c off d :
  Holiday c off d ∈ holidays_raw ≫= typed_rows ↔ Exists (lists_day c off d) holidays_raw.
Proof.
  rewrite list_elem_of_bind, Exists_exists. split.
  - intros (h & Hin & Hh). exists h. split; [done|].
    unfold typed_rows in Hin. unfold lists_day.
    destruct (raw_country_code h) as [| |c'], (raw_day_off h) as [| |off'];
      simpl in Hin; try by apply elem_of_nil in Hin.
    apply list_elem_of_fmap in Hin as (d' & Heq & Hd'). injection Heq as -> -> ->.
    destruct (raw_dates h) as [| |ds]; simpl in Hd'; try by apply elem_of_nil in Hd'.
    eauto.
  - intros (h & Hh & Hc & Hoff & ds & Hds & Hd). exists h. split; [|done].
    unfold typed_rows. rewrite Hc, Hoff, Hds. simpl.
    by apply (list_elem_of_fmap_2 (Holiday c off)).
Qed.

Lemma marked_typed_rows (holidays_raw : list raw_holiday) d c :
  marked (holidays_raw ≫= typed_rows) d c ↔ Exists (lists_day c true d) holidays_raw.
Proof.
  rewrite <- elem_of_typed_rows. unfold marked. rewrite Exists_exists. split.
  - intros ([c' off d'] & Hin & Hd & Hc & Hoff). simpl in *. by subst.
  - intros Hin. by exists (Holiday c true d).
Qed.

Lemma country_of_typed_rows (holidays_raw : list raw_holiday) c :
  c ∈ country_code <$> (holidays_raw ≫= typed_rows)
  ↔ ∃ off d, Exists (lists_day c off d) holidays_raw.
Proof.
  rewrite list_elem_of_fmap. split.
  - intros ([c' off d] & -> & Hin). exists off, d. by apply elem_of_typed_rows.
  - intros (off & d & Hex). exists (Holiday c off d). split; [done|].
    by apply elem_of_typed_rows.
Qed.

(** X17. From the response of the API to the calendar of the package file
    (load_holidays, then load_calendar with no country asked for).  When
    every holiday of the response has a country code, a day_off value and a
    list of dates, and some holiday lists a date, then on every valid range
    the frame is built and the calendar is returned, and for every country
    with a row and every day of the range the flag is 1 exactly when some
    holiday of that country with day_off true lists the day, and 0
    otherwise. *)
Theorem response_to_calendar_flags (holidays_raw : list raw_holiday) date_from date_to
    (long_holidays : Z) :
  Forall (λ h, ∃ c off ds, raw_country_code h = Value c ∧ raw_day_off h = Value off
                           ∧ raw_dates h = Value ds) holidays_raw →
  (∃ c off d, Exists (lists_day c off d) holidays_raw) →
  date_from ≤ date_to →
  ∃ rows df cal,
    Utils.load_holidays holidays_raw = Done rows
    ∧ frame_of_rows rows = Some df
    ∧ Package.load_calendar df date_from date_to None long_holidays = Returned cal
    ∧ ∀ d c, date_from ≤ d ≤ date_to →
        (∃ off d', Exists (lists_day c off d') holidays_raw) →
        (Exists (lists_day c true d) holidays_raw → flag_of cal d c = Some 1)
        ∧ (¬ Exists (lists_day c true d) holidays_raw → flag_of cal d c = Some 0).
Proof.
  intros Hall (c0 & off0 & d0 & Hsome) Hrange.
  exists (holidays_raw ≫= expand), (holidays_raw ≫= typed_rows).
  assert (Hne : holidays_raw ≫= typed_rows ≠ []).
  { apply elem_of_typed_rows in Hsome. intros E. rewrite E in Hsome.
    by apply elem_of_nil in Hsome. }
  destruct (package_default_calendar (holidays_raw ≫= typed_rows) date_from date_to
              None long_holidays Hne Hrange) as (cols & Hret & _); [by left|].
  eexists. split; [|split; [|split; [exact Hret|]]].
  - apply utils_load_holidays. eapply Forall_impl; [exact Hall|].
    intros h (c & off & ds & _ & _ & Hds). eauto.
  - by apply frame_of_rows_expand.
  - intros d c Hd Hc. apply country_of_typed_rows, elem_of_py_unique in Hc.
    unfold dense_column.
    rewrite flag_of_dense by (done || by apply elem_of_date_range).
    rewrite flag_value_marked, <- marked_typed_rows. split; intros Hm.
    + rewrite decide_True; [done|by left].
    + rewrite decide_False; [done|]. intros [?|[? _]]; done.
Qed.

Lemma response_to_calendar_flags_witness :
  ∃ cal,
    Package.load_calendar [Holiday "jp" true (dt_date 2024 1 1);
                           Holiday "jp" true (dt_date 2024 1 2);
                           Holiday "us" false (dt_date 2024 1 2)]
      (dt_date 2024 1 1) (dt_date 2024 1 3) None 3 = Returned cal
    ∧ flag_of cal (dt_date 2024 1 2) "jp" = Some 1
    ∧ flag_of cal (dt_date 2024 1 2) "us" = Some 0
    ∧ flag_of cal (dt_date 2024 1 3) "jp" = Some 0.
Proof.
  destruct (response_to_calendar_flags
              [RawHoliday (Value "jp") (Value "New Year") (Value true) Null Absent
                 Absent (Value [dt_date 2024 1 1; dt_date 2024 1 2]);
               RawHoliday (Value "us") Null (Value false) Null Absent Absent
                 (Value [dt_date 2024 1 2])]
              (dt_date 2024 1 1) (dt_date 2024 1 3) 3)
    as (rows & df & cal & Hrows & Hdf & Hcal & Hflag).
  - repeat (apply Forall_cons_2; [do 3 eexists; repeat split; reflexivity|]).
    apply Forall_nil_2.
  - exists "jp", true, (dt_date 2024 1 1). apply Exists_cons_hd.
    split; [reflexivity|]. split; [reflexivity|]. eexists. split; [reflexivity|].
    by left.
  - vm_compute. discriminate.
  - vm_compute in Hrows. injection Hrows as <-.
    vm_compute in Hdf. injection Hdf as <-.
    assert (Hjp : Exists (lists_day "jp" true (dt_date 2024 1 2))
                    [RawHoliday (Value "jp") (Value "New Year") (Value true) Null Absent
                       Absent (Value [dt_date 2024 1 1; dt_date 2024 1 2]);
                     RawHoliday (Value "us") Null (Value false) Null Absent Absent
                       (Value [dt_date 2024 1 2])]).
    { apply Exists_cons_hd. split; [reflexivity|]. split; [reflexivity|].
      eexists. split; [reflexivity|]. right. by left. }
    assert (Hus : Exists (lists_day "us" false (dt_date 2024 1 2))
                    [RawHoliday (Value "jp") (Value "New Year") (Value true) Null Absent
                       Absent (Value [dt_date 2024 1 1; dt_date 2024 1 2]);
                     RawHoliday (Value "us") Null (Value false) Null Absent Absent
                       (Value [dt_date 2024 1 2])]).
    { apply Exists_cons_tl, Exists_cons_hd. split; [reflexivity|].
      split; [reflexivity|]. eexists. split; [reflexivity|]. by left. }
    exists cal. split; [exact Hcal|]. split; [|split].
    + apply (Hflag (dt_date 2024 1 2) "jp"); [vm_compute; split; discriminate|eauto|done].
    + apply (Hflag (dt_date 2024 1 2) "us"); [vm_compute; split; discriminate|eauto|].
      intros Hex. apply Exists_cons in Hex as [(Hc & _)|Hex]; [discriminate Hc|].
      apply Exists_cons in Hex as [(_ & Hoff & _)|Hex]; [discriminate Hoff|].
      by apply Exists_nil in Hex.
    + apply (Hflag (dt_date 2024 1 3) "jp"); [vm_compute; split; discriminate|eauto|].
      intros Hex. apply Exists_cons in Hex as [(_ & _ & ds & Hds & Hin)|Hex].
      * injection Hds as <-. apply elem_of_cons in Hin as [Hin|Hin]; [discriminate Hin|].
        apply list_elem_of_singleton in Hin. discriminate Hin.
      * apply Exists_cons in Hex as [(Hc & _)|Hex]; [discriminate Hc|].
        by apply Exists_nil in Hex.
Defined.

(** * Authentication *)

Lemma token_truthy (st : machine) :
  truthy (_token st) = true → token st = Done (_token st).
Proof. intros H. unfold token. by rewrite H. Qed.

Lemma token_falsy (st : machine) :
  truthy (_token st) = false → token st = Failed AssertionError.
Proof. intros H. unfold token. by rewrite H. Qed.

Lemma can_use_token_fresh (now t : Z) (st : machine) :
  _token_time st = Some t → now - t ≤ TOKEN_LIFETIME → truthy (_token st) = true →
  _can_use_token now st = Done true.
Proof.
  intros Ht Hnow Htok. unfold _can_use_token. rewrite Ht.
  rewrite decide_False by lia. by rewrite token_truthy.
Qed.

Lemma machine_eta (st : machine) :
  {| _token := _token st; _token_time := _token_time st; file := file st;
     posted := posted st |} = st.
Proof. by destruct st. Qed.

(** X18. After [auth] has returned, forced or not, the object holds a
    non-empty token and the time it dates from, so the property [token] does
    not fail; and as long as the clock is within TOKEN_LIFETIME (23 hours) of
    that time, a further [auth()] returns at once: no request, no change of
    the object or of the file. *)
Theorem auth_establishes_token (force : bool) (env : environment) (st st1 : machine) :
  auth force env st = (Done (), st1) →
  truthy (_token st1) = true
  ∧ token st1 = Done (_token st1)
  ∧ ∃ t, _token_time st1 = Some t
       ∧ ∀ env', now_token env' - t ≤ TOKEN_LIFETIME →
           auth false env' st1 = (Done (), st1).
Proof.
  intros Hauth.
  assert (Hok : truthy (_token st1) = true ∧ ∃ t, _token_time st1 = Some t).
  { unfold auth in Hauth.
    destruct (if force then Done false else _can_use_token (now_token env) st)
      as [[|]|e] eqn:Hcan; [| |done].
    - injection Hauth as <-. destruct force; [done|].
      unfold _can_use_token in Hcan.
      destruct (_token_time st) as [t|]; [|done].
      case_decide; [done|]. unfold token in Hcan.
      destruct (truthy (_token st)); [|done]. eauto.
    - destruct (negb force && _can_use_token_file (now_file env) st).
      + unfold load_token in Hauth.
        destruct (file st) as [f|]; [|done].
        destruct (pickled f) as [value|]; [|done]. cbv zeta in Hauth.
        unfold token in Hauth. cbn [_token] in Hauth.
        destruct (truthy value) eqn:Hv; [|done].
        injection Hauth as <-. simpl. eauto.
      + unfold request_token in Hauth. cbv zeta in Hauth.
        destruct (response env) as [[status r_json]|e]; [|done].
        case_decide; [|done].
        destruct r_json as [[| |s]|]; [done| | |done].
        * unfold set_token in Hauth. simpl in Hauth. done.
        * unfold set_token in Hauth. cbn [dict_get] in Hauth.
          destruct (truthy (Some s)) eqn:Hs; [|done].
          destruct (now_write env); [|done].
          injection Hauth as <-. simpl. eauto. }
  destruct Hok as [Htok [t Ht]].
  split; [done|]. split; [by apply token_truthy|].
  exists t. split; [done|]. intros env' Hnow. unfold auth.
  by rewrite (can_use_token_fresh _ t).
Qed.

Lemma auth_establishes_token_witness :
  auth false (Environment 1000 0 (Failed RequestException) 0 None)
    (Machine (Some "abc") (Some 0) None 0)
  = (Done (), Machine (Some "abc") (Some 0) None 0)
  ∧ token (Machine (Some "abc") (Some 0) None 0) = Done (Some "abc").
Proof.
  destruct (auth_establishes_token false
              (Environment 1000 0 (Failed RequestException) 0 None)
              (Machine (Some "abc") (Some 0) None 0)
              (Machine (Some "abc") (Some 0) None 0))
    as (_ & Htok & _).
  - reflexivity.
  - split; [reflexivity|exact Htok].
Defined.

(** X19. When [auth] sends a request.  Exactly one request is sent when
    [force] is set, or when neither the token of the object nor the token file
    can be used; none is sent otherwise, whether the call returns or
    fails. *)
Theorem auth_requests_iff (force : bool) (env : environment) (st : machine) :
  (force = true
   ∨ _can_use_token (now_token env) st = Done false
     ∧ _can_use_token_file (now_file env) st = false →
   posted (auth force env st).2 = S (posted st))
  ∧ (force = false
     ∧ (_can_use_token (now_token env) st ≠ Done false
        ∨ _can_use_token_file (now_file env) st = true) →
     posted (auth force env st).2 = posted st).
Proof.
  assert (Hreq : posted (request_token env st).2 = S (posted st)).
  { unfold request_token. cbv zeta.
    destruct (response env) as [[status r_json]|e]; [|done].
    case_decide; [|done].
    destruct r_json as [[| |s]|]; [done| | |done].
    - done.
    - unfold set_token. cbn [dict_get].
      destruct (truthy (Some s)); [|done]. by destruct (now_write env). }
  assert (Hload : posted (load_token st).2 = posted st).
  { unfold load_token. destruct (file st) as [f|]; [|done].
    destruct (pickled f) as [value|]; [|done]. cbv zeta.
    by destruct (token _). }
  split.
  - intros [-> | [Hcan Hfile]]; unfold auth.
    + done.
    + destruct force; [done|]. by rewrite Hcan, Hfile.
  - intros [-> Hor]. unfold auth.
    destruct (_can_use_token (now_token env) st) as [[|]|e] eqn:Hcan; [done| |done].
    destruct Hor as [?|Hfile]; [done|]. by rewrite Hfile.
Qed.

Lemma auth_requests_iff_witness :
  posted (auth true (Environment 0 0 (Failed RequestException) 0 None)
            (Machine (Some "abc") (Some 0) None 7)).2 = 8%nat.
Proof.
  apply (auth_requests_iff true (Environment 0 0 (Failed RequestException) 0 None)
           (Machine (Some "abc") (Some 0) None 7)).
  by left.
Defined.

(** X20. The token file carries the token from one object to the next.  When
    a forced [auth] gets the status 200 and a non-empty token, and the file
    can be written, then a new object (no token, no token time) that calls
    [auth()] while the clock is within TOKEN_LIFETIME of the time stamp of
    the file gets that token from the file, dated by the time stamp, without
    a request. *)
Theorem token_file_round_trip (env env2 : environment) (st : machine)
    (s : string) (w : Z) (p : nat) :
  response env = Done (200, Some (Value s)) → s ≠ EmptyString →
  now_write env = Some w →
  now_file env2 - w ≤ TOKEN_LIFETIME →
  ∃ st1,
    auth true env st = (Done (), st1)
    ∧ _token st1 = Some s ∧ _token_time st1 = Some (now_set env)
    ∧ posted st1 = S (posted st)
    ∧ auth false env2 {| _token := None; _token_time := None; file := file st1;
                         posted := p |}
      = (Done (), {| _token := Some s; _token_time := Some w; file := file st1;
                     posted := p |}).
Proof.
  intros Hresp Hs Hw Hnow.
  assert (Htruthy : truthy (Some s) = true).
  { simpl. by apply bool_decide_eq_true. }
  eexists. split.
  - unfold auth, request_token. simpl. rewrite Hresp. simpl.
    unfold set_token. rewrite Htruthy, Hw. cbn [_token _token_time file posted].
    reflexivity.
  - cbn [_token _token_time file posted]. split; [done|]. split; [done|].
    split; [done|].
    unfold auth, _can_use_token, _can_use_token_file, load_token, token.
    cbn [_token _token_time file posted pickled mtime negb andb].
    rewrite decide_False by lia. cbn [andb]. by rewrite Htruthy.
Qed.

Lemma token_file_round_trip_witness :
  ∃ st1,
    auth true (Environment 5 5 (Done (200, Some (Value "abc"))) 6 (Some 7))
      (Machine None None None 0) = (Done (), st1)
    ∧ auth false (Environment 100 100 (Failed RequestException) 100 None)
        (Machine None None (file st1) 0)
      = (Done (), Machine (Some "abc") (Some 7) (file st1) 0).
Proof.
  destruct (token_file_round_trip
              (Environment 5 5 (Done (200, Some (Value "abc"))) 6 (Some 7))
              (Environment 100 100 (Failed RequestException) 100 None)
              (Machine None None None 0) "abc" 7 0)
    as (st1 & H1 & _ & _ & _ & H2).
  - reflexivity.
  - discriminate.
  - reflexivity.
  - vm_compute. discriminate.
  - exists st1. split; [exact H1|exact H2].
Defined.

(** X21. A token file without a token.  When a new object finds a token
    file within its lifetime whose content unpickles to [None] or to the
    empty string, [auth()] fails with AssertionError without a request, and
    it leaves the object with the time stamp of the file as token time: from
    then on every [auth()] fails with AssertionError, without a request and
    whatever becomes of the file, until the clock is more than TOKEN_LIFETIME
    past the time stamp. *)
Theorem broken_token_file_sticks (env : environment) (st : machine)
    (f : token_file) (value : option string) :
  _token_time st = None → file st = Some f →
  pickled f = Some value → truthy value = false →
  now_file env - mtime f ≤ TOKEN_LIFETIME →
  ∃ st1,
    auth false env st = (Failed AssertionError, st1)
    ∧ posted st1 = posted st
    ∧ _token_time st1 = Some (mtime f)
    ∧ ∀ env' file',
        now_token env' - mtime f ≤ TOKEN_LIFETIME →
        auth false env' {| _token := _token st1; _token_time := _token_time st1;
                           file := file'; posted := posted st1 |}
        = (Failed AssertionError,
           {| _token := _token st1; _token_time := _token_time st1;
              file := file'; posted := posted st1 |}).
Proof.
  intros Htime Hfile Hpick Hfalsy Hnow.
  eexists. split; [|split; [|split]].
  - unfold auth, _can_use_token, _can_use_token_file, load_token.
    rewrite Htime, Hfile. cbn [negb andb]. rewrite decide_False by lia.
    rewrite Hpick. cbv zeta. rewrite token_falsy by done. reflexivity.
  - done.
  - done.
  - intros env' file' Hnow'. cbn [_token _token_time posted].
    unfold auth, _can_use_token. cbn [_token_time negb].
    rewrite decide_False by lia. by rewrite token_falsy.
Qed.

Lemma broken_token_file_sticks_witness :
  ∃ st1,
    auth false (Environment 10 10 (Done (200, Some (Value "abc"))) 10 (Some 10))
      (Machine None None (Some (TokenFile (Some None) 3)) 0)
    = (Failed AssertionError, st1)
    ∧ posted st1 = 0%nat.
Proof.
  destruct (broken_token_file_sticks
              (Environment 10 10 (Done (200, Some (Value "abc"))) 10 (Some 10))
              (Machine None None (Some (TokenFile (Some None) 3)) 0)
              (TokenFile (Some None) 3) None)
    as (st1 & H1 & H2 & _).
  - reflexivity.
  - reflexivity.
  - reflexivity.
  - reflexivity.
  - vm_compute. discriminate.
  - exists st1. split; [exact H1|exact H2].
Defined.

(** * How the calendar of the package file fails *)

(** X22. How [load_calendar] of the package file fails on a request that
    names countries: no check of the request precedes the work.  A country
    without a row in the table raises KeyError at the selection of the
    columns; countries of the table of which one is named twice raise
    ValueError at the assignment of the filled flags; and distinct countries
    of the table on a range whose start is after its end raise the IndexError
    of the labeler on the empty column of the first country. *)
Theorem package_calendar_failures (holidays : list holiday) date_from date_to
    (cs : list string) (long_holidays : Z) :
  cs ≠ [] →
  (¬ Forall (λ c, c ∈ country_code <$> holidays) cs →
     Package.load_calendar holidays date_from date_to (Some cs) long_holidays
     = Raised KeyError)
  ∧ (Forall (λ c, c ∈ country_code <$> holidays) cs → ¬ NoDup cs →
       Package.load_calendar holidays date_from date_to (Some cs) long_holidays
       = Raised ValueError)
  ∧ (Forall (λ c, c ∈ country_code <$> holidays) cs → NoDup cs →
       date_to < date_from →
       Package.load_calendar holidays date_from date_to (Some cs) long_holidays
       = Raised IndexError).
Proof.
  intros Hne.
  assert (Hcs : countries_or_all holidays (Some cs) = cs) by (by destruct cs).
  assert (Hcols : Forall (λ c, c ∈ country_code <$> holidays) cs
                  ↔ Forall (λ c, c ∈ pivot_columns holidays) (requested (Some cs))).
  { rewrite requested_Some by done. apply Forall_proper; [|done].
    intros c. by rewrite elem_of_pivot_columns. }
  rewrite package_load_calendar_eq by (by rewrite Hcs). rewrite Hcs.
  unfold build_calendar. split; [|split].
  - intros Hin. rewrite Hcols in Hin. by rewrite dense_calendar_KeyError.
  - intros Hin Hnd. rewrite Hcols in Hin.
    rewrite dense_calendar_ValueError; [done|done|]. by rewrite requested_Some.
  - intros Hin Hnd Hrange. rewrite Hcols in Hin.
    rewrite dense_calendar_rows, bind_Returned by (done || by rewrite requested_Some).
    rewrite date_range_empty by done. rewrite requested_Some by done.
    destruct cs as [|c cs]; [done|]. reflexivity.
Qed.

Lemma package_calendar_failures_witness :
  Package.load_calendar [Holiday "jp" true (dt_date 2024 1 3)]
    (dt_date 2024 1 1) (dt_date 2024 1 7) (Some ["jp"; "jp"]) 3
  = Raised ValueError.
Proof.
  destruct (package_calendar_failures [Holiday "jp" true (dt_date 2024 1 3)]
              (dt_date 2024 1 1) (dt_date 2024 1 7) ["jp"; "jp"] 3)
    as (_ & Hdup & _); [discriminate|].
  apply Hdup.
  - apply (bool_decide_unpack _). vm_compute. exact I.
  - intros Hnd. apply NoDup_cons in Hnd as [Hnot _]. apply Hnot. by left.
Defined.
